(** * Order-progress backend: request authentication and stage resolution

    A shallow embedding of the two serverless handlers of the repository
    (the handler of [src/unnamed/part_000], called [Progress] below, and the
    handler of [src/api/order-status.js], called [OrderStatus]) together with
    the helpers they share by duplication: [verifyProxySignature],
    [shopifyGraphQL], [computeStage], [getMessage], [wantsHtml].

    Conventions of the embedding.
    - A JavaScript string is kept as its UTF-8 encoding ([string]), the
      bytes Node hashes and compares.  [trim], [toLowerCase], [toUpperCase]
      and the default comparison of [Array.prototype.sort] are defined on
      the characters and UTF-16 code units read from it.
    - A value that may be [undefined] or [null] is an [option].
    - [Date] values are integral milliseconds ([Z]); a date that fails to
      parse yields [NaN].  The quotient by the length of a day is taken
      exactly, which agrees with the double-precision computation of the
      source for all differences below 2^53 ms.
    - An exception is an explicit [Throw]; the [try]/[catch] of the handlers
      turns it into a 500 response.
    - The only effect of a handler, the call to the Shopify endpoint, is
      recorded in a log of the calls made. *)

From stdpp Require Import base tactics option list sorting gmap strings fin_maps pretty lexico.
From Stdlib Require Import Ascii ZArith Lia.

Local Open Scope Z_scope.

(** ** JavaScript primitives used by the handlers *)

Module Js.

(** [!!x] for a value that is a string or [undefined]. *)
Definition truthy (o : option string) : bool :=
  match o with
  | Some s => negb (String.eqb s "")
  | None => false
  end.

(** [a || b] on such values. *)
Definition or_else (a b : option string) : option string :=
  if truthy a then a else b.

(** [a || d] where [d] is a string literal. *)
Definition or_default (a : option string) (d : string) : string :=
  match a with
  | Some s => if String.eqb s "" then d else s
  | None => d
  end.

(** *** Characters

    A JavaScript string is a sequence of UTF-16 code units.  The embedding
    keeps a string as its UTF-8 encoding, which is what [createHmac] hashes
    and what [Buffer.from] yields, and reads the characters by decoding.
    Query parameters, header values and the strings of a JSON document are
    well-formed; on other byte strings a byte that begins no well-formed
    sequence is read as U+FFFD and handed on as it is. *)

Definition byte (c : ascii) : Z := Z.of_N (N_of_ascii c).

Fixpoint bytes (s : string) : list Z :=
  match s with
  | EmptyString => []
  | String c r => byte c :: bytes r
  end.

Fixpoint ofBytes (l : list Z) : string :=
  match l with
  | [] => EmptyString
  | b :: r => String (ascii_of_N (Z.to_N b)) (ofBytes r)
  end.

(** A character: its code point and the bytes it was read from. *)
Record Char : Type := {
  code : Z;
  text : string }.

Definition continuation (c : ascii) : bool :=
  (0x80 <=? byte c) && (byte c <=? 0xBF).

(** The first character of the string [String b0 r0], and what follows it. *)
Definition next (b0 : ascii) (r0 : string) : Char * string :=
  let n0 := byte b0 in
  let bad := ({| code := 0xFFFD; text := String b0 "" |}, r0) in
  if n0 <? 0x80 then ({| code := n0; text := String b0 "" |}, r0)
  else if (0xC2 <=? n0) && (n0 <=? 0xDF) then
    match r0 with
    | String b1 r1 =>
        if continuation b1
        then ({| code := (n0 - 0xC0) * 64 + (byte b1 - 0x80);
                 text := String b0 (String b1 "") |}, r1)
        else bad
    | _ => bad
    end
  else if (0xE0 <=? n0) && (n0 <=? 0xEF) then
    match r0 with
    | String b1 (String b2 r2) =>
        let cp := (n0 - 0xE0) * 4096 + (byte b1 - 0x80) * 64 + (byte b2 - 0x80) in
        if continuation b1 && continuation b2
           && (0x800 <=? cp) && negb ((0xD800 <=? cp) && (cp <=? 0xDFFF))
        then ({| code := cp; text := String b0 (String b1 (String b2 "")) |}, r2)
        else bad
    | _ => bad
    end
  else if (0xF0 <=? n0) && (n0 <=? 0xF4) then
    match r0 with
    | String b1 (String b2 (String b3 r3)) =>
        let cp := (n0 - 0xF0) * 262144 + (byte b1 - 0x80) * 4096
                  + (byte b2 - 0x80) * 64 + (byte b3 - 0x80) in
        if continuation b1 && continuation b2 && continuation b3
           && (0x10000 <=? cp) && (cp <=? 0x10FFFF)
        then ({| code := cp;
                 text := String b0 (String b1 (String b2 (String b3 ""))) |}, r3)
        else bad
    | _ => bad
    end
  else bad.

(** The characters of a string.  Every step takes at least one byte, so
    the length of the string is fuel enough (lemma [chars_join]). *)
Fixpoint charsFrom (fuel : nat) (s : string) : list Char :=
  match fuel, s with
  | S fuel, String b r => let (c, rest) := next b r in c :: charsFrom fuel rest
  | _, _ => []
  end.

Definition chars (s : string) : list Char := charsFrom (String.length s) s.

Definition codePoints (s : string) : list Z := code <$> chars s.

Definition join (l : list Char) : string :=
  foldr (λ c r, text c +:+ r) "" l.

(** The UTF-8 encoding of a code point. *)
Definition encode (cp : Z) : string :=
  ofBytes
    (if cp <? 0x80 then [cp]
     else if cp <? 0x800 then [0xC0 + cp / 64; 0x80 + (cp `mod` 64)]
     else if cp <? 0x10000 then
       [0xE0 + cp / 4096; 0x80 + ((cp / 64) `mod` 64); 0x80 + (cp `mod` 64)]
     else
       [0xF0 + cp / 262144; 0x80 + ((cp / 4096) `mod` 64);
        0x80 + ((cp / 64) `mod` 64); 0x80 + (cp `mod` 64)]).

Definition encodeAll (cps : list Z) : string :=
  foldr (λ cp r, encode cp +:+ r) "" cps.

(** The UTF-16 code units of a code point. *)
Definition units (cp : Z) : list Z :=
  if cp <? 0x10000 then [cp]
  else [0xD800 + (cp - 0x10000) / 1024; 0xDC00 + ((cp - 0x10000) `mod` 1024)].

Definition codeUnits (s : string) : list Z := codePoints s ≫= units.

(** *** [String.prototype.trim]

    White space (ECMAScript, 12.2 and 12.3): TAB, VT, FF, ZWNBSP, the
    space separators of Unicode (category Zs), and the line terminators
    LF, CR, LS and PS. *)
Definition isWhiteSpace (cp : Z) : bool :=
  bool_decide
    (cp ∈ [0x9; 0xA; 0xB; 0xC; 0xD; 0x20; 0xA0; 0x1680; 0x2028; 0x2029;
           0x202F; 0x205F; 0x3000; 0xFEFF])
  || ((0x2000 <=? cp) && (cp <=? 0x200A)).

Fixpoint dropWhiteSpace (l : list Char) : list Char :=
  match l with
  | [] => []
  | c :: r => if isWhiteSpace (code c) then dropWhiteSpace r else l
  end.

Definition trim (s : string) : string :=
  join (reverse (dropWhiteSpace (reverse (dropWhiteSpace (chars s))))).

(** *** [String.prototype.toLowerCase] and [toUpperCase]

    The default case conversion of Unicode (the tables of version 14.0):
    the simple mappings of UnicodeData.txt as runs [(first, last, step,
    offset)], every [step]-th code point of the run being mapped to itself
    plus [offset]; the unconditional mappings of SpecialCasing.txt to
    several code points; and the one rule that depends on the context, the
    final sigma. *)

Definition lowerRuns : list (Z * Z * Z * Z) :=
  [
    (0x41, 0x5A, 1, 32); (0xC0, 0xD6, 1, 32); (0xD8, 0xDE, 1, 32);
    (0x100, 0x12E, 2, 1); (0x132, 0x136, 2, 1); (0x139, 0x147, 2, 1);
    (0x14A, 0x176, 2, 1); (0x178, 0x178, 1, (-121)); (0x179, 0x17D, 2, 1);
    (0x181, 0x181, 1, 210); (0x182, 0x184, 2, 1); (0x186, 0x186, 1, 206);
    (0x187, 0x187, 1, 1); (0x189, 0x18A, 1, 205); (0x18B, 0x18B, 1, 1);
    (0x18E, 0x18E, 1, 79); (0x18F, 0x18F, 1, 202); (0x190, 0x190, 1, 203);
    (0x191, 0x191, 1, 1); (0x193, 0x193, 1, 205); (0x194, 0x194, 1, 207);
    (0x196, 0x196, 1, 211); (0x197, 0x197, 1, 209); (0x198, 0x198, 1, 1);
    (0x19C, 0x19C, 1, 211); (0x19D, 0x19D, 1, 213); (0x19F, 0x19F, 1, 214);
    (0x1A0, 0x1A4, 2, 1); (0x1A6, 0x1A6, 1, 218); (0x1A7, 0x1A7, 1, 1);
    (0x1A9, 0x1A9, 1, 218); (0x1AC, 0x1AC, 1, 1); (0x1AE, 0x1AE, 1, 218);
    (0x1AF, 0x1AF, 1, 1); (0x1B1, 0x1B2, 1, 217); (0x1B3, 0x1B5, 2, 1);
    (0x1B7, 0x1B7, 1, 219); (0x1B8, 0x1B8, 1, 1); (0x1BC, 0x1BC, 1, 1);
    (0x1C4, 0x1C4, 1, 2); (0x1C5, 0x1C5, 1, 1); (0x1C7, 0x1C7, 1, 2);
    (0x1C8, 0x1C8, 1, 1); (0x1CA, 0x1CA, 1, 2); (0x1CB, 0x1DB, 2, 1);
    (0x1DE, 0x1EE, 2, 1); (0x1F1, 0x1F1, 1, 2); (0x1F2, 0x1F4, 2, 1);
    (0x1F6, 0x1F6, 1, (-97)); (0x1F7, 0x1F7, 1, (-56)); (0x1F8, 0x21E, 2, 1);
    (0x220, 0x220, 1, (-130)); (0x222, 0x232, 2, 1); (0x23A, 0x23A, 1, 10795);
    (0x23B, 0x23B, 1, 1); (0x23D, 0x23D, 1, (-163)); (0x23E, 0x23E, 1, 10792);
    (0x241, 0x241, 1, 1); (0x243, 0x243, 1, (-195)); (0x244, 0x244, 1, 69);
    (0x245, 0x245, 1, 71); (0x246, 0x24E, 2, 1); (0x370, 0x372, 2, 1);
    (0x376, 0x376, 1, 1); (0x37F, 0x37F, 1, 116); (0x386, 0x386, 1, 38);
    (0x388, 0x38A, 1, 37); (0x38C, 0x38C, 1, 64); (0x38E, 0x38F, 1, 63);
    (0x391, 0x3A1, 1, 32); (0x3A3, 0x3AB, 1, 32); (0x3CF, 0x3CF, 1, 8);
    (0x3D8, 0x3EE, 2, 1); (0x3F4, 0x3F4, 1, (-60)); (0x3F7, 0x3F7, 1, 1);
    (0x3F9, 0x3F9, 1, (-7)); (0x3FA, 0x3FA, 1, 1); (0x3FD, 0x3FF, 1, (-130));
    (0x400, 0x40F, 1, 80); (0x410, 0x42F, 1, 32); (0x460, 0x480, 2, 1);
    (0x48A, 0x4BE, 2, 1); (0x4C0, 0x4C0, 1, 15); (0x4C1, 0x4CD, 2, 1);
    (0x4D0, 0x52E, 2, 1); (0x531, 0x556, 1, 48); (0x10A0, 0x10C5, 1, 7264);
    (0x10C7, 0x10C7, 1, 7264); (0x10CD, 0x10CD, 1, 7264); (0x13A0, 0x13EF, 1, 38864);
    (0x13F0, 0x13F5, 1, 8); (0x1C90, 0x1CBA, 1, (-3008)); (0x1CBD, 0x1CBF, 1, (-3008));
    (0x1E00, 0x1E94, 2, 1); (0x1E9E, 0x1E9E, 1, (-7615)); (0x1EA0, 0x1EFE, 2, 1);
    (0x1F08, 0x1F0F, 1, (-8)); (0x1F18, 0x1F1D, 1, (-8)); (0x1F28, 0x1F2F, 1, (-8));
    (0x1F38, 0x1F3F, 1, (-8)); (0x1F48, 0x1F4D, 1, (-8)); (0x1F59, 0x1F5F, 2, (-8));
    (0x1F68, 0x1F6F, 1, (-8)); (0x1F88, 0x1F8F, 1, (-8)); (0x1F98, 0x1F9F, 1, (-8));
    (0x1FA8, 0x1FAF, 1, (-8)); (0x1FB8, 0x1FB9, 1, (-8)); (0x1FBA, 0x1FBB, 1, (-74));
    (0x1FBC, 0x1FBC, 1, (-9)); (0x1FC8, 0x1FCB, 1, (-86)); (0x1FCC, 0x1FCC, 1, (-9));
    (0x1FD8, 0x1FD9, 1, (-8)); (0x1FDA, 0x1FDB, 1, (-100)); (0x1FE8, 0x1FE9, 1, (-8));
    (0x1FEA, 0x1FEB, 1, (-112)); (0x1FEC, 0x1FEC, 1, (-7)); (0x1FF8, 0x1FF9, 1, (-128));
    (0x1FFA, 0x1FFB, 1, (-126)); (0x1FFC, 0x1FFC, 1, (-9)); (0x2126, 0x2126, 1, (-7517));
    (0x212A, 0x212A, 1, (-8383)); (0x212B, 0x212B, 1, (-8262)); (0x2132, 0x2132, 1, 28);
    (0x2160, 0x216F, 1, 16); (0x2183, 0x2183, 1, 1); (0x24B6, 0x24CF, 1, 26);
    (0x2C00, 0x2C2F, 1, 48); (0x2C60, 0x2C60, 1, 1); (0x2C62, 0x2C62, 1, (-10743));
    (0x2C63, 0x2C63, 1, (-3814)); (0x2C64, 0x2C64, 1, (-10727)); (0x2C67, 0x2C6B, 2, 1);
    (0x2C6D, 0x2C6D, 1, (-10780)); (0x2C6E, 0x2C6E, 1, (-10749)); (0x2C6F, 0x2C6F, 1, (-10783));
    (0x2C70, 0x2C70, 1, (-10782)); (0x2C72, 0x2C72, 1, 1); (0x2C75, 0x2C75, 1, 1);
    (0x2C7E, 0x2C7F, 1, (-10815)); (0x2C80, 0x2CE2, 2, 1); (0x2CEB, 0x2CED, 2, 1);
    (0x2CF2, 0x2CF2, 1, 1); (0xA640, 0xA66C, 2, 1); (0xA680, 0xA69A, 2, 1);
    (0xA722, 0xA72E, 2, 1); (0xA732, 0xA76E, 2, 1); (0xA779, 0xA77B, 2, 1);
    (0xA77D, 0xA77D, 1, (-35332)); (0xA77E, 0xA786, 2, 1); (0xA78B, 0xA78B, 1, 1);
    (0xA78D, 0xA78D, 1, (-42280)); (0xA790, 0xA792, 2, 1); (0xA796, 0xA7A8, 2, 1);
    (0xA7AA, 0xA7AA, 1, (-42308)); (0xA7AB, 0xA7AB, 1, (-42319)); (0xA7AC, 0xA7AC, 1, (-42315));
    (0xA7AD, 0xA7AD, 1, (-42305)); (0xA7AE, 0xA7AE, 1, (-42308)); (0xA7B0, 0xA7B0, 1, (-42258));
    (0xA7B1, 0xA7B1, 1, (-42282)); (0xA7B2, 0xA7B2, 1, (-42261)); (0xA7B3, 0xA7B3, 1, 928);
    (0xA7B4, 0xA7C2, 2, 1); (0xA7C4, 0xA7C4, 1, (-48)); (0xA7C5, 0xA7C5, 1, (-42307));
    (0xA7C6, 0xA7C6, 1, (-35384)); (0xA7C7, 0xA7C9, 2, 1); (0xA7D0, 0xA7D0, 1, 1);
    (0xA7D6, 0xA7D8, 2, 1); (0xA7F5, 0xA7F5, 1, 1); (0xFF21, 0xFF3A, 1, 32);
    (0x10400, 0x10427, 1, 40); (0x104B0, 0x104D3, 1, 40); (0x10570, 0x10594, 2, 39);
    (0x10571, 0x10579, 2, 39); (0x1057D, 0x10589, 2, 39); (0x1058D, 0x10591, 2, 39);
    (0x10595, 0x10595, 1, 39); (0x10C80, 0x10CB2, 1, 64); (0x118A0, 0x118BF, 1, 32);
    (0x16E40, 0x16E5F, 1, 32); (0x1E900, 0x1E921, 1, 34) ].

Definition lowerSpecials : list (Z * list Z) :=
  [
    (0x130, [0x69; 0x307]) ].

Definition upperRuns : list (Z * Z * Z * Z) :=
  [
    (0x61, 0x7A, 1, (-32)); (0xB5, 0xB5, 1, 743); (0xE0, 0xF6, 1, (-32));
    (0xF8, 0xFE, 1, (-32)); (0xFF, 0xFF, 1, 121); (0x101, 0x12F, 2, (-1));
    (0x131, 0x131, 1, (-232)); (0x133, 0x137, 2, (-1)); (0x13A, 0x148, 2, (-1));
    (0x14B, 0x177, 2, (-1)); (0x17A, 0x17E, 2, (-1)); (0x17F, 0x17F, 1, (-300));
    (0x180, 0x180, 1, 195); (0x183, 0x185, 2, (-1)); (0x188, 0x188, 1, (-1));
    (0x18C, 0x18C, 1, (-1)); (0x192, 0x192, 1, (-1)); (0x195, 0x195, 1, 97);
    (0x199, 0x199, 1, (-1)); (0x19A, 0x19A, 1, 163); (0x19E, 0x19E, 1, 130);
    (0x1A1, 0x1A5, 2, (-1)); (0x1A8, 0x1A8, 1, (-1)); (0x1AD, 0x1AD, 1, (-1));
    (0x1B0, 0x1B0, 1, (-1)); (0x1B4, 0x1B6, 2, (-1)); (0x1B9, 0x1B9, 1, (-1));
    (0x1BD, 0x1BD, 1, (-1)); (0x1BF, 0x1BF, 1, 56); (0x1C5, 0x1C5, 1, (-1));
    (0x1C6, 0x1C6, 1, (-2)); (0x1C8, 0x1C8, 1, (-1)); (0x1C9, 0x1C9, 1, (-2));
    (0x1CB, 0x1CB, 1, (-1)); (0x1CC, 0x1CC, 1, (-2)); (0x1CE, 0x1DC, 2, (-1));
    (0x1DD, 0x1DD, 1, (-79)); (0x1DF, 0x1EF, 2, (-1)); (0x1F2, 0x1F2, 1, (-1));
    (0x1F3, 0x1F3, 1, (-2)); (0x1F5, 0x1F5, 1, (-1)); (0x1F9, 0x21F, 2, (-1));
    (0x223, 0x233, 2, (-1)); (0x23C, 0x23C, 1, (-1)); (0x23F, 0x240, 1, 10815);
    (0x242, 0x242, 1, (-1)); (0x247, 0x24F, 2, (-1)); (0x250, 0x250, 1, 10783);
    (0x251, 0x251, 1, 10780); (0x252, 0x252, 1, 10782); (0x253, 0x253, 1, (-210));
    (0x254, 0x254, 1, (-206)); (0x256, 0x257, 1, (-205)); (0x259, 0x259, 1, (-202));
    (0x25B, 0x25B, 1, (-203)); (0x25C, 0x25C, 1, 42319); (0x260, 0x260, 1, (-205));
    (0x261, 0x261, 1, 42315); (0x263, 0x263, 1, (-207)); (0x265, 0x265, 1, 42280);
    (0x266, 0x266, 1, 42308); (0x268, 0x268, 1, (-209)); (0x269, 0x269, 1, (-211));
    (0x26A, 0x26A, 1, 42308); (0x26B, 0x26B, 1, 10743); (0x26C, 0x26C, 1, 42305);
    (0x26F, 0x26F, 1, (-211)); (0x271, 0x271, 1, 10749); (0x272, 0x272, 1, (-213));
    (0x275, 0x275, 1, (-214)); (0x27D, 0x27D, 1, 10727); (0x280, 0x280, 1, (-218));
    (0x282, 0x282, 1, 42307); (0x283, 0x283, 1, (-218)); (0x287, 0x287, 1, 42282);
    (0x288, 0x288, 1, (-218)); (0x289, 0x289, 1, (-69)); (0x28A, 0x28B, 1, (-217));
    (0x28C, 0x28C, 1, (-71)); (0x292, 0x292, 1, (-219)); (0x29D, 0x29D, 1, 42261);
    (0x29E, 0x29E, 1, 42258); (0x345, 0x345, 1, 84); (0x371, 0x373, 2, (-1));
    (0x377, 0x377, 1, (-1)); (0x37B, 0x37D, 1, 130); (0x3AC, 0x3AC, 1, (-38));
    (0x3AD, 0x3AF, 1, (-37)); (0x3B1, 0x3C1, 1, (-32)); (0x3C2, 0x3C2, 1, (-31));
    (0x3C3, 0x3CB, 1, (-32)); (0x3CC, 0x3CC, 1, (-64)); (0x3CD, 0x3CE, 1, (-63));
    (0x3D0, 0x3D0, 1, (-62)); (0x3D1, 0x3D1, 1, (-57)); (0x3D5, 0x3D5, 1, (-47));
    (0x3D6, 0x3D6, 1, (-54)); (0x3D7, 0x3D7, 1, (-8)); (0x3D9, 0x3EF, 2, (-1));
    (0x3F0, 0x3F0, 1, (-86)); (0x3F1, 0x3F1, 1, (-80)); (0x3F2, 0x3F2, 1, 7);
    (0x3F3, 0x3F3, 1, (-116)); (0x3F5, 0x3F5, 1, (-96)); (0x3F8, 0x3F8, 1, (-1));
    (0x3FB, 0x3FB, 1, (-1)); (0x430, 0x44F, 1, (-32)); (0x450, 0x45F, 1, (-80));
    (0x461, 0x481, 2, (-1)); (0x48B, 0x4BF, 2, (-1)); (0x4C2, 0x4CE, 2, (-1));
    (0x4CF, 0x4CF, 1, (-15)); (0x4D1, 0x52F, 2, (-1)); (0x561, 0x586, 1, (-48));
    (0x10D0, 0x10FA, 1, 3008); (0x10FD, 0x10FF, 1, 3008); (0x13F8, 0x13FD, 1, (-8));
    (0x1C80, 0x1C80, 1, (-6254)); (0x1C81, 0x1C81, 1, (-6253)); (0x1C82, 0x1C82, 1, (-6244));
    (0x1C83, 0x1C84, 1, (-6242)); (0x1C85, 0x1C85, 1, (-6243)); (0x1C86, 0x1C86, 1, (-6236));
    (0x1C87, 0x1C87, 1, (-6181)); (0x1C88, 0x1C88, 1, 35266); (0x1D79, 0x1D79, 1, 35332);
    (0x1D7D, 0x1D7D, 1, 3814); (0x1D8E, 0x1D8E, 1, 35384); (0x1E01, 0x1E95, 2, (-1));
    (0x1E9B, 0x1E9B, 1, (-59)); (0x1EA1, 0x1EFF, 2, (-1)); (0x1F00, 0x1F07, 1, 8);
    (0x1F10, 0x1F15, 1, 8); (0x1F20, 0x1F27, 1, 8); (0x1F30, 0x1F37, 1, 8);
    (0x1F40, 0x1F45, 1, 8); (0x1F51, 0x1F57, 2, 8); (0x1F60, 0x1F67, 1, 8);
    (0x1F70, 0x1F71, 1, 74); (0x1F72, 0x1F75, 1, 86); (0x1F76, 0x1F77, 1, 100);
    (0x1F78, 0x1F79, 1, 128); (0x1F7A, 0x1F7B, 1, 112); (0x1F7C, 0x1F7D, 1, 126);
    (0x1FB0, 0x1FB1, 1, 8); (0x1FBE, 0x1FBE, 1, (-7205)); (0x1FD0, 0x1FD1, 1, 8);
    (0x1FE0, 0x1FE1, 1, 8); (0x1FE5, 0x1FE5, 1, 7); (0x214E, 0x214E, 1, (-28));
    (0x2170, 0x217F, 1, (-16)); (0x2184, 0x2184, 1, (-1)); (0x24D0, 0x24E9, 1, (-26));
    (0x2C30, 0x2C5F, 1, (-48)); (0x2C61, 0x2C61, 1, (-1)); (0x2C65, 0x2C65, 1, (-10795));
    (0x2C66, 0x2C66, 1, (-10792)); (0x2C68, 0x2C6C, 2, (-1)); (0x2C73, 0x2C73, 1, (-1));
    (0x2C76, 0x2C76, 1, (-1)); (0x2C81, 0x2CE3, 2, (-1)); (0x2CEC, 0x2CEE, 2, (-1));
    (0x2CF3, 0x2CF3, 1, (-1)); (0x2D00, 0x2D25, 1, (-7264)); (0x2D27, 0x2D27, 1, (-7264));
    (0x2D2D, 0x2D2D, 1, (-7264)); (0xA641, 0xA66D, 2, (-1)); (0xA681, 0xA69B, 2, (-1));
    (0xA723, 0xA72F, 2, (-1)); (0xA733, 0xA76F, 2, (-1)); (0xA77A, 0xA77C, 2, (-1));
    (0xA77F, 0xA787, 2, (-1)); (0xA78C, 0xA78C, 1, (-1)); (0xA791, 0xA793, 2, (-1));
    (0xA794, 0xA794, 1, 48); (0xA797, 0xA7A9, 2, (-1)); (0xA7B5, 0xA7C3, 2, (-1));
    (0xA7C8, 0xA7CA, 2, (-1)); (0xA7D1, 0xA7D1, 1, (-1)); (0xA7D7, 0xA7D9, 2, (-1));
    (0xA7F6, 0xA7F6, 1, (-1)); (0xAB53, 0xAB53, 1, (-928)); (0xAB70, 0xABBF, 1, (-38864));
    (0xFF41, 0xFF5A, 1, (-32)); (0x10428, 0x1044F, 1, (-40)); (0x104D8, 0x104FB, 1, (-40));
    (0x10597, 0x105BB, 2, (-39)); (0x10598, 0x105A0, 2, (-39)); (0x105A4, 0x105B0, 2, (-39));
    (0x105B4, 0x105B8, 2, (-39)); (0x105BC, 0x105BC, 1, (-39)); (0x10CC0, 0x10CF2, 1, (-64));
    (0x118C0, 0x118DF, 1, (-32)); (0x16E60, 0x16E7F, 1, (-32)); (0x1E922, 0x1E943, 1, (-34)) ].

Definition upperSpecials : list (Z * list Z) :=
  [
    (0xDF, [0x53; 0x53]); (0x149, [0x2BC; 0x4E]); (0x1F0, [0x4A; 0x30C]);
    (0x390, [0x399; 0x308; 0x301]); (0x3B0, [0x3A5; 0x308; 0x301]); (0x587, [0x535; 0x552]);
    (0x1E96, [0x48; 0x331]); (0x1E97, [0x54; 0x308]); (0x1E98, [0x57; 0x30A]);
    (0x1E99, [0x59; 0x30A]); (0x1E9A, [0x41; 0x2BE]); (0x1F50, [0x3A5; 0x313]);
    (0x1F52, [0x3A5; 0x313; 0x300]); (0x1F54, [0x3A5; 0x313; 0x301]); (0x1F56, [0x3A5; 0x313; 0x342]);
    (0x1F80, [0x1F08; 0x399]); (0x1F81, [0x1F09; 0x399]); (0x1F82, [0x1F0A; 0x399]);
    (0x1F83, [0x1F0B; 0x399]); (0x1F84, [0x1F0C; 0x399]); (0x1F85, [0x1F0D; 0x399]);
    (0x1F86, [0x1F0E; 0x399]); (0x1F87, [0x1F0F; 0x399]); (0x1F88, [0x1F08; 0x399]);
    (0x1F89, [0x1F09; 0x399]); (0x1F8A, [0x1F0A; 0x399]); (0x1F8B, [0x1F0B; 0x399]);
    (0x1F8C, [0x1F0C; 0x399]); (0x1F8D, [0x1F0D; 0x399]); (0x1F8E, [0x1F0E; 0x399]);
    (0x1F8F, [0x1F0F; 0x399]); (0x1F90, [0x1F28; 0x399]); (0x1F91, [0x1F29; 0x399]);
    (0x1F92, [0x1F2A; 0x399]); (0x1F93, [0x1F2B; 0x399]); (0x1F94, [0x1F2C; 0x399]);
    (0x1F95, [0x1F2D; 0x399]); (0x1F96, [0x1F2E; 0x399]); (0x1F97, [0x1F2F; 0x399]);
    (0x1F98, [0x1F28; 0x399]); (0x1F99, [0x1F29; 0x399]); (0x1F9A, [0x1F2A; 0x399]);
    (0x1F9B, [0x1F2B; 0x399]); (0x1F9C, [0x1F2C; 0x399]); (0x1F9D, [0x1F2D; 0x399]);
    (0x1F9E, [0x1F2E; 0x399]); (0x1F9F, [0x1F2F; 0x399]); (0x1FA0, [0x1F68; 0x399]);
    (0x1FA1, [0x1F69; 0x399]); (0x1FA2, [0x1F6A; 0x399]); (0x1FA3, [0x1F6B; 0x399]);
    (0x1FA4, [0x1F6C; 0x399]); (0x1FA5, [0x1F6D; 0x399]); (0x1FA6, [0x1F6E; 0x399]);
    (0x1FA7, [0x1F6F; 0x399]); (0x1FA8, [0x1F68; 0x399]); (0x1FA9, [0x1F69; 0x399]);
    (0x1FAA, [0x1F6A; 0x399]); (0x1FAB, [0x1F6B; 0x399]); (0x1FAC, [0x1F6C; 0x399]);
    (0x1FAD, [0x1F6D; 0x399]); (0x1FAE, [0x1F6E; 0x399]); (0x1FAF, [0x1F6F; 0x399]);
    (0x1FB2, [0x1FBA; 0x399]); (0x1FB3, [0x391; 0x399]); (0x1FB4, [0x386; 0x399]);
    (0x1FB6, [0x391; 0x342]); (0x1FB7, [0x391; 0x342; 0x399]); (0x1FBC, [0x391; 0x399]);
    (0x1FC2, [0x1FCA; 0x399]); (0x1FC3, [0x397; 0x399]); (0x1FC4, [0x389; 0x399]);
    (0x1FC6, [0x397; 0x342]); (0x1FC7, [0x397; 0x342; 0x399]); (0x1FCC, [0x397; 0x399]);
    (0x1FD2, [0x399; 0x308; 0x300]); (0x1FD3, [0x399; 0x308; 0x301]); (0x1FD6, [0x399; 0x342]);
    (0x1FD7, [0x399; 0x308; 0x342]); (0x1FE2, [0x3A5; 0x308; 0x300]); (0x1FE3, [0x3A5; 0x308; 0x301]);
    (0x1FE4, [0x3A1; 0x313]); (0x1FE6, [0x3A5; 0x342]); (0x1FE7, [0x3A5; 0x308; 0x342]);
    (0x1FF2, [0x1FFA; 0x399]); (0x1FF3, [0x3A9; 0x399]); (0x1FF4, [0x38F; 0x399]);
    (0x1FF6, [0x3A9; 0x342]); (0x1FF7, [0x3A9; 0x342; 0x399]); (0x1FFC, [0x3A9; 0x399]);
    (0xFB00, [0x46; 0x46]); (0xFB01, [0x46; 0x49]); (0xFB02, [0x46; 0x4C]);
    (0xFB03, [0x46; 0x46; 0x49]); (0xFB04, [0x46; 0x46; 0x4C]); (0xFB05, [0x53; 0x54]);
    (0xFB06, [0x53; 0x54]); (0xFB13, [0x544; 0x546]); (0xFB14, [0x544; 0x535]);
    (0xFB15, [0x544; 0x53B]); (0xFB16, [0x54E; 0x546]); (0xFB17, [0x544; 0x53D]) ].

(** Case-ignorable code points (property Case_Ignorable). *)
Definition caseIgnorable : list (Z * Z) :=
  [
    (0x27, 0x27); (0x2E, 0x2E); (0x3A, 0x3A); (0x5E, 0x5E);
    (0x60, 0x60); (0xA8, 0xA8); (0xAD, 0xAD); (0xAF, 0xAF);
    (0xB4, 0xB4); (0xB7, 0xB8); (0x2B0, 0x36F); (0x374, 0x375);
    (0x37A, 0x37A); (0x384, 0x385); (0x387, 0x387); (0x483, 0x489);
    (0x559, 0x559); (0x55F, 0x55F); (0x591, 0x5BD); (0x5BF, 0x5BF);
    (0x5C1, 0x5C2); (0x5C4, 0x5C5); (0x5C7, 0x5C7); (0x5F4, 0x5F4);
    (0x600, 0x605); (0x610, 0x61A); (0x61C, 0x61C); (0x640, 0x640);
    (0x64B, 0x65F); (0x670, 0x670); (0x6D6, 0x6DD); (0x6DF, 0x6E8);
    (0x6EA, 0x6ED); (0x70F, 0x70F); (0x711, 0x711); (0x730, 0x74A);
    (0x7A6, 0x7B0); (0x7EB, 0x7F5); (0x7FA, 0x7FA); (0x7FD, 0x7FD);
    (0x816, 0x82D); (0x859, 0x85B); (0x888, 0x888); (0x890, 0x891);
    (0x898, 0x89F); (0x8C9, 0x902); (0x93A, 0x93A); (0x93C, 0x93C);
    (0x941, 0x948); (0x94D, 0x94D); (0x951, 0x957); (0x962, 0x963);
    (0x971, 0x971); (0x981, 0x981); (0x9BC, 0x9BC); (0x9C1, 0x9C4);
    (0x9CD, 0x9CD); (0x9E2, 0x9E3); (0x9FE, 0x9FE); (0xA01, 0xA02);
    (0xA3C, 0xA3C); (0xA41, 0xA42); (0xA47, 0xA48); (0xA4B, 0xA4D);
    (0xA51, 0xA51); (0xA70, 0xA71); (0xA75, 0xA75); (0xA81, 0xA82);
    (0xABC, 0xABC); (0xAC1, 0xAC5); (0xAC7, 0xAC8); (0xACD, 0xACD);
    (0xAE2, 0xAE3); (0xAFA, 0xAFF); (0xB01, 0xB01); (0xB3C, 0xB3C);
    (0xB3F, 0xB3F); (0xB41, 0xB44); (0xB4D, 0xB4D); (0xB55, 0xB56);
    (0xB62, 0xB63); (0xB82, 0xB82); (0xBC0, 0xBC0); (0xBCD, 0xBCD);
    (0xC00, 0xC00); (0xC04, 0xC04); (0xC3C, 0xC3C); (0xC3E, 0xC40);
    (0xC46, 0xC48); (0xC4A, 0xC4D); (0xC55, 0xC56); (0xC62, 0xC63);
    (0xC81, 0xC81); (0xCBC, 0xCBC); (0xCBF, 0xCBF); (0xCC6, 0xCC6);
    (0xCCC, 0xCCD); (0xCE2, 0xCE3); (0xD00, 0xD01); (0xD3B, 0xD3C);
    (0xD41, 0xD44); (0xD4D, 0xD4D); (0xD62, 0xD63); (0xD81, 0xD81);
    (0xDCA, 0xDCA); (0xDD2, 0xDD4); (0xDD6, 0xDD6); (0xE31, 0xE31);
    (0xE34, 0xE3A); (0xE46, 0xE4E); (0xEB1, 0xEB1); (0xEB4, 0xEBC);
    (0xEC6, 0xEC6); (0xEC8, 0xECD); (0xF18, 0xF19); (0xF35, 0xF35);
    (0xF37, 0xF37); (0xF39, 0xF39); (0xF71, 0xF7E); (0xF80, 0xF84);
    (0xF86, 0xF87); (0xF8D, 0xF97); (0xF99, 0xFBC); (0xFC6, 0xFC6);
    (0x102D, 0x1030); (0x1032, 0x1037); (0x1039, 0x103A); (0x103D, 0x103E);
    (0x1058, 0x1059); (0x105E, 0x1060); (0x1071, 0x1074); (0x1082, 0x1082);
    (0x1085, 0x1086); (0x108D, 0x108D); (0x109D, 0x109D); (0x10FC, 0x10FC);
    (0x135D, 0x135F); (0x1712, 0x1714); (0x1732, 0x1733); (0x1752, 0x1753);
    (0x1772, 0x1773); (0x17B4, 0x17B5); (0x17B7, 0x17BD); (0x17C6, 0x17C6);
    (0x17C9, 0x17D3); (0x17D7, 0x17D7); (0x17DD, 0x17DD); (0x180B, 0x180F);
    (0x1843, 0x1843); (0x1885, 0x1886); (0x18A9, 0x18A9); (0x1920, 0x1922);
    (0x1927, 0x1928); (0x1932, 0x1932); (0x1939, 0x193B); (0x1A17, 0x1A18);
    (0x1A1B, 0x1A1B); (0x1A56, 0x1A56); (0x1A58, 0x1A5E); (0x1A60, 0x1A60);
    (0x1A62, 0x1A62); (0x1A65, 0x1A6C); (0x1A73, 0x1A7C); (0x1A7F, 0x1A7F);
    (0x1AA7, 0x1AA7); (0x1AB0, 0x1ACE); (0x1B00, 0x1B03); (0x1B34, 0x1B34);
    (0x1B36, 0x1B3A); (0x1B3C, 0x1B3C); (0x1B42, 0x1B42); (0x1B6B, 0x1B73);
    (0x1B80, 0x1B81); (0x1BA2, 0x1BA5); (0x1BA8, 0x1BA9); (0x1BAB, 0x1BAD);
    (0x1BE6, 0x1BE6); (0x1BE8, 0x1BE9); (0x1BED, 0x1BED); (0x1BEF, 0x1BF1);
    (0x1C2C, 0x1C33); (0x1C36, 0x1C37); (0x1C78, 0x1C7D); (0x1CD0, 0x1CD2);
    (0x1CD4, 0x1CE0); (0x1CE2, 0x1CE8); (0x1CED, 0x1CED); (0x1CF4, 0x1CF4);
    (0x1CF8, 0x1CF9); (0x1D2C, 0x1D6A); (0x1D78, 0x1D78); (0x1D9B, 0x1DFF);
    (0x1FBD, 0x1FBD); (0x1FBF, 0x1FC1); (0x1FCD, 0x1FCF); (0x1FDD, 0x1FDF);
    (0x1FED, 0x1FEF); (0x1FFD, 0x1FFE); (0x200B, 0x200F); (0x2018, 0x2019);
    (0x2024, 0x2024); (0x2027, 0x2027); (0x202A, 0x202E); (0x2060, 0x2064);
    (0x2066, 0x206F); (0x2071, 0x2071); (0x207F, 0x207F); (0x2090, 0x209C);
    (0x20D0, 0x20F0); (0x2C7C, 0x2C7D); (0x2CEF, 0x2CF1); (0x2D6F, 0x2D6F);
    (0x2D7F, 0x2D7F); (0x2DE0, 0x2DFF); (0x2E2F, 0x2E2F); (0x3005, 0x3005);
    (0x302A, 0x302D); (0x3031, 0x3035); (0x303B, 0x303B); (0x3099, 0x309E);
    (0x30FC, 0x30FE); (0xA015, 0xA015); (0xA4F8, 0xA4FD); (0xA60C, 0xA60C);
    (0xA66F, 0xA672); (0xA674, 0xA67D); (0xA67F, 0xA67F); (0xA69C, 0xA69F);
    (0xA6F0, 0xA6F1); (0xA700, 0xA721); (0xA770, 0xA770); (0xA788, 0xA78A);
    (0xA7F2, 0xA7F4); (0xA7F8, 0xA7F9); (0xA802, 0xA802); (0xA806, 0xA806);
    (0xA80B, 0xA80B); (0xA825, 0xA826); (0xA82C, 0xA82C); (0xA8C4, 0xA8C5);
    (0xA8E0, 0xA8F1); (0xA8FF, 0xA8FF); (0xA926, 0xA92D); (0xA947, 0xA951);
    (0xA980, 0xA982); (0xA9B3, 0xA9B3); (0xA9B6, 0xA9B9); (0xA9BC, 0xA9BD);
    (0xA9CF, 0xA9CF); (0xA9E5, 0xA9E6); (0xAA29, 0xAA2E); (0xAA31, 0xAA32);
    (0xAA35, 0xAA36); (0xAA43, 0xAA43); (0xAA4C, 0xAA4C); (0xAA70, 0xAA70);
    (0xAA7C, 0xAA7C); (0xAAB0, 0xAAB0); (0xAAB2, 0xAAB4); (0xAAB7, 0xAAB8);
    (0xAABE, 0xAABF); (0xAAC1, 0xAAC1); (0xAADD, 0xAADD); (0xAAEC, 0xAAED);
    (0xAAF3, 0xAAF4); (0xAAF6, 0xAAF6); (0xAB5B, 0xAB5F); (0xAB69, 0xAB6B);
    (0xABE5, 0xABE5); (0xABE8, 0xABE8); (0xABED, 0xABED); (0xFB1E, 0xFB1E);
    (0xFBB2, 0xFBC2); (0xFE00, 0xFE0F); (0xFE13, 0xFE13); (0xFE20, 0xFE2F);
    (0xFE52, 0xFE52); (0xFE55, 0xFE55); (0xFEFF, 0xFEFF); (0xFF07, 0xFF07);
    (0xFF0E, 0xFF0E); (0xFF1A, 0xFF1A); (0xFF3E, 0xFF3E); (0xFF40, 0xFF40);
    (0xFF70, 0xFF70); (0xFF9E, 0xFF9F); (0xFFE3, 0xFFE3); (0xFFF9, 0xFFFB);
    (0x101FD, 0x101FD); (0x102E0, 0x102E0); (0x10376, 0x1037A); (0x10780, 0x10785);
    (0x10787, 0x107B0); (0x107B2, 0x107BA); (0x10A01, 0x10A03); (0x10A05, 0x10A06);
    (0x10A0C, 0x10A0F); (0x10A38, 0x10A3A); (0x10A3F, 0x10A3F); (0x10AE5, 0x10AE6);
    (0x10D24, 0x10D27); (0x10EAB, 0x10EAC); (0x10F46, 0x10F50); (0x10F82, 0x10F85);
    (0x11001, 0x11001); (0x11038, 0x11046); (0x11070, 0x11070); (0x11073, 0x11074);
    (0x1107F, 0x11081); (0x110B3, 0x110B6); (0x110B9, 0x110BA); (0x110BD, 0x110BD);
    (0x110C2, 0x110C2); (0x110CD, 0x110CD); (0x11100, 0x11102); (0x11127, 0x1112B);
    (0x1112D, 0x11134); (0x11173, 0x11173); (0x11180, 0x11181); (0x111B6, 0x111BE);
    (0x111C9, 0x111CC); (0x111CF, 0x111CF); (0x1122F, 0x11231); (0x11234, 0x11234);
    (0x11236, 0x11237); (0x1123E, 0x1123E); (0x112DF, 0x112DF); (0x112E3, 0x112EA);
    (0x11300, 0x11301); (0x1133B, 0x1133C); (0x11340, 0x11340); (0x11366, 0x1136C);
    (0x11370, 0x11374); (0x11438, 0x1143F); (0x11442, 0x11444); (0x11446, 0x11446);
    (0x1145E, 0x1145E); (0x114B3, 0x114B8); (0x114BA, 0x114BA); (0x114BF, 0x114C0);
    (0x114C2, 0x114C3); (0x115B2, 0x115B5); (0x115BC, 0x115BD); (0x115BF, 0x115C0);
    (0x115DC, 0x115DD); (0x11633, 0x1163A); (0x1163D, 0x1163D); (0x1163F, 0x11640);
    (0x116AB, 0x116AB); (0x116AD, 0x116AD); (0x116B0, 0x116B5); (0x116B7, 0x116B7);
    (0x1171D, 0x1171F); (0x11722, 0x11725); (0x11727, 0x1172B); (0x1182F, 0x11837);
    (0x11839, 0x1183A); (0x1193B, 0x1193C); (0x1193E, 0x1193E); (0x11943, 0x11943);
    (0x119D4, 0x119D7); (0x119DA, 0x119DB); (0x119E0, 0x119E0); (0x11A01, 0x11A0A);
    (0x11A33, 0x11A38); (0x11A3B, 0x11A3E); (0x11A47, 0x11A47); (0x11A51, 0x11A56);
    (0x11A59, 0x11A5B); (0x11A8A, 0x11A96); (0x11A98, 0x11A99); (0x11C30, 0x11C36);
    (0x11C38, 0x11C3D); (0x11C3F, 0x11C3F); (0x11C92, 0x11CA7); (0x11CAA, 0x11CB0);
    (0x11CB2, 0x11CB3); (0x11CB5, 0x11CB6); (0x11D31, 0x11D36); (0x11D3A, 0x11D3A);
    (0x11D3C, 0x11D3D); (0x11D3F, 0x11D45); (0x11D47, 0x11D47); (0x11D90, 0x11D91);
    (0x11D95, 0x11D95); (0x11D97, 0x11D97); (0x11EF3, 0x11EF4); (0x13430, 0x13438);
    (0x16AF0, 0x16AF4); (0x16B30, 0x16B36); (0x16B40, 0x16B43); (0x16F4F, 0x16F4F);
    (0x16F8F, 0x16F9F); (0x16FE0, 0x16FE1); (0x16FE3, 0x16FE4); (0x1AFF0, 0x1AFF3);
    (0x1AFF5, 0x1AFFB); (0x1AFFD, 0x1AFFE); (0x1BC9D, 0x1BC9E); (0x1BCA0, 0x1BCA3);
    (0x1CF00, 0x1CF2D); (0x1CF30, 0x1CF46); (0x1D167, 0x1D169); (0x1D173, 0x1D182);
    (0x1D185, 0x1D18B); (0x1D1AA, 0x1D1AD); (0x1D242, 0x1D244); (0x1DA00, 0x1DA36);
    (0x1DA3B, 0x1DA6C); (0x1DA75, 0x1DA75); (0x1DA84, 0x1DA84); (0x1DA9B, 0x1DA9F);
    (0x1DAA1, 0x1DAAF); (0x1E000, 0x1E006); (0x1E008, 0x1E018); (0x1E01B, 0x1E021);
    (0x1E023, 0x1E024); (0x1E026, 0x1E02A); (0x1E130, 0x1E13D); (0x1E2AE, 0x1E2AE);
    (0x1E2EC, 0x1E2EF); (0x1E8D0, 0x1E8D6); (0x1E944, 0x1E94B); (0x1F3FB, 0x1F3FF);
    (0xE0001, 0xE0001); (0xE0020, 0xE007F); (0xE0100, 0xE01EF) ].

(** Cased code points (property Cased) that are not case-ignorable. *)
Definition casedLetters : list (Z * Z) :=
  [
    (0x41, 0x5A); (0x61, 0x7A); (0xAA, 0xAA); (0xB5, 0xB5);
    (0xBA, 0xBA); (0xC0, 0xD6); (0xD8, 0xF6); (0xF8, 0x1BA);
    (0x1BC, 0x1BF); (0x1C4, 0x293); (0x295, 0x2AF); (0x370, 0x373);
    (0x376, 0x377); (0x37B, 0x37D); (0x37F, 0x37F); (0x386, 0x386);
    (0x388, 0x38A); (0x38C, 0x38C); (0x38E, 0x3A1); (0x3A3, 0x3F5);
    (0x3F7, 0x481); (0x48A, 0x52F); (0x531, 0x556); (0x560, 0x588);
    (0x10A0, 0x10C5); (0x10C7, 0x10C7); (0x10CD, 0x10CD); (0x10D0, 0x10FA);
    (0x10FD, 0x10FF); (0x13A0, 0x13F5); (0x13F8, 0x13FD); (0x1C80, 0x1C88);
    (0x1C90, 0x1CBA); (0x1CBD, 0x1CBF); (0x1D00, 0x1D2B); (0x1D6B, 0x1D77);
    (0x1D79, 0x1D9A); (0x1E00, 0x1F15); (0x1F18, 0x1F1D); (0x1F20, 0x1F45);
    (0x1F48, 0x1F4D); (0x1F50, 0x1F57); (0x1F59, 0x1F59); (0x1F5B, 0x1F5B);
    (0x1F5D, 0x1F5D); (0x1F5F, 0x1F7D); (0x1F80, 0x1FB4); (0x1FB6, 0x1FBC);
    (0x1FBE, 0x1FBE); (0x1FC2, 0x1FC4); (0x1FC6, 0x1FCC); (0x1FD0, 0x1FD3);
    (0x1FD6, 0x1FDB); (0x1FE0, 0x1FEC); (0x1FF2, 0x1FF4); (0x1FF6, 0x1FFC);
    (0x2102, 0x2102); (0x2107, 0x2107); (0x210A, 0x2113); (0x2115, 0x2115);
    (0x2119, 0x211D); (0x2124, 0x2124); (0x2126, 0x2126); (0x2128, 0x2128);
    (0x212A, 0x212D); (0x212F, 0x2134); (0x2139, 0x2139); (0x213C, 0x213F);
    (0x2145, 0x2149); (0x214E, 0x214E); (0x2160, 0x217F); (0x2183, 0x2184);
    (0x24B6, 0x24E9); (0x2C00, 0x2C7B); (0x2C7E, 0x2CE4); (0x2CEB, 0x2CEE);
    (0x2CF2, 0x2CF3); (0x2D00, 0x2D25); (0x2D27, 0x2D27); (0x2D2D, 0x2D2D);
    (0xA640, 0xA66D); (0xA680, 0xA69B); (0xA722, 0xA76F); (0xA771, 0xA787);
    (0xA78B, 0xA78E); (0xA790, 0xA7CA); (0xA7D0, 0xA7D1); (0xA7D3, 0xA7D3);
    (0xA7D5, 0xA7D9); (0xA7F5, 0xA7F6); (0xA7FA, 0xA7FA); (0xAB30, 0xAB5A);
    (0xAB60, 0xAB68); (0xAB70, 0xABBF); (0xFB00, 0xFB06); (0xFB13, 0xFB17);
    (0xFF21, 0xFF3A); (0xFF41, 0xFF5A); (0x10400, 0x1044F); (0x104B0, 0x104D3);
    (0x104D8, 0x104FB); (0x10570, 0x1057A); (0x1057C, 0x1058A); (0x1058C, 0x10592);
    (0x10594, 0x10595); (0x10597, 0x105A1); (0x105A3, 0x105B1); (0x105B3, 0x105B9);
    (0x105BB, 0x105BC); (0x10C80, 0x10CB2); (0x10CC0, 0x10CF2); (0x118A0, 0x118DF);
    (0x16E40, 0x16E7F); (0x1D400, 0x1D454); (0x1D456, 0x1D49C); (0x1D49E, 0x1D49F);
    (0x1D4A2, 0x1D4A2); (0x1D4A5, 0x1D4A6); (0x1D4A9, 0x1D4AC); (0x1D4AE, 0x1D4B9);
    (0x1D4BB, 0x1D4BB); (0x1D4BD, 0x1D4C3); (0x1D4C5, 0x1D505); (0x1D507, 0x1D50A);
    (0x1D50D, 0x1D514); (0x1D516, 0x1D51C); (0x1D51E, 0x1D539); (0x1D53B, 0x1D53E);
    (0x1D540, 0x1D544); (0x1D546, 0x1D546); (0x1D54A, 0x1D550); (0x1D552, 0x1D6A5);
    (0x1D6A8, 0x1D6C0); (0x1D6C2, 0x1D6DA); (0x1D6DC, 0x1D6FA); (0x1D6FC, 0x1D714);
    (0x1D716, 0x1D734); (0x1D736, 0x1D74E); (0x1D750, 0x1D76E); (0x1D770, 0x1D788);
    (0x1D78A, 0x1D7A8); (0x1D7AA, 0x1D7C2); (0x1D7C4, 0x1D7CB); (0x1DF00, 0x1DF09);
    (0x1DF0B, 0x1DF1E); (0x1E900, 0x1E943); (0x1F130, 0x1F149); (0x1F150, 0x1F169);
    (0x1F170, 0x1F189) ].

Fixpoint inRun (runs : list (Z * Z * Z * Z)) (cp : Z) : option Z :=
  match runs with
  | [] => None
  | (first, last, step, offset) :: runs =>
      if (first <=? cp) && (cp <=? last) && (((cp - first) `mod` step) =? 0)
      then Some (cp + offset)
      else inRun runs cp
  end.

Fixpoint special (specials : list (Z * list Z)) (cp : Z) : option (list Z) :=
  match specials with
  | [] => None
  | (c, cps) :: specials => if c =? cp then Some cps else special specials cp
  end.

Definition mapped (runs : list (Z * Z * Z * Z)) (specials : list (Z * list Z))
    (cp : Z) : list Z :=
  match special specials cp with
  | Some cps => cps
  | None =>
      match inRun runs cp with
      | Some c => [c]
      | None => [cp]
      end
  end.

Definition inRanges (ranges : list (Z * Z)) (cp : Z) : bool :=
  existsb (λ r, (r.1 <=? cp) && (cp <=? r.2)) ranges.

(** Going away from a sigma over case-ignorable characters, the first
    other character is a cased letter. *)
Fixpoint reachesCased (cps : list Z) : bool :=
  match cps with
  | [] => false
  | cp :: cps =>
      if inRanges caseIgnorable cp then reachesCased cps
      else inRanges casedLetters cp
  end.

(** Final_Sigma: [before] holds the preceding code points, the nearest
    first, [after] the following ones. *)
Definition finalSigma (before after : list Z) : bool :=
  reachesCased before && negb (reachesCased after).

(** A character after conversion: characters that stay are handed on as
    they were read. *)
Definition converted (c : Char) (cps : list Z) : string :=
  if bool_decide (cps = [code c]) then text c else encodeAll cps.

Fixpoint lowerFrom (before : list Z) (l : list Char) : string :=
  match l with
  | [] => ""
  | c :: l =>
      converted c
        (if code c =? 0x3A3
         then [if finalSigma before (code <$> l) then 0x3C2 else 0x3C3]
         else mapped lowerRuns lowerSpecials (code c))
      +:+ lowerFrom (code c :: before) l
  end.

Definition toLowerCase (s : string) : string := lowerFrom [] (chars s).

Definition toUpperCase (s : string) : string :=
  foldr (λ c r, converted c (mapped upperRuns upperSpecials (code c)) +:+ r) ""
    (chars s).

(** *** The order of [Array.prototype.sort] without comparator

    Strings are compared by their UTF-16 code units, lexicographically.
    Well-formed strings that differ have different code units; between
    other strings with the same code units the bytes decide, so that
    every two strings are ordered. *)
Definition sortKey (s : string) : list Z * list Z := (codeUnits s, bytes s).

Definition precedes (s t : string) : Prop := lexico (sortKey s) (sortKey t).

Definition le (s t : string) : Prop := s = t ∨ precedes s t.

#[global] Instance le_dec : RelDecision le :=
  λ s t, _ : Decision (s = t ∨ lexico (sortKey s) (sortKey t)).

(** [s.startsWith(p)] *)
Definition startsWith (s p : string) : bool := String.prefix p s.

(** [s.includes(p)] *)
Fixpoint includes (s p : string) : bool :=
  String.prefix p s ||
  match s with
  | EmptyString => false
  | String _ r => includes r p
  end.

(** Numbers as the handlers meet them: an integer or [NaN]. *)
Inductive number : Type :=
| NaN
| Num (z : Z).

(** [x < k] for a literal [k]; every comparison with [NaN] is false. *)
Definition lt (x : number) (k : Z) : bool :=
  match x with
  | NaN => false
  | Num z => z <? k
  end.

(** The outcome of evaluating an expression that may throw. *)
Inductive completion (A : Type) : Type :=
| Normal (a : A)
| Throw (message : string).
Global Arguments Normal {A} a.
Global Arguments Throw {A} message.

End Js.

Global Arguments Js.chars : simpl never.
Global Arguments Js.trim : simpl never.
Global Arguments Js.toLowerCase : simpl never.
Global Arguments Js.toUpperCase : simpl never.

(** ** Node's [crypto] module

    [crypto.createHmac("sha256", key).update(msg).digest("hex")] and
    [crypto.timingSafeEqual] belong to the runtime, not to the repository.
    The first is HMAC (RFC 2104) over SHA-256 (FIPS 180-4) printed as
    lowercase hexadecimal; the second compares two buffers and throws a
    [RangeError] when their byte lengths differ. *)

Module Crypto.

Definition mask32 (x : Z) : Z := Z.land x 0xffffffff.
Definition add32 (x y : Z) : Z := mask32 (x + y).
Definition rotr (n x : Z) : Z :=
  Z.lor (Z.shiftr x n) (mask32 (Z.shiftl x (32 - n))).

Definition Ch (x y z : Z) : Z :=
  Z.lxor (Z.land x y) (Z.land (Z.lxor x 0xffffffff) z).
Definition Maj (x y z : Z) : Z :=
  Z.lxor (Z.lxor (Z.land x y) (Z.land x z)) (Z.land y z).
Definition bigSigma0 (x : Z) : Z :=
  Z.lxor (Z.lxor (rotr 2 x) (rotr 13 x)) (rotr 22 x).
Definition bigSigma1 (x : Z) : Z :=
  Z.lxor (Z.lxor (rotr 6 x) (rotr 11 x)) (rotr 25 x).
Definition smallSigma0 (x : Z) : Z :=
  Z.lxor (Z.lxor (rotr 7 x) (rotr 18 x)) (Z.shiftr x 3).
Definition smallSigma1 (x : Z) : Z :=
  Z.lxor (Z.lxor (rotr 17 x) (rotr 19 x)) (Z.shiftr x 10).

(** The round constants are the first 32 bits of the fractional parts of
    the cube roots of the first 64 primes (the primes up to 311). *)
Definition isPrime (n : Z) : bool :=
  forallb (λ d, negb (n `mod` d =? 0)) (seqZ 2 (n - 2)).

Definition primes : list Z := List.filter isPrime (seqZ 2 310).

(** The integer cube root, found bit by bit from bit [n - 1] down. *)
Fixpoint rootBits (n : nat) (x r : Z) : Z :=
  match n with
  | O => r
  | S n' =>
      let c := Z.lor r (Z.shiftl 1 (Z.of_nat n')) in
      if c * c * c <=? x then rootBits n' x c else rootBits n' x r
  end.

Definition cubeRoot (x : Z) : Z := rootBits 40 x 0.

Definition roundConstants : list Z :=
  map (λ p, mask32 (cubeRoot (Z.shiftl p 96))) primes.

(** The eight chaining words. *)
Record chain : Type := Chain {
  wa : Z; wb : Z; wc : Z; wd : Z; we : Z; wf : Z; wg : Z; wh : Z }.

Definition initialChain : chain :=
  Chain 0x6a09e667 0xbb67ae85 0x3c6ef372 0xa54ff53a
        0x510e527f 0x9b05688c 0x1f83d9ab 0x5be0cd19.

(** Message schedule; [recent] holds the words produced so far, the newest
    first, so that W(t-2), W(t-7), W(t-15), W(t-16) sit at fixed offsets. *)
Fixpoint extend (n : nat) (recent : list Z) : list Z :=
  match n with
  | O => recent
  | S n' =>
      let w :=
        add32 (add32 (smallSigma1 (nth 1 recent 0)) (nth 6 recent 0))
              (add32 (smallSigma0 (nth 14 recent 0)) (nth 15 recent 0)) in
      extend n' (w :: recent)
  end.

Definition schedule (block : list Z) : list Z :=
  rev (extend 48 (rev block)).

Definition round (s : chain) (kw : Z * Z) : chain :=
  let t1 := add32 (add32 (add32 (wh s) (bigSigma1 (we s)))
                         (add32 (Ch (we s) (wf s) (wg s)) (fst kw)))
                  (snd kw) in
  let t2 := add32 (bigSigma0 (wa s)) (Maj (wa s) (wb s) (wc s)) in
  Chain (add32 t1 t2) (wa s) (wb s) (wc s)
        (add32 (wd s) t1) (we s) (wf s) (wg s).

Definition compress (h : chain) (block : list Z) : chain :=
  let s := fold_left round (combine roundConstants (schedule block)) h in
  Chain (add32 (wa h) (wa s)) (add32 (wb h) (wb s))
        (add32 (wc h) (wc s)) (add32 (wd h) (wd s))
        (add32 (we h) (we s)) (add32 (wf h) (wf s))
        (add32 (wg h) (wg s)) (add32 (wh h) (wh s)).

(** Big-endian packing of bytes into 32-bit words. *)
Fixpoint wordsOfBytes (bs : list Z) : list Z :=
  match bs with
  | b3 :: b2 :: b1 :: b0 :: r =>
      (((b3 * 256 + b2) * 256 + b1) * 256 + b0) :: wordsOfBytes r
  | _ => []
  end.

Definition bytesOfWord (w : Z) : list Z :=
  [ Z.shiftr w 24 `mod` 256; Z.shiftr w 16 `mod` 256;
    Z.shiftr w 8 `mod` 256; w `mod` 256 ].

Definition pad (msg : list Z) : list Z :=
  let len := Z.of_nat (length msg) in
  let zeros := Z.to_nat ((55 - len) `mod` 64) in
  let bits := 8 * len in
  msg ++ [0x80] ++ repeat 0 zeros
      ++ bytesOfWord (Z.shiftr bits 32) ++ bytesOfWord (mask32 bits).

Fixpoint absorb (n : nat) (h : chain) (ws : list Z) : chain :=
  match n, ws with
  | S n', _ :: _ => absorb n' (compress h (firstn 16 ws)) (skipn 16 ws)
  | _, _ => h
  end.

Definition sha256 (msg : list Z) : list Z :=
  let ws := wordsOfBytes (pad msg) in
  let h := absorb (length ws) initialChain ws in
  bytesOfWord (wa h) ++ bytesOfWord (wb h) ++ bytesOfWord (wc h)
    ++ bytesOfWord (wd h) ++ bytesOfWord (we h) ++ bytesOfWord (wf h)
    ++ bytesOfWord (wg h) ++ bytesOfWord (wh h).

Definition blockSize : nat := 64.

Definition hmacSha256 (key msg : list Z) : list Z :=
  let k0 := if (blockSize <? length key)%nat then sha256 key else key in
  let k := k0 ++ repeat 0 (blockSize - length k0) in
  sha256 (map (Z.lxor 0x5c) k ++ sha256 (map (Z.lxor 0x36) k ++ msg)).

Fixpoint bytesOfString (s : string) : list Z :=
  match s with
  | EmptyString => []
  | String c r => Z.of_N (N_of_ascii c) :: bytesOfString r
  end.

Definition hexDigit (n : Z) : ascii :=
  match n with
  | 0 => "0" | 1 => "1" | 2 => "2" | 3 => "3" | 4 => "4" | 5 => "5"
  | 6 => "6" | 7 => "7" | 8 => "8" | 9 => "9" | 10 => "a" | 11 => "b"
  | 12 => "c" | 13 => "d" | 14 => "e" | _ => "f"
  end%char.

Fixpoint hexOfBytes (bs : list Z) : string :=
  match bs with
  | [] => EmptyString
  | b :: r => String (hexDigit (b / 16)) (String (hexDigit (b `mod` 16)) (hexOfBytes r))
  end.

(** [createHmac("sha256", secret).update(message).digest("hex")] *)
Definition hmacSha256Hex (secret message : string) : string :=
  hexOfBytes (hmacSha256 (bytesOfString secret) (bytesOfString message)).

(** [timingSafeEqual(Buffer.from(a), Buffer.from(b))] *)
Definition timingSafeEqual (a b : string) : Js.completion bool :=
  if (String.length a =? String.length b)%nat
  then Js.Normal (String.eqb a b)
  else Js.Throw "Input buffers must have the same byte length".

End Crypto.

Global Arguments Crypto.hmacSha256Hex : simpl never.
Global Arguments Crypto.sha256 : simpl never.

(** ** Data exchanged with the outside world *)

Module Http.

(** The inbound request after URL parsing: the entries of
    [url.searchParams] in order of appearance and the [accept] header. *)
Record Request : Type := {
  searchParams : list (string * string);
  accept : option string }.

(** [url.searchParams.get(name)]: the first value under [name]. *)
Fixpoint get (entries : list (string * string)) (name : string) : option string :=
  match entries with
  | [] => None
  | (k, v) :: r => if String.eqb k name then Some v else get r name
  end.

(** [Object.fromEntries(entries)]: a later entry overwrites an earlier one. *)
Definition fromEntries (entries : list (string * string)) : gmap string string :=
  foldl (λ m kv, <[kv.1 := kv.2]> m) ∅ entries.

(** What the handlers hand to [renderHtml] or serialise as JSON. *)
Record Payload : Type := {
  orderName : string;
  createdAt : option string;
  daysSince : Js.number;
  stage : string;
  message : string }.

(** The body sent: a JSON error object, the payload as JSON, or the page
    [renderHtml] makes of the payload (the template itself is not modelled). *)
Inductive Body : Type :=
| ErrorJson (error : string) (hint reason detail : option string)
| PayloadJson (p : Payload)
| HtmlPage (p : Payload).

Record Response : Type := {
  status : Z;
  headers : list (string * string);
  body : Body }.

Definition json (code : Z) (b : Body) : Response :=
  {| status := code; headers := []; body := b |}.

(** [process.env] as read by the handlers. *)
Record Env : Type := {
  SHOPIFY_SHOP : option string;
  SHOPIFY_ACCESS_TOKEN : option string;
  SHOPIFY_API_VERSION : option string;
  SHOPIFY_API_SECRET : option string }.

End Http.

Module Shopify.

Record TrackingInfo : Type := {
  number : option string;
  url : option string }.

Record Fulfillment : Type := {
  trackingInfo : option (list (option TrackingInfo)) }.

Record OrderNode : Type := {
  name : string;
  createdAt : string;
  displayFulfillmentStatus : option string;
  fulfillments : option (list Fulfillment) }.

Record GraphQLError : Type := { message : option string }.

(** The HTTP reply of the endpoint after [res.json()]: [edges] stands for
    [json.data?.orders?.edges], each edge reduced to its [node]. *)
Record Reply : Type := {
  ok : bool;
  status : Z;
  errors : option (list GraphQLError);
  edges : option (list (option OrderNode)) }.

(** The argument of [shopifyGraphQL]. *)
Record Call : Type := {
  shop : string;
  token : string;
  apiVersion : string;
  query : string;
  q : string }.

End Shopify.

(** The runtime a handler executes in: configuration, clock, date parser and
    network. *)
Record Runtime : Type := {
  env : Http.Env;
  now : Z;
  parseDate : string → option Z;
  fetch : Shopify.Call → Js.completion Shopify.Reply }.

(** ** Control flow of a handler

    A computation carries the log of upstream calls made so far and either
    goes on with a value, has already sent a response ([return res...]), or
    has thrown. *)

Module Flow.

Inductive flow (A : Type) : Type :=
| Go (a : A)
| Reply (r : Http.Response)
| Raise (msg : string).
Global Arguments Go {A} a.
Global Arguments Reply {A} r.
Global Arguments Raise {A} msg.

Definition M (A : Type) : Type := list Shopify.Call * flow A.

Definition ret {A} (a : A) : M A := ([], Go a).
Definition reply {A} (r : Http.Response) : M A := ([], Reply r).
Definition raise {A} (msg : string) : M A := ([], Raise msg).

Definition bind {A B} (m : M A) (f : A → M B) : M B :=
  match m with
  | (log, Go a) => let '(log', r) := f a in (log ++ log', r)
  | (log, Reply r) => (log, Reply r)
  | (log, Raise msg) => (log, Raise msg)
  end.

Definition lift {A} (c : Js.completion A) : M A :=
  match c with
  | Js.Normal a => ret a
  | Js.Throw msg => raise msg
  end.

(** [await fetch(...)] followed by [await res.json()]. *)
Definition request (rt : Runtime) (c : Shopify.Call) : M Shopify.Reply :=
  ([c], match fetch rt c with
        | Js.Normal r => Go r
        | Js.Throw msg => Raise msg
        end).

(** [if (b) return r;] *)
Definition return_if (b : bool) (r : Http.Response) : M unit :=
  if b then reply r else ret tt.

(** What a handler leaves behind: the response sent and the upstream
    calls made. *)
Record Outcome : Type := {
  response : Http.Response;
  calls : list Shopify.Call }.

(** [try { body } catch (err) { return handle(err.message) }] *)
Definition try_catch (body : M Http.Response) (handle : string → Http.Response) : Outcome :=
  match body with
  | (log, Go r) => {| response := r; calls := log |}
  | (log, Reply r) => {| response := r; calls := log |}
  | (log, Raise msg) => {| response := handle msg; calls := log |}
  end.

End Flow.

Global Instance flow_ret : MRet Flow.M := @Flow.ret.
Global Instance flow_bind : MBind Flow.M := λ A B f m, Flow.bind m f.

(** ** The parts both handlers share verbatim *)

Module Shared.

(** [`${x}`] for a property that may be missing. *)
Definition template (o : option string) : string :=
  match o with
  | Some s => s
  | None => "undefined"
  end.

Definition params (req : Http.Request) : gmap string string :=
  Http.fromEntries (Http.searchParams req).

(** [params.signature || params.hmac] *)
Definition provided (req : Http.Request) : option string :=
  Js.or_else (params req !! "signature") (params req !! "hmac").

(** [params] after [delete params.signature; delete params.hmac]. *)
Definition signedParams (req : Http.Request) : gmap string string :=
  delete "hmac" (delete "signature" (params req)).

(** [Object.keys(params).sort()] *)
Definition sortedKeys (m : gmap string string) : list string :=
  merge_sort Js.le ((map_to_list m).*1).

(** [Object.keys(params).sort().map((k) => `${k}=${params[k]}`).join("")] *)
Definition message (req : Http.Request) : string :=
  let m := signedParams req in
  String.concat "" ((λ k, k +:+ "=" +:+ template (m !! k)) <$> sortedKeys m).

Definition digest (req : Http.Request) (secret : string) : string :=
  Crypto.hmacSha256Hex secret (message req).

(** The object returned by [verifyProxySignature]. *)
Record Check : Type := {
  ok : bool;
  reason : option string }.

(** [json?.errors?.[0]?.message] *)
Definition firstErrorMessage (errors : option (list Shopify.GraphQLError))
  : option string :=
  match errors with
  | Some (e :: _) => Shopify.message e
  | _ => None
  end.

(** [shopifyGraphQL]: identical in both files. *)
Definition shopifyGraphQL (rt : Runtime) (c : Shopify.Call)
  : Flow.M (option (list (option Shopify.OrderNode))) :=
  res ← Flow.request rt c;
  if negb (Shopify.ok res) || bool_decide (is_Some (Shopify.errors res))
  then
    Flow.raise
      (Js.or_default
         (firstErrorMessage (Shopify.errors res))
         ("Shopify error (" +:+ pretty (Shopify.status res) +:+ ")"))
  else Flow.ret (Shopify.edges res).

(** [data?.orders?.edges?.[0]?.node] *)
Definition firstNode (edges : option (list (option Shopify.OrderNode)))
  : option Shopify.OrderNode :=
  match edges with
  | Some (Some node :: _) => Some node
  | _ => None
  end.

Definition msPerDay : Z := 1000 * 60 * 60 * 24.

(** [Math.floor((now - createdAt) / (1000 * 60 * 60 * 24))] *)
Definition daysSince (rt : Runtime) (node : Shopify.OrderNode) : Js.number :=
  match parseDate rt (Shopify.createdAt node) with
  | Some created => Js.Num ((now rt - created) `div` msPerDay)
  | None => Js.NaN
  end.

End Shared.

(** ** The handler of [src/unnamed/part_000] *)

Module Progress.

Definition verifyProxySignature (req : Http.Request) (secret : string)
  : Js.completion Shared.Check :=
  let missing := {| Shared.ok := false; Shared.reason := Some "Missing signature/hmac" |} in
  match Shared.provided req with
  | Some provided =>
      if String.eqb provided "" then Js.Normal missing
      else
        match Crypto.timingSafeEqual (Shared.digest req secret) provided with
        | Js.Normal ok =>
            Js.Normal
              (if ok then {| Shared.ok := true; Shared.reason := None |}
               else {| Shared.ok := false; Shared.reason := Some "Invalid signature/hmac" |})
        | Js.Throw msg => Js.Throw msg
        end
  | None => Js.Normal missing
  end.

Record StageObj : Type := {
  stage : string;
  message : string }.

Definition shippedObj : StageObj :=
  {| stage := "shipped"; message := "Bestellung versendet." |}.

Definition computeStage (days : Js.number) : StageObj :=
  if Js.lt days 2 then
    {| stage := "processing";
       message := "Die Bestellung ist bei uns eingegangen und wird nun verarbeitet." |}
  else if Js.lt days 4 then
    {| stage := "packing";
       message := "Die Bestellung wird von unserem Lager verpackt, die Sendungsnummer erhältst du in Kürze per Mail." |}
  else shippedObj.

Definition wantsHtml (req : Http.Request) : bool :=
  Js.includes (Js.or_default (Http.accept req) "") "text/html".

(** The GraphQL document sent with every lookup. *)
Definition GetOrder : string :=
  "
        query GetOrder($q: String!) {
          orders(first: 1, query: $q, sortKey: CREATED_AT, reverse: true) {
            edges {
              node {
                id
                name
                createdAt
                displayFulfillmentStatus
                fulfillments(first: 10) {
                  trackingInfo {
                    number
                    url
                  }
                }
              }
            }
          }
        }
      ".

(** [(url.searchParams.get("order") || "").trim()] *)
Definition orderParam (req : Http.Request) : string :=
  Js.trim (Js.or_default (Http.get (Http.searchParams req) "order") "").

(** [(url.searchParams.get("email") || "").trim().toLowerCase()] *)
Definition emailParam (req : Http.Request) : string :=
  Js.toLowerCase (Js.trim (Js.or_default (Http.get (Http.searchParams req) "email") "")).

(** The search string built from the two parameters. *)
Definition queryString (orderParam emailParam : string) : string :=
  let normalized :=
    if Js.startsWith orderParam "#" then orderParam else "#" +:+ orderParam in
  let parts := ["name:" +:+ normalized; "name:" +:+ orderParam] in
  let queryString := "(" +:+ String.concat " OR " parts +:+ ")" in
  if String.eqb emailParam "" then queryString
  else queryString +:+ " AND email:" +:+ emailParam.

(** [(node.fulfillments || []).some((f) =>
      (f.trackingInfo || []).some((t) => t?.number || t?.url))] *)
Definition hasTracking (node : Shopify.OrderNode) : bool :=
  existsb
    (λ f, existsb
            (λ t, Js.truthy (Js.or_else (t ≫= Shopify.number) (t ≫= Shopify.url)))
            (default [] (Shopify.trackingInfo f)))
    (default [] (Shopify.fulfillments node)).

(** [String(node.displayFulfillmentStatus).toUpperCase() === "FULFILLED"] *)
Definition isFulfilled (node : Shopify.OrderNode) : bool :=
  String.eqb
    (Js.toUpperCase (default "null" (Shopify.displayFulfillmentStatus node)))
    "FULFILLED".

(** The stage object after the override, for a given [daysSince]. *)
Definition stageObj (node : Shopify.OrderNode) (daysSince : Js.number) : StageObj :=
  if hasTracking node || isFulfilled node then shippedObj
  else computeStage daysSince.

(** [{ orderName, createdAt, daysSince, ...stageObj }] *)
Definition payload (rt : Runtime) (node : Shopify.OrderNode) : Http.Payload :=
  let daysSince := Shared.daysSince rt node in
  let stageObj := stageObj node daysSince in
  {| Http.orderName := Shopify.name node;
     Http.createdAt := Some (Shopify.createdAt node);
     Http.daysSince := daysSince;
     Http.stage := stage stageObj;
     Http.message := message stageObj |}.

Definition handler (rt : Runtime) (req : Http.Request) : Flow.Outcome :=
  Flow.try_catch
    (let shop := Http.SHOPIFY_SHOP (env rt) in
     let token := Http.SHOPIFY_ACCESS_TOKEN (env rt) in
     let apiVersion := Js.or_default (Http.SHOPIFY_API_VERSION (env rt)) "2026-01" in
     let secret := Http.SHOPIFY_API_SECRET (env rt) in
     Flow.return_if (negb (Js.truthy shop) || negb (Js.truthy token))
       (Http.json 500
          (Http.ErrorJson "Missing SHOPIFY_SHOP / SHOPIFY_ACCESS_TOKEN env" None None None));;
     (if Js.truthy secret then
        check ← Flow.lift (verifyProxySignature req (Shared.template secret));
        Flow.return_if (negb (Shared.ok check))
          (Http.json 401
             (Http.ErrorJson "Unauthorized proxy request" None (Shared.reason check) None))
      else mret tt);;
     let orderParam := orderParam req in
     let emailParam := emailParam req in
     Flow.return_if (String.eqb orderParam "")
       (Http.json 400
          (Http.ErrorJson "Missing order" (Some "Nutze ?order=1043&email=kunde@mail.de") None None));;
     data ← Shared.shopifyGraphQL rt
              {| Shopify.shop := Shared.template shop;
                 Shopify.token := Shared.template token;
                 Shopify.apiVersion := apiVersion;
                 Shopify.query := GetOrder;
                 Shopify.q := queryString orderParam emailParam |};
     match Shared.firstNode data with
     | None =>
         Flow.reply
           (Http.json 404
              (Http.ErrorJson "Order not found"
                 (Some "Prüfe order und (idealerweise) email Parameter") None None))
     | Some node =>
         let payload := payload rt node in
         if wantsHtml req then
           Flow.reply
             {| Http.status := 200;
                Http.headers := [("Content-Type", "text/html; charset=utf-8")];
                Http.body := Http.HtmlPage payload |}
         else
           Flow.reply
             {| Http.status := 200;
                Http.headers := [("Content-Type", "application/json; charset=utf-8")];
                Http.body := Http.PayloadJson payload |}
     end)
    (λ msg, Http.json 500
              (Http.ErrorJson "Server error" None None (Some (Js.or_default (Some msg) "Error")))).

End Progress.

(** ** The handler of [src/api/order-status.js] *)

Module OrderStatus.

Definition verifyProxySignature (req : Http.Request) (secret : string)
  : Js.completion Shared.Check :=
  let missing := {| Shared.ok := false; Shared.reason := None |} in
  match Shared.provided req with
  | Some provided =>
      if String.eqb provided "" then Js.Normal missing
      else
        match Crypto.timingSafeEqual (Shared.digest req secret) provided with
        | Js.Normal ok => Js.Normal {| Shared.ok := ok; Shared.reason := None |}
        | Js.Throw msg => Js.Throw msg
        end
  | None => Js.Normal missing
  end.

Definition computeStage (days : Js.number) : string :=
  if Js.lt days 2 then "processing"
  else if Js.lt days 4 then "packing"
  else "shipped".

Definition getMessage (stage : string) : string :=
  if String.eqb stage "processing" then
    "Die Bestellung ist bei uns eingegangen und wird nun verarbeitet."
  else if String.eqb stage "packing" then
    "Die Bestellung wird von unserem Lager verpackt, die Sendungsnummer erhältst du in Kürze per Mail."
  else "Bestellung versendet.".

Definition GetOrder : string :=
  "
        query GetOrder($q: String!) {
          orders(first: 1, query: $q, sortKey: CREATED_AT, reverse: true) {
            edges {
              node {
                name
                createdAt
                displayFulfillmentStatus
                fulfillments(first: 5) {
                  trackingInfo {
                    number
                  }
                }
              }
            }
          }
        }
      ".

(** [(url.searchParams.get("order") || "").trim()] *)
Definition orderParam (req : Http.Request) : string :=
  Js.trim (Js.or_default (Http.get (Http.searchParams req) "order") "").

(** [(url.searchParams.get("email") || "").trim()] *)
Definition emailParam (req : Http.Request) : string :=
  Js.trim (Js.or_default (Http.get (Http.searchParams req) "email") "").

Definition queryString (orderParam emailParam : string) : string :=
  let normalized :=
    if Js.startsWith orderParam "#" then orderParam else "#" +:+ orderParam in
  let queryString := "(name:" +:+ normalized +:+ " OR name:" +:+ orderParam +:+ ")" in
  if String.eqb emailParam "" then queryString
  else queryString +:+ " AND email:" +:+ emailParam.

(** [node.fulfillments?.some((f) =>
      f.trackingInfo?.some((t) => t?.number)) || false] *)
Definition hasTracking (node : Shopify.OrderNode) : bool :=
  match Shopify.fulfillments node with
  | Some fs =>
      existsb
        (λ f, match Shopify.trackingInfo f with
              | Some ts => existsb (λ t, Js.truthy (t ≫= Shopify.number)) ts
              | None => false
              end)
        fs
  | None => false
  end.

(** [node.displayFulfillmentStatus === "FULFILLED"] *)
Definition isFulfilled (node : Shopify.OrderNode) : bool :=
  match Shopify.displayFulfillmentStatus node with
  | Some s => String.eqb s "FULFILLED"
  | None => false
  end.

(** The stage after the override, for a given [daysSince]. *)
Definition stage (node : Shopify.OrderNode) (daysSince : Js.number) : string :=
  if hasTracking node || isFulfilled node then "shipped"
  else computeStage daysSince.

(** The argument of [renderHtml]. *)
Definition payload (rt : Runtime) (node : Shopify.OrderNode) : Http.Payload :=
  let daysSince := Shared.daysSince rt node in
  let stage := stage node daysSince in
  {| Http.orderName := Shopify.name node;
     Http.createdAt := None;
     Http.daysSince := daysSince;
     Http.stage := stage;
     Http.message := getMessage stage |}.

Definition handler (rt : Runtime) (req : Http.Request) : Flow.Outcome :=
  Flow.try_catch
    (let shop := Http.SHOPIFY_SHOP (env rt) in
     let token := Http.SHOPIFY_ACCESS_TOKEN (env rt) in
     let apiVersion := Js.or_default (Http.SHOPIFY_API_VERSION (env rt)) "2025-01" in
     let secret := Http.SHOPIFY_API_SECRET (env rt) in
     Flow.return_if (negb (Js.truthy shop) || negb (Js.truthy token))
       (Http.json 500
          (Http.ErrorJson "Missing SHOPIFY_SHOP / SHOPIFY_ACCESS_TOKEN" None None None));;
     (if Js.truthy secret then
        check ← Flow.lift (verifyProxySignature req (Shared.template secret));
        Flow.return_if (negb (Shared.ok check))
          (Http.json 401 (Http.ErrorJson "Invalid proxy signature" None None None))
      else mret tt);;
     let orderParam := orderParam req in
     let emailParam := emailParam req in
     Flow.return_if (String.eqb orderParam "")
       (Http.json 400 (Http.ErrorJson "Missing order parameter" None None None));;
     data ← Shared.shopifyGraphQL rt
              {| Shopify.shop := Shared.template shop;
                 Shopify.token := Shared.template token;
                 Shopify.apiVersion := apiVersion;
                 Shopify.query := GetOrder;
                 Shopify.q := queryString orderParam emailParam |};
     match Shared.firstNode data with
     | None =>
         Flow.reply (Http.json 404 (Http.ErrorJson "Order not found" None None None))
     | Some node =>
         Flow.reply
           {| Http.status := 200;
              Http.headers := [("Content-Type", "text/html; charset=utf-8")];
              Http.body := Http.HtmlPage (payload rt node) |}
     end)
    (λ msg, Http.json 500 (Http.ErrorJson "Server error" None None (Some msg))).

End OrderStatus.

(** * Vocabulary of the specification *)



(** The Authenticator accepts when it returns an object whose [ok] is true. *)
Definition accepted (c : Js.completion Shared.Check) : Prop :=
  ∃ chk, c = Js.Normal chk ∧ Shared.ok chk = true.



(** ** Fulfillment evidence, in the words of the specification *)

(** Equal but for the case of the letters: equal once both are written
    in upper case. *)
Definition equalIgnoringCase (s t : string) : Prop :=
  Js.toUpperCase s = Js.toUpperCase t.

Definition nonEmpty (o : option string) : Prop :=
  ∃ s, o = Some s ∧ s ≠ "".

(** [t] is a tracking entry of some fulfillment entry of the order. *)
Definition trackingEntry (node : Shopify.OrderNode) (t : Shopify.TrackingInfo) : Prop :=
  ∃ fs f ts,
    Shopify.fulfillments node = Some fs ∧ f ∈ fs
    ∧ Shopify.trackingInfo f = Some ts ∧ Some t ∈ ts.

(** The fulfillment status equals FULFILLED, compared case-insensitively. *)
Definition reportedFulfilled (node : Shopify.OrderNode) : Prop :=
  ∃ s, Shopify.displayFulfillmentStatus node = Some s
       ∧ equalIgnoringCase s "FULFILLED".

(** Some tracking entry has a non-empty tracking number or tracking URL. *)
Definition tracked (node : Shopify.OrderNode) : Prop :=
  ∃ t, trackingEntry node t
       ∧ (nonEmpty (Shopify.number t) ∨ nonEmpty (Shopify.url t)).

(** The narrower evidence: the status is FULFILLED letter for letter, or
    some tracking entry has a non-empty tracking number. *)
Definition reportedFulfilledExactly (node : Shopify.OrderNode) : Prop :=
  Shopify.displayFulfillmentStatus node = Some "FULFILLED".

Definition trackedByNumber (node : Shopify.OrderNode) : Prop :=
  ∃ t, trackingEntry node t ∧ nonEmpty (Shopify.number t).

(** ** The result reported to the client *)

(** The payload a response carries, whether rendered as JSON or as HTML. *)
Definition payloadOf (r : Http.Response) : option Http.Payload :=
  match Http.body r with
  | Http.PayloadJson p | Http.HtmlPage p => Some p
  | Http.ErrorJson _ _ _ _ => None
  end.

(** The StageResult of the specification: stage, message and daysSince. *)
Definition stageResult (o : Flow.Outcome) : option (string * string * Js.number) :=
  (λ p, (Http.stage p, Http.message p, Http.daysSince p)) <$> payloadOf (Flow.response o).

(** A payload with its stage and message replaced. *)
Definition withStage (p : Http.Payload) (stage message : string) : Http.Payload :=
  {| Http.orderName := Http.orderName p;
     Http.createdAt := Http.createdAt p;
     Http.daysSince := Http.daysSince p;
     Http.stage := stage;
     Http.message := message |}.

(** The stage the age rule assigns to a whole number of days. *)
Definition stageOfAge (d : Z) : string :=
  if decide (d < 2) then "processing"
  else if decide (d < 4) then "packing"
  else "shipped".

(** ** Configuration *)

(** Shop domain and access token are set, so the handler gets past its
    first guard. *)
Definition configured (rt : Runtime) : Prop :=
  Js.truthy (Http.SHOPIFY_SHOP (env rt)) = true
  ∧ Js.truthy (Http.SHOPIFY_ACCESS_TOKEN (env rt)) = true.

(** A signing secret is configured. *)
Definition signing (rt : Runtime) (secret : string) : Prop :=
  Http.SHOPIFY_API_SECRET (env rt) = Some secret ∧ secret ≠ "".

(** ** The decision tree common to both handlers

    Both handlers walk the same tree of guards; they differ in the texts of
    their responses, in the Authenticator's result object, in the treatment
    of the email and in the default API version.  [tree] spells the walk out
    without the monad, and the two handlers are shown equal to it. *)

Record Variant : Type := {
  verify : Http.Request → string → Js.completion Shared.Check;
  defaultVersion : string;
  document : string;
  order : Http.Request → string;
  search : Http.Request → string;
  unconfigured : Http.Response;
  unauthorized : Shared.Check → Http.Response;
  missingOrder : Http.Response;
  notFound : Http.Response;
  found : Runtime → Http.Request → Shopify.OrderNode → Http.Response;
  failed : string → Http.Response }.

Definition lookupCall (v : Variant) (rt : Runtime) (req : Http.Request) : Shopify.Call :=
  {| Shopify.shop := Shared.template (Http.SHOPIFY_SHOP (env rt));
     Shopify.token := Shared.template (Http.SHOPIFY_ACCESS_TOKEN (env rt));
     Shopify.apiVersion := Js.or_default (Http.SHOPIFY_API_VERSION (env rt)) (defaultVersion v);
     Shopify.query := document v;
     Shopify.q := search v req |}.

(** The signature check as the handler applies it: skipped without a
    secret. *)
Definition gate (v : Variant) (rt : Runtime) (req : Http.Request)
  : Js.completion Shared.Check :=
  if Js.truthy (Http.SHOPIFY_API_SECRET (env rt))
  then verify v req (Shared.template (Http.SHOPIFY_API_SECRET (env rt)))
  else Js.Normal {| Shared.ok := true; Shared.reason := None |}.

(** The order found by a lookup, if the lookup returns at all. *)
Definition lookup (rt : Runtime) (c : Shopify.Call)
  : Js.completion (option Shopify.OrderNode) :=
  match fetch rt c with
  | Js.Throw msg => Js.Throw msg
  | Js.Normal res =>
      if negb (Shopify.ok res) || bool_decide (is_Some (Shopify.errors res))
      then Js.Throw
             (Js.or_default (Shared.firstErrorMessage (Shopify.errors res))
                ("Shopify error (" +:+ pretty (Shopify.status res) +:+ ")"))
      else Js.Normal (Shared.firstNode (Shopify.edges res))
  end.

Definition tree (v : Variant) (rt : Runtime) (req : Http.Request) : Flow.Outcome :=
  if negb (Js.truthy (Http.SHOPIFY_SHOP (env rt)))
     || negb (Js.truthy (Http.SHOPIFY_ACCESS_TOKEN (env rt)))
  then {| Flow.response := unconfigured v; Flow.calls := [] |}
  else
    match gate v rt req with
    | Js.Throw msg => {| Flow.response := failed v msg; Flow.calls := [] |}
    | Js.Normal chk =>
        if negb (Shared.ok chk)
        then {| Flow.response := unauthorized v chk; Flow.calls := [] |}
        else if String.eqb (order v req) ""
        then {| Flow.response := missingOrder v; Flow.calls := [] |}
        else
          let c := lookupCall v rt req in
          match lookup rt c with
          | Js.Throw msg => {| Flow.response := failed v msg; Flow.calls := [c] |}
          | Js.Normal None => {| Flow.response := notFound v; Flow.calls := [c] |}
          | Js.Normal (Some node) =>
              {| Flow.response := found v rt req node; Flow.calls := [c] |}
          end
    end.

Definition progress : Variant :=
  {| verify := Progress.verifyProxySignature;
     defaultVersion := "2026-01";
     document := Progress.GetOrder;
     order := Progress.orderParam;
     search := λ req, Progress.queryString (Progress.orderParam req) (Progress.emailParam req);
     unconfigured :=
       Http.json 500
         (Http.ErrorJson "Missing SHOPIFY_SHOP / SHOPIFY_ACCESS_TOKEN env" None None None);
     unauthorized := λ chk,
       Http.json 401
         (Http.ErrorJson "Unauthorized proxy request" None (Shared.reason chk) None);
     missingOrder :=
       Http.json 400
         (Http.ErrorJson "Missing order" (Some "Nutze ?order=1043&email=kunde@mail.de") None None);
     notFound :=
       Http.json 404
         (Http.ErrorJson "Order not found"
            (Some "Prüfe order und (idealerweise) email Parameter") None None);
     found := λ rt req node,
       if Progress.wantsHtml req then
         {| Http.status := 200;
            Http.headers := [("Content-Type", "text/html; charset=utf-8")];
            Http.body := Http.HtmlPage (Progress.payload rt node) |}
       else
         {| Http.status := 200;
            Http.headers := [("Content-Type", "application/json; charset=utf-8")];
            Http.body := Http.PayloadJson (Progress.payload rt node) |};
     failed := λ msg,
       Http.json 500
         (Http.ErrorJson "Server error" None None (Some (Js.or_default (Some msg) "Error"))) |}.

Definition orderStatus : Variant :=
  {| verify := OrderStatus.verifyProxySignature;
     defaultVersion := "2025-01";
     document := OrderStatus.GetOrder;
     order := OrderStatus.orderParam;
     search := λ req,
       OrderStatus.queryString (OrderStatus.orderParam req) (OrderStatus.emailParam req);
     unconfigured :=
       Http.json 500
         (Http.ErrorJson "Missing SHOPIFY_SHOP / SHOPIFY_ACCESS_TOKEN" None None None);
     unauthorized := λ _,
       Http.json 401 (Http.ErrorJson "Invalid proxy signature" None None None);
     missingOrder :=
       Http.json 400 (Http.ErrorJson "Missing order parameter" None None None);
     notFound := Http.json 404 (Http.ErrorJson "Order not found" None None None);
     found := λ rt _ node,
       {| Http.status := 200;
          Http.headers := [("Content-Type", "text/html; charset=utf-8")];
          Http.body := Http.HtmlPage (OrderStatus.payload rt node) |};
     failed := λ msg,
       Http.json 500 (Http.ErrorJson "Server error" None None (Some msg)) |}.

(** ** The search string, in the words of the specification *)

(** The name predicate, with the identifier tried with a leading [#]; an
    identifier that already starts with [#] is not prefixed again. *)
Definition namePredicate (X : string) : string :=
  "(name:" +:+ (if Js.startsWith X "#" then X else "#" +:+ X)
           +:+ " OR name:" +:+ X +:+ ")".

(** The email clause, omitted for an empty email. *)
Definition emailClause (Y : string) : string :=
  if decide (Y = "") then "" else " AND email:" +:+ Y.

(** The request gets past the signature check. *)
Definition admitted (v : Variant) (rt : Runtime) (req : Http.Request) : Prop :=
  ∃ chk, gate v rt req = Js.Normal chk ∧ Shared.ok chk = true.

(** ** Concrete scenarios *)

Definition exampleEnv (shop secret : option string) : Http.Env :=
  {| Http.SHOPIFY_SHOP := shop;
     Http.SHOPIFY_ACCESS_TOKEN := Some "shpat_example";
     Http.SHOPIFY_API_VERSION := None;
     Http.SHOPIFY_API_SECRET := secret |}.

(** A date parser that knows one instant: 2026-10-28T12:00:00Z. *)
Definition exampleParse (s : string) : option Z :=
  if String.eqb s "2026-10-28T12:00:00Z" then Some 1793188800000 else None.

Definition exampleNode (status : option string)
    (fulfillments : option (list Shopify.Fulfillment)) : Shopify.OrderNode :=
  {| Shopify.name := "#1043";
     Shopify.createdAt := "2026-10-28T12:00:00Z";
     Shopify.displayFulfillmentStatus := status;
     Shopify.fulfillments := fulfillments |}.

Definition replyWith (node : Shopify.OrderNode) : Js.completion Shopify.Reply :=
  Js.Normal {| Shopify.ok := true; Shopify.status := 200;
               Shopify.errors := None; Shopify.edges := Some [Some node] |}.

(** A runtime [age] milliseconds after the creation of the example order. *)
Definition exampleRuntime (shop secret : option string) (age : Z)
    (node : Shopify.OrderNode) : Runtime :=
  {| env := exampleEnv shop secret;
     now := 1793188800000 + age;
     parseDate := exampleParse;
     fetch := λ _, replyWith node |}.

Definition exampleRequest (entries : list (string * string)) : Http.Request :=
  {| Http.searchParams := entries; Http.accept := None |}.

Definition theShop : option string := Some "deucces.myshopify.com".
Definition theSecret : option string := Some "shpss_test_secret".
Definition unfulfilled : Shopify.OrderNode := exampleNode (Some "UNFULFILLED") (Some []).

Definition withNumber (number : string) : Shopify.Fulfillment :=
  {| Shopify.trackingInfo :=
       Some [Some {| Shopify.number := Some number; Shopify.url := None |}] |}.

Definition oneDay : Z := 86400000.

(** ** Further vocabulary: the paths through a handler *)

(** A string of white space only, the empty string included. *)
Definition blank (s : string) : Prop :=
  Forall (λ cp, Js.isWhiteSpace cp = true) (Js.codePoints s).

(** The seven ways a walk of the decision tree can end. *)
Inductive walk (v : Variant) (rt : Runtime) (req : Http.Request) : Flow.Outcome → Prop :=
| walk_unconfigured :
    ¬ configured rt →
    walk v rt req {| Flow.response := unconfigured v; Flow.calls := [] |}
| walk_gate_throws msg :
    configured rt → gate v rt req = Js.Throw msg →
    walk v rt req {| Flow.response := failed v msg; Flow.calls := [] |}
| walk_unauthorized chk :
    configured rt → gate v rt req = Js.Normal chk → Shared.ok chk = false →
    walk v rt req {| Flow.response := unauthorized v chk; Flow.calls := [] |}
| walk_missing_order :
    configured rt → admitted v rt req → order v req = "" →
    walk v rt req {| Flow.response := missingOrder v; Flow.calls := [] |}
| walk_lookup_throws msg :
    configured rt → admitted v rt req → order v req ≠ "" →
    lookup rt (lookupCall v rt req) = Js.Throw msg →
    walk v rt req {| Flow.response := failed v msg; Flow.calls := [lookupCall v rt req] |}
| walk_not_found :
    configured rt → admitted v rt req → order v req ≠ "" →
    lookup rt (lookupCall v rt req) = Js.Normal None →
    walk v rt req {| Flow.response := notFound v; Flow.calls := [lookupCall v rt req] |}
| walk_found node :
    configured rt → admitted v rt req → order v req ≠ "" →
    lookup rt (lookupCall v rt req) = Js.Normal (Some node) →
    walk v rt req {| Flow.response := found v rt req node;
                     Flow.calls := [lookupCall v rt req] |}.

(** The message [shopifyGraphQL] throws with for a reply it refuses. *)
Definition refusal (res : Shopify.Reply) : string :=
  Js.or_default (Shared.firstErrorMessage (Shopify.errors res))
    ("Shopify error (" +:+ pretty (Shopify.status res) +:+ ")").

(** A runtime whose endpoint gives the same answer to every call. *)
Definition answering (shop secret : option string) (answer : Js.completion Shopify.Reply)
  : Runtime :=
  {| env := exampleEnv shop secret;
     now := 1793188800000;
     parseDate := exampleParse;
     fetch := λ _, answer |}.

(** What every run of a handler satisfies: one of five statuses, at most
    the one lookup call, made exactly on the 200 and 404 paths and never on
    the 400 and 401 paths, and a payload exactly on the 200 path. *)
Definition answersInTaxonomy (call : Shopify.Call) (o : Flow.Outcome) : Prop :=
  Http.status (Flow.response o) ∈ [200; 400; 401; 404; 500]
  ∧ (Flow.calls o = [] ∨ Flow.calls o = [call])
  ∧ (Http.status (Flow.response o) = 200 ∨ Http.status (Flow.response o) = 404 →
     Flow.calls o = [call])
  ∧ (Http.status (Flow.response o) = 400 ∨ Http.status (Flow.response o) = 401 →
     Flow.calls o = [])
  ∧ (Http.status (Flow.response o) = 200 ↔ is_Some (payloadOf (Flow.response o)))
  ∧ (payloadOf (Flow.response o) = None →
     Http.headers (Flow.response o) = []
     ∧ ∃ error hint reason detail,
         Http.body (Flow.response o) = Http.ErrorJson error hint reason detail).

(** The header contains the text somewhere. *)
Definition mentions (header : option string) (text : string) : Prop :=
  ∃ pre post, header = Some (pre +:+ text +:+ post).

(** The position of a stage on the way from processing to shipped. *)
Definition rank (stage : string) : Z :=
  if String.eqb stage "processing" then 0
  else if String.eqb stage "packing" then 1
  else 2.

(** The API version a handler uses: the configured one unless it is unset
    or empty. *)
Definition versionOr (fallback : string) (rt : Runtime) : string :=
  match Http.SHOPIFY_API_VERSION (env rt) with
  | Some version => if decide (version = "") then fallback else version
  | None => fallback
  end.

(** ** The timeline of [renderHtml] in [src/api/order-status.js]

    The page is a fixed template around the order name, the timeline, the
    message and [daysSince]; the timeline is the part computed from the
    stage. *)

Module Timeline.

Record Step : Type := {
  key : string;
  label : string;
  icon : string }.

Definition steps : list Step :=
  [ {| key := "processing"; label := "Eingegangen"; icon := "🧾" |};
    {| key := "packing"; label := "Wird verpackt"; icon := "📦" |};
    {| key := "shipped"; label := "Versendet"; icon := "🚚" |} ].

(** [Array.prototype.findIndex]: the first index from [index] on whose
    element satisfies the predicate, [-1] when there is none. *)
Fixpoint findIndex {A} (p : A → bool) (l : list A) (index : Z) : Z :=
  match l with
  | [] => -1
  | x :: l => if p x then index else findIndex p l (index + 1)
  end.

(** [steps.findIndex((s) => s.key === stage)] *)
Definition currentIndex (stage : string) : Z :=
  findIndex (λ s, String.eqb (key s) stage) steps 0.

(** [index <= currentIndex] *)
Definition active (stage : string) (index : nat) : bool :=
  bool_decide (Z.of_nat index ≤ currentIndex stage).

(** The double quote of the class attributes. *)
Definition quote : string := String (ascii_of_nat 34) "".

(** The template literal of one step. *)
Definition stepHtml (active : bool) (step : Step) : string :=
  "
        <div class=" +:+ quote +:+ "step " +:+ (if active then "active" else "")
    +:+ quote +:+ ">
          <div class=" +:+ quote +:+ "icon" +:+ quote +:+ ">" +:+ icon step +:+ "</div>
          <div class=" +:+ quote +:+ "label" +:+ quote +:+ ">" +:+ label step +:+ "</div>
        </div>
      ".

(** [steps.map((step, index) => ...).join("")] *)
Definition timeline (stage : string) : string :=
  String.concat "" (imap (λ index step, stepHtml (active stage index) step) steps).

End Timeline.

(** * Properties *)

(** ** Known answers for the keyed hash *)

Example hmac_rfc4231_case2 :
  Crypto.hmacSha256Hex "Jefe" "what do ya want for nothing?"
  = "5bdcc146bf60754e6a042426089575c75a003f089d2739839dec58b964ec3843".
Proof. vm_compute. reflexivity. Qed.

Example hmac_key_longer_than_block :
  Crypto.hmacSha256Hex
    "kkkkkkkkkkkkkkkkkkkkkkkkkkkkkkkkkkkkkkkkkkkkkkkkkkkkkkkkkkkkkkkkkkkkkk"
    "order=1043path_prefix=/apps/order-status"
  = "c93d6259dea1f67956d490a8c1a468f5f0fc159ebefa8018467a088117879d10".
Proof. vm_compute. reflexivity. Qed.

Example roundConstants_ends :
  length Crypto.roundConstants = 64%nat
  ∧ head Crypto.roundConstants = Some 0x428a2f98
  ∧ last Crypto.roundConstants = Some 0xc67178f2.
Proof. vm_compute. repeat split. Qed.

(** ** Known answers for the string primitives *)

Example trim_unicode_white_space :
  Js.trim (Js.encode 0xA0 +:+ " 1043" +:+ Js.encode 0x3000 +:+ Js.encode 0xFEFF) = "1043"
  ∧ Js.trim (" #10 43" +:+ Js.encode 0x2028) = "#10 43"
  ∧ Js.trim (Js.encode 0x200B +:+ "1043") = Js.encode 0x200B +:+ "1043".
Proof. vm_compute. repeat split. Qed.

Example toLowerCase_beyond_ascii :
  Js.toLowerCase "KÄUFER@MAIL.DE" = "käufer@mail.de"
  ∧ Js.toLowerCase "ΟΔΥΣΣΕΥΣ" = "οδυσσευς"
  ∧ Js.toLowerCase "İ" = "i" +:+ Js.encode 0x307.
Proof. vm_compute. repeat split. Qed.

Example toUpperCase_beyond_ascii :
  Js.toUpperCase "fulfilled" = "FULFILLED"
  ∧ Js.toUpperCase "straße" = "STRASSE"
  ∧ Js.toUpperCase "fulﬁlled" = "FULFILLED".
Proof. vm_compute. repeat split. Qed.

(** The code units of a character beyond U+FFFF begin with a surrogate,
    which is below U+FF5E; its bytes are above those of U+FF5E. *)
Example sort_by_code_units :
  merge_sort Js.le ["～"; "😀"; "order"] = ["order"; "😀"; "～"]
  ∧ merge_sort String.le ["～"; "😀"; "order"] = ["order"; "～"; "😀"]
  ∧ Js.codeUnits "😀" = [0xD83D; 0xDE00]
  ∧ Js.codeUnits "～" = [0xFF5E].
Proof. vm_compute. repeat split. Qed.

(** ** Facts about the JavaScript primitives *)

Lemma truthy_Some_true (o : option string) :
  Js.truthy o = true ↔ ∃ s, o = Some s ∧ s ≠ "".
Proof.
  destruct o as [s|]; simpl.
  - rewrite negb_true_iff, String.eqb_neq. split.
    + intros Hne. by exists s.
    + by intros (s' & [= <-] & Hne).
  - split; [done|]. by intros (s & ? & _).
Qed.

Lemma truthy_false (o : option string) :
  Js.truthy o = false ↔ o = None ∨ o = Some "".
Proof.
  destruct o as [s|]; simpl.
  - rewrite negb_false_iff, String.eqb_eq. split.
    + intros ->. by right.
    + by intros [|[= ->]].
  - split; [by left|done].
Qed.

Lemma or_default_empty (o : option string) :
  Js.or_default o "" = default "" o.
Proof.
  destruct o as [s|]; simpl; [|done].
  destruct (String.eqb_spec s ""); congruence.
Qed.

Lemma string_length_zero (s : string) : String.length s = 0%nat ↔ s = "".
Proof. destruct s; simpl; split; congruence. Qed.

(** ** Characters *)

Lemma append_nil_l (s t : string) : s +:+ t = "" → s = "".
Proof. by destruct s. Qed.

Lemma next_spec (b : ascii) (r : string) :
  Js.text (Js.next b r).1 +:+ (Js.next b r).2 = String b r
  ∧ (String.length (Js.next b r).2 ≤ String.length r)%nat
  ∧ Js.text (Js.next b r).1 ≠ "".
Proof.
  unfold Js.next. cbv zeta.
  repeat case_match; subst; cbn [fst snd Js.text String.length];
    (split; [reflexivity | split; [lia | done]]).
Qed.

Lemma charsFrom_join (fuel : nat) (s : string) :
  (String.length s ≤ fuel)%nat → Js.join (Js.charsFrom fuel s) = s.
Proof.
  revert s. induction fuel as [|fuel IH]; intros [|b r] Hlen; simpl in *; try done; [lia|].
  destruct (next_spec b r) as (Htext & Hrest & _).
  destruct (Js.next b r) as [c rest]. cbn [fst snd] in *.
  cbn [Js.join foldr]. fold (Js.join (Js.charsFrom fuel rest)).
  rewrite IH by lia. done.
Qed.

(** Decoding loses nothing: the characters read, put together again, are
    the string. *)
Lemma chars_join (s : string) : Js.join (Js.chars s) = s.
Proof. by apply charsFrom_join. Qed.

Lemma charsFrom_text (fuel : nat) (s : string) :
  Forall (λ c, Js.text c ≠ "") (Js.charsFrom fuel s).
Proof.
  revert s. induction fuel as [|fuel IH]; intros [|b r]; simpl; try by constructor.
  destruct (next_spec b r) as (_ & _ & Hne).
  destruct (Js.next b r) as [c rest]. constructor; [done | apply IH].
Qed.

Lemma chars_nil (s : string) : Js.chars s = [] ↔ s = "".
Proof.
  split; [|by intros ->].
  intros Hnil. rewrite <- (chars_join s). by rewrite Hnil.
Qed.

Lemma join_nil (l : list Js.Char) :
  Forall (λ c, Js.text c ≠ "") l → Js.join l = "" ↔ l = [].
Proof.
  intros Hl. split; [|by intros ->].
  destruct Hl as [|c l Hc _]; [done|].
  intros Hjoin. by apply append_nil_l in Hjoin.
Qed.

(** ** [trim] *)

Lemma dropWhiteSpace_nil (l : list Js.Char) :
  Js.dropWhiteSpace l = [] ↔ Forall (λ c, Js.isWhiteSpace (Js.code c) = true) l.
Proof.
  induction l as [|c l IH]; simpl; [by split; [constructor|]|].
  destruct (Js.isWhiteSpace (Js.code c)) eqn:E.
  - rewrite IH. split; [by constructor | by inversion 1].
  - split; [done|]. inversion 1; congruence.
Qed.

Lemma dropWhiteSpace_Forall (P : Js.Char → Prop) (l : list Js.Char) :
  Forall P l → Forall P (Js.dropWhiteSpace l).
Proof.
  induction 1 as [|c l Hc Hl IH]; simpl; [constructor|].
  destruct (Js.isWhiteSpace (Js.code c)); [done | by constructor].
Qed.

Lemma dropWhiteSpace_white (l : list Js.Char) :
  Forall (λ c, Js.isWhiteSpace (Js.code c) = true) (Js.dropWhiteSpace l) ↔
  Forall (λ c, Js.isWhiteSpace (Js.code c) = true) l.
Proof.
  split; [|apply dropWhiteSpace_Forall].
  induction l as [|c l IH]; simpl; [done|].
  destruct (Js.isWhiteSpace (Js.code c)) eqn:E; [|done].
  intros H. constructor; [done | by apply IH].
Qed.

Lemma reverse_empty {A} (l : list A) : reverse l = [] ↔ l = [].
Proof.
  split; [|by intros ->].
  intros H%(f_equal length). rewrite length_reverse in H. by destruct l.
Qed.

Lemma trim_empty (s : string) : Js.trim s = "" ↔ blank s.
Proof.
  unfold Js.trim, blank, Js.codePoints.
  rewrite join_nil.
  - rewrite reverse_empty, dropWhiteSpace_nil, Forall_reverse, dropWhiteSpace_white.
    by rewrite Forall_fmap.
  - apply Forall_reverse, dropWhiteSpace_Forall, Forall_reverse,
      dropWhiteSpace_Forall, charsFrom_text.
Qed.

(** ** Case conversion *)

Lemma encode_nonempty (cp : Z) : Js.encode cp ≠ "".
Proof. unfold Js.encode. by repeat case_match. Qed.

Lemma special_nonempty (specials : list (Z * list Z)) (cp : Z) (cps : list Z) :
  Forall (λ e, e.2 ≠ []) specials → Js.special specials cp = Some cps → cps ≠ [].
Proof.
  induction 1 as [|[c l] specials Hne _ IH]; simpl; [done|].
  destruct (c =? cp); [by intros [= <-] | done].
Qed.

Lemma mapped_nonempty (runs : list (Z * Z * Z * Z)) (specials : list (Z * list Z))
    (cp : Z) :
  Forall (λ e, e.2 ≠ []) specials → Js.mapped runs specials cp ≠ [].
Proof.
  intros Hs. unfold Js.mapped.
  destruct (Js.special specials cp) as [cps|] eqn:E; [by eapply special_nonempty|].
  by destruct (Js.inRun runs cp).
Qed.

Lemma converted_nonempty (c : Js.Char) (cps : list Z) :
  Js.text c ≠ "" → cps ≠ [] → Js.converted c cps ≠ "".
Proof.
  intros Hc Hcps. unfold Js.converted. case_bool_decide; [done|].
  destruct cps as [|cp cps]; [done|]. cbn [Js.encodeAll foldr].
  intros Hnil%append_nil_l. by apply encode_nonempty in Hnil.
Qed.

(** Lower-casing leaves no string empty but the empty one. *)
Lemma toLowerCase_empty (s : string) : Js.toLowerCase s = "" ↔ s = "".
Proof.
  split; [|by intros ->].
  unfold Js.toLowerCase. intros H. apply chars_nil.
  pose proof (charsFrom_text (String.length s) s) as Htext. fold (Js.chars s) in Htext.
  destruct Htext as [|c l Hc _]; [done|]. exfalso.
  cbn [Js.lowerFrom] in H. apply append_nil_l in H. revert H.
  apply converted_nonempty; [done|].
  destruct (Js.code c =? 0x3A3); [done|].
  apply mapped_nonempty. by repeat constructor.
Qed.

(** ** The order of the keys *)

Lemma bytes_inj (s t : string) : Js.bytes s = Js.bytes t → s = t.
Proof.
  revert t. induction s as [|c s IH]; intros [|d t]; simpl; try done.
  intros [= Hc Hs]. f_equal; [|by apply IH].
  unfold Js.byte in Hc. apply (inj Z.of_N) in Hc.
  by rewrite <- (ascii_N_embedding c), Hc, ascii_N_embedding.
Qed.

Lemma sortKey_inj (s t : string) : Js.sortKey s = Js.sortKey t → s = t.
Proof. intros [= _ H]. by apply bytes_inj. Qed.

#[global] Instance le_reflexive : Reflexive Js.le.
Proof. intros s. by left. Qed.

#[global] Instance le_transitive : Transitive Js.le.
Proof.
  intros s t u [->|Hst] [->|Htu]; [by left | by right | by right |].
  right. unfold Js.precedes in *. by trans (Js.sortKey t).
Qed.

#[global] Instance le_antisymm : AntiSymm (=) Js.le.
Proof.
  intros s t [->|Hst] [Heq|Hts]; [done..|].
  unfold Js.precedes in *.
  destruct (irreflexivity lexico (Js.sortKey s)). by trans (Js.sortKey t).
Qed.

#[global] Instance le_total : Total Js.le.
Proof.
  intros s t. unfold Js.le, Js.precedes.
  destruct (trichotomy lexico (Js.sortKey s) (Js.sortKey t)) as [?|[?%sortKey_inj|?]];
    auto.
Qed.




(** ** Facts about the digest *)

Lemma length_sha256 (msg : list Z) : length (Crypto.sha256 msg) = 32%nat.
Proof.
  unfold Crypto.sha256.
  generalize (Crypto.absorb (length (Crypto.wordsOfBytes (Crypto.pad msg)))
                Crypto.initialChain (Crypto.wordsOfBytes (Crypto.pad msg))).
  intros h. reflexivity.
Qed.

Lemma length_hexOfBytes (bs : list Z) :
  String.length (Crypto.hexOfBytes bs) = (2 * length bs)%nat.
Proof. induction bs as [|b bs IH]; simpl; [done|]. rewrite IH. lia. Qed.

Lemma length_hmacSha256Hex (secret msg : string) :
  String.length (Crypto.hmacSha256Hex secret msg) = 64%nat.
Proof.
  unfold Crypto.hmacSha256Hex, Crypto.hmacSha256.
  by rewrite length_hexOfBytes, length_sha256.
Qed.

Lemma hmacSha256Hex_nonempty (secret msg : string) :
  Crypto.hmacSha256Hex secret msg ≠ "".
Proof.
  intros E. pose proof (length_hmacSha256Hex secret msg) as L.
  by rewrite E in L.
Qed.



Lemma timingSafeEqual_true (a b : string) :
  Crypto.timingSafeEqual a b = Js.Normal true ↔ a = b.
Proof.
  unfold Crypto.timingSafeEqual. split.
  - destruct (String.length a =? String.length b)%nat; [|done].
    intros [= E]. by apply String.eqb_eq.
  - intros ->. by rewrite Nat.eqb_refl, String.eqb_refl.
Qed.

Lemma timingSafeEqual_throws (a b : string) :
  String.length a ≠ String.length b →
  Crypto.timingSafeEqual a b = Js.Throw "Input buffers must have the same byte length".
Proof.
  intros Hne. unfold Crypto.timingSafeEqual.
  by destruct (Nat.eqb_spec (String.length a) (String.length b)).
Qed.

(** ** Facts about the parameter object *)

Lemma get_app (l1 l2 : list (string * string)) (k : string) :
  Http.get (l1 ++ l2) k =
    match Http.get l1 k with
    | Some v => Some v
    | None => Http.get l2 k
    end.
Proof.
  induction l1 as [|[k' v'] l1 IH]; simpl; [done|].
  by destruct (String.eqb k' k).
Qed.

Lemma get_None (l : list (string * string)) (k : string) :
  Http.get l k = None ↔ k ∉ l.*1.
Proof.
  induction l as [|[k' v'] l IH]; simpl.
  - split; [intros _; apply not_elem_of_nil | done].
  - rewrite not_elem_of_cons. destruct (String.eqb_spec k' k) as [->|Hne].
    + split; [done | by intros [? _]].
    + rewrite IH. split; [by intros ? | by intros [_ ?]].
Qed.

(** [Object.fromEntries] keeps, for every key, the value of its last entry. *)
Lemma fromEntries_lookup (entries : list (string * string)) (k : string) :
  Http.fromEntries entries !! k = Http.get (reverse entries) k.
Proof.
  unfold Http.fromEntries.
  assert (∀ m : gmap string string,
            foldl (λ m kv, <[kv.1 := kv.2]> m) m entries !! k =
              match Http.get (reverse entries) k with
              | Some v => Some v
              | None => m !! k
              end) as Hgen.
  { induction entries as [|[k' v'] entries IH]; intros m; simpl; [done|].
    rewrite IH, reverse_cons, get_app. simpl.
    destruct (Http.get (reverse entries) k); [done|].
    destruct (String.eqb_spec k' k) as [->|Hne].
    - by rewrite lookup_insert_eq.
    - by rewrite lookup_insert_ne. }
  rewrite Hgen, lookup_empty. by destruct (Http.get (reverse entries) k).
Qed.

Lemma params_absent (req : Http.Request) (k : string) :
  Shared.params req !! k = None ↔ Http.get (Http.searchParams req) k = None.
Proof.
  unfold Shared.params. rewrite fromEntries_lookup, !get_None.
  by rewrite fmap_reverse, elem_of_reverse.
Qed.






(** ** The Authenticator *)

Lemma append_empty_r (s : string) : s +:+ "" = s.
Proof.
  induction s as [|c s IH]; [done|].
  change (String c (s +:+ "") = String c s). by rewrite IH.
Qed.

Lemma append_assoc (s t u : string) : (s +:+ t) +:+ u = s +:+ t +:+ u.
Proof.
  induction s as [|c s IH]; [done|].
  change (String c ((s +:+ t) +:+ u) = String c (s +:+ t +:+ u)). by rewrite IH.
Qed.




Lemma Progress_accepts_iff (req : Http.Request) (secret : string) :
  accepted (Progress.verifyProxySignature req secret) ↔
  Shared.provided req = Some (Shared.digest req secret).
Proof.
  unfold accepted, Progress.verifyProxySignature. split.
  - intros (chk & Hrun & Hok).
    destruct (Shared.provided req) as [p|]; [|by simplify_eq].
    destruct (String.eqb_spec p ""); [by simplify_eq|].
    destruct (Crypto.timingSafeEqual (Shared.digest req secret) p) as [[|]|msg] eqn:Hcmp;
      [|by simplify_eq..].
    apply timingSafeEqual_true in Hcmp. by subst.
  - intros ->.
    destruct (String.eqb_spec (Shared.digest req secret) "") as [E|_].
    { by apply hmacSha256Hex_nonempty in E. }
    rewrite (proj2 (timingSafeEqual_true _ _) eq_refl). by eexists.
Qed.

Lemma OrderStatus_accepts_iff (req : Http.Request) (secret : string) :
  accepted (OrderStatus.verifyProxySignature req secret) ↔
  Shared.provided req = Some (Shared.digest req secret).
Proof.
  unfold accepted, OrderStatus.verifyProxySignature. split.
  - intros (chk & Hrun & Hok).
    destruct (Shared.provided req) as [p|]; [|by simplify_eq].
    destruct (String.eqb_spec p ""); [by simplify_eq|].
    destruct (Crypto.timingSafeEqual (Shared.digest req secret) p) as [[|]|msg] eqn:Hcmp;
      [|by simplify_eq..].
    apply timingSafeEqual_true in Hcmp. by subst.
  - intros ->.
    destruct (String.eqb_spec (Shared.digest req secret) "") as [E|_].
    { by apply hmacSha256Hex_nonempty in E. }
    rewrite (proj2 (timingSafeEqual_true _ _) eq_refl). by eexists.
Qed.


(** ** The handlers walk the decision tree *)

Ltac flow_unfold :=
  unfold Flow.return_if, Flow.lift, Flow.try_catch, Flow.request, mbind, mret,
    flow_bind, flow_ret, Flow.bind, Flow.ret, Flow.reply, Flow.raise.

Ltac open_handler :=
  unfold tree, gate, lookup, lookupCall, Shared.shopifyGraphQL; flow_unfold;
  cbv zeta; cbn [verify defaultVersion document order search unconfigured
                 unauthorized missingOrder notFound found failed
                 progress orderStatus].

Ltac split_on t := destruct t; try reflexivity.

Ltac walk_lookup rt :=
  match goal with |- context [String.eqb ?o ""] => split_on (String.eqb o "") end;
  match goal with |- context [fetch rt ?c] => split_on (fetch rt c) end;
  match goal with |- context [negb ?a || ?b] => split_on (negb a || b) end;
  match goal with |- context [Shared.firstNode ?e] => split_on (Shared.firstNode e) end.

Ltac walk_tree rt req v :=
  open_handler;
  match goal with |- context [negb ?a || negb ?b] => split_on (negb a || negb b) end;
  split_on (Js.truthy (Http.SHOPIFY_API_SECRET (env rt)));
  [ split_on (v req (Shared.template (Http.SHOPIFY_API_SECRET (env rt))));
    match goal with |- context [negb (Shared.ok ?c)] => split_on (negb (Shared.ok c)) end
  | ];
  walk_lookup rt.

Lemma Progress_handler_tree (rt : Runtime) (req : Http.Request) :
  Progress.handler rt req = tree progress rt req.
Proof.
  unfold Progress.handler. walk_tree rt req Progress.verifyProxySignature.
  all: split_on (Progress.wantsHtml req).
Qed.

Lemma OrderStatus_handler_tree (rt : Runtime) (req : Http.Request) :
  OrderStatus.handler rt req = tree orderStatus rt req.
Proof.
  unfold OrderStatus.handler. walk_tree rt req OrderStatus.verifyProxySignature.
Qed.

(** ** Walking the tree *)

Lemma configured_guard (rt : Runtime) :
  configured rt →
  negb (Js.truthy (Http.SHOPIFY_SHOP (env rt)))
  || negb (Js.truthy (Http.SHOPIFY_ACCESS_TOKEN (env rt))) = false.
Proof. by intros [-> ->]. Qed.

Lemma gate_signing (v : Variant) (rt : Runtime) (req : Http.Request) (secret : string) :
  signing rt secret → gate v rt req = verify v req secret.
Proof.
  intros [Hs Hne]. unfold gate. rewrite Hs. simpl.
  by destruct (String.eqb_spec secret "").
Qed.

Lemma tree_unconfigured (v : Variant) (rt : Runtime) (req : Http.Request) :
  ¬ configured rt →
  tree v rt req = {| Flow.response := unconfigured v; Flow.calls := [] |}.
Proof.
  intros Hno. unfold tree, configured in *.
  destruct (Js.truthy (Http.SHOPIFY_SHOP (env rt))),
           (Js.truthy (Http.SHOPIFY_ACCESS_TOKEN (env rt))); try done.
  by destruct Hno.
Qed.

Lemma tree_gate_throws (v : Variant) (rt : Runtime) (req : Http.Request) (msg : string) :
  configured rt → gate v rt req = Js.Throw msg →
  tree v rt req = {| Flow.response := failed v msg; Flow.calls := [] |}.
Proof. intros Hc Hg. unfold tree. by rewrite configured_guard, Hg. Qed.

Lemma tree_gate_rejects (v : Variant) (rt : Runtime) (req : Http.Request) (chk : Shared.Check) :
  configured rt → gate v rt req = Js.Normal chk → Shared.ok chk = false →
  tree v rt req = {| Flow.response := unauthorized v chk; Flow.calls := [] |}.
Proof. intros Hc Hg Hok. unfold tree. by rewrite configured_guard, Hg, Hok. Qed.

(** Every upstream call is the one lookup call, and it is made only past
    all three guards. *)
Lemma tree_calls (v : Variant) (rt : Runtime) (req : Http.Request) (c : Shopify.Call) :
  c ∈ Flow.calls (tree v rt req) →
  c = lookupCall v rt req
  ∧ Flow.calls (tree v rt req) = [lookupCall v rt req]
  ∧ order v req ≠ ""
  ∧ configured rt
  ∧ ∃ chk, gate v rt req = Js.Normal chk ∧ Shared.ok chk = true.
Proof.
  unfold tree, configured.
  destruct (Js.truthy (Http.SHOPIFY_SHOP (env rt))); simpl; [|by intros ?%elem_of_nil].
  destruct (Js.truthy (Http.SHOPIFY_ACCESS_TOKEN (env rt))); simpl; [|by intros ?%elem_of_nil].
  destruct (gate v rt req) as [chk|msg]; [|by intros ?%elem_of_nil].
  destruct (Shared.ok chk) eqn:Hok; simpl; [|by intros ?%elem_of_nil].
  destruct (String.eqb_spec (order v req) ""); [by intros ?%elem_of_nil|].
  intros Hin.
  assert (c = lookupCall v rt req) as ->.
  { destruct (lookup rt (lookupCall v rt req)) as [[node|]|msg];
      by apply list_elem_of_singleton in Hin. }
  repeat split; try done; [|by exists chk].
  by destruct (lookup rt (lookupCall v rt req)) as [[node|]|msg].
Qed.

(** Past the guards, exactly one lookup is made and its result decides the
    response. *)
Lemma tree_lookup (v : Variant) (rt : Runtime) (req : Http.Request) (chk : Shared.Check) :
  configured rt → gate v rt req = Js.Normal chk → Shared.ok chk = true →
  order v req ≠ "" →
  tree v rt req =
    {| Flow.response :=
         match lookup rt (lookupCall v rt req) with
         | Js.Throw msg => failed v msg
         | Js.Normal None => notFound v
         | Js.Normal (Some node) => found v rt req node
         end;
       Flow.calls := [lookupCall v rt req] |}.
Proof.
  intros Hc Hg Hok Ho. unfold tree. rewrite configured_guard, Hg, Hok by done.
  simpl. destruct (String.eqb_spec (order v req) ""); [done|].
  by destruct (lookup rt (lookupCall v rt req)) as [[node|]|msg].
Qed.

(** ** Rejections by the Authenticator *)

Lemma provided_fallback (req : Http.Request) :
  Shared.params req !! "signature" = None ∨ Shared.params req !! "signature" = Some "" →
  Shared.provided req = Shared.params req !! "hmac".
Proof.
  intros H%truthy_false. unfold Shared.provided, Js.or_else. by rewrite H.
Qed.

Lemma Progress_verify_missing (req : Http.Request) (secret : string) :
  Shared.provided req = None ∨ Shared.provided req = Some "" →
  Progress.verifyProxySignature req secret =
    Js.Normal {| Shared.ok := false; Shared.reason := Some "Missing signature/hmac" |}.
Proof. unfold Progress.verifyProxySignature. by intros [->| ->]. Qed.

Lemma OrderStatus_verify_missing (req : Http.Request) (secret : string) :
  Shared.provided req = None ∨ Shared.provided req = Some "" →
  OrderStatus.verifyProxySignature req secret =
    Js.Normal {| Shared.ok := false; Shared.reason := None |}.
Proof. unfold OrderStatus.verifyProxySignature. by intros [->| ->]. Qed.

Lemma Progress_verify_throws (req : Http.Request) (secret p : string) :
  Shared.provided req = Some p → p ≠ "" → String.length p ≠ 64%nat →
  Progress.verifyProxySignature req secret =
    Js.Throw "Input buffers must have the same byte length".
Proof.
  intros Hp Hne Hlen. unfold Progress.verifyProxySignature. rewrite Hp.
  destruct (String.eqb_spec p ""); [done|].
  rewrite timingSafeEqual_throws; [done|].
  unfold Shared.digest. by rewrite length_hmacSha256Hex.
Qed.

Lemma Progress_verify_invalid (req : Http.Request) (secret p : string) :
  Shared.provided req = Some p → String.length p = 64%nat →
  p ≠ Shared.digest req secret →
  Progress.verifyProxySignature req secret =
    Js.Normal {| Shared.ok := false; Shared.reason := Some "Invalid signature/hmac" |}.
Proof.
  intros Hp Hlen Hne. unfold Progress.verifyProxySignature. rewrite Hp.
  destruct (String.eqb_spec p "") as [->|_]; [done|].
  unfold Crypto.timingSafeEqual, Shared.digest in *.
  rewrite length_hmacSha256Hex, Hlen, Nat.eqb_refl.
  destruct (String.eqb_spec (Crypto.hmacSha256Hex secret (Shared.message req)) p) as [E|_];
    [|reflexivity].
  by destruct Hne.
Qed.

(** A signature of the right length that is not the digest is answered
    with 401 and no lookup. *)
Lemma wrong_signature_of_digest_length (rt : Runtime) (req : Http.Request) (secret p : string) :
  configured rt → signing rt secret →
  Shared.provided req = Some p → String.length p = 64%nat →
  p ≠ Shared.digest req secret →
  Progress.handler rt req =
    {| Flow.response :=
         Http.json 401
           (Http.ErrorJson "Unauthorized proxy request" None
              (Some "Invalid signature/hmac") None);
       Flow.calls := [] |}.
Proof.
  intros Hc Hs Hp Hlen Hne. rewrite Progress_handler_tree.
  rewrite (tree_gate_rejects progress rt req
             {| Shared.ok := false; Shared.reason := Some "Invalid signature/hmac" |});
    [done..| |done].
  rewrite (gate_signing _ _ _ secret) by done.
  by apply Progress_verify_invalid with p.
Qed.

(** The handler of api/order-status.js shares the comparison and with it
    the exception. *)
Lemma OrderStatus_verify_throws (req : Http.Request) (secret p : string) :
  Shared.provided req = Some p → p ≠ "" → String.length p ≠ 64%nat →
  OrderStatus.verifyProxySignature req secret =
    Js.Throw "Input buffers must have the same byte length".
Proof.
  intros Hp Hne Hlen. unfold OrderStatus.verifyProxySignature. rewrite Hp.
  destruct (String.eqb_spec p ""); [done|].
  rewrite timingSafeEqual_throws; [done|].
  unfold Shared.digest. by rewrite length_hmacSha256Hex.
Qed.

Lemma OrderStatus_signature_of_other_length
    (rt : Runtime) (req : Http.Request) (secret p : string) :
  configured rt → signing rt secret →
  Shared.provided req = Some p → p ≠ "" → String.length p ≠ 64%nat →
  OrderStatus.handler rt req =
    {| Flow.response :=
         Http.json 500
           (Http.ErrorJson "Server error" None None
              (Some "Input buffers must have the same byte length"));
       Flow.calls := [] |}.
Proof.
  intros Hc Hs Hp Hne Hlen. rewrite OrderStatus_handler_tree.
  rewrite (tree_gate_throws orderStatus rt req
             "Input buffers must have the same byte length"); [done..|].
  rewrite (gate_signing _ _ _ secret) by done.
  by apply OrderStatus_verify_throws with p.
Qed.

(** C4 (the code departs from it). A provided signature whose length is not
    that of the digest makes [timingSafeEqual] throw; the handler's [catch]
    answers 500 "Server error", not 401. *)
Theorem signature_of_other_length_is_server_error
    (rt : Runtime) (req : Http.Request) (secret p : string) :
  configured rt → signing rt secret →
  Shared.provided req = Some p → p ≠ "" → String.length p ≠ 64%nat →
  p ≠ Shared.digest req secret
  ∧ Progress.verifyProxySignature req secret =
      Js.Throw "Input buffers must have the same byte length"
  ∧ Progress.handler rt req =
      {| Flow.response :=
           Http.json 500
             (Http.ErrorJson "Server error" None None
                (Some "Input buffers must have the same byte length"));
         Flow.calls := [] |}.
Proof.
  intros Hc Hs Hp Hne Hlen. split.
  { intros ->. apply Hlen. apply length_hmacSha256Hex. }
  split; [by apply Progress_verify_throws with p|].
  rewrite Progress_handler_tree.
  rewrite (tree_gate_throws progress rt req "Input buffers must have the same byte length");
    [done..|].
  rewrite (gate_signing _ _ _ secret) by done.
  by apply Progress_verify_throws with p.
Qed.

Lemma signature_abc_is_server_error :
  Http.status
    (Flow.response
       (Progress.handler (exampleRuntime theShop theSecret 0 unfulfilled)
          (exampleRequest [("order", "1043"); ("signature", "abc")]))) = 500.
Proof.
  destruct (signature_of_other_length_is_server_error
              (exampleRuntime theShop theSecret 0 unfulfilled)
              (exampleRequest [("order", "1043"); ("signature", "abc")])
              "shpss_test_secret" "abc") as (_ & _ & ->).
  - split; reflexivity.
  - split; [reflexivity | discriminate].
  - vm_compute. reflexivity.
  - discriminate.
  - simpl. lia.
  - reflexivity.
Defined.

(** C5 (amended). With shop domain, access token and signing secret
    configured, a request without a [signature] parameter is judged by its
    [hmac] parameter; when that is missing too, the Authenticator fails with
    the reason "Missing signature/hmac", the handler answers 401 with that
    reason, and no lookup is made. *)
Theorem missing_signature_is_unauthorized
    (rt : Runtime) (req : Http.Request) (secret : string) :
  configured rt → signing rt secret →
  Http.get (Http.searchParams req) "signature" = None →
  Shared.provided req = Shared.params req !! "hmac"
  ∧ (accepted (Progress.verifyProxySignature req secret) ↔
     Shared.params req !! "hmac" = Some (Shared.digest req secret))
  ∧ (Http.get (Http.searchParams req) "hmac" = None →
     Progress.verifyProxySignature req secret =
       Js.Normal {| Shared.ok := false; Shared.reason := Some "Missing signature/hmac" |}
     ∧ Progress.handler rt req =
         {| Flow.response :=
              Http.json 401
                (Http.ErrorJson "Unauthorized proxy request" None
                   (Some "Missing signature/hmac") None);
            Flow.calls := [] |}).
Proof.
  intros Hc Hs Hsig%params_absent.
  assert (Shared.provided req = Shared.params req !! "hmac") as Hfall.
  { apply provided_fallback. by left. }
  split; [done|]. split; [by rewrite Progress_accepts_iff, Hfall|].
  intros Hhmac%params_absent.
  assert (Progress.verifyProxySignature req secret =
            Js.Normal {| Shared.ok := false; Shared.reason := Some "Missing signature/hmac" |})
    as Hmissing.
  { apply Progress_verify_missing. left. by rewrite Hfall. }
  split; [done|]. rewrite Progress_handler_tree.
  rewrite (tree_gate_rejects progress rt req
             {| Shared.ok := false; Shared.reason := Some "Missing signature/hmac" |});
    [done..| |done].
  by rewrite (gate_signing _ _ _ secret).
Qed.

Lemma scenario_E_unsigned_request :
  Progress.handler (exampleRuntime theShop theSecret 0 unfulfilled)
    (exampleRequest [("order", "1043")])
  = {| Flow.response :=
         Http.json 401
           (Http.ErrorJson "Unauthorized proxy request" None
              (Some "Missing signature/hmac") None);
       Flow.calls := [] |}.
Proof.
  apply (missing_signature_is_unauthorized
           (exampleRuntime theShop theSecret 0 unfulfilled)
           (exampleRequest [("order", "1043")]) "shpss_test_secret").
  - split; reflexivity.
  - split; [reflexivity | discriminate].
  - reflexivity.
  - reflexivity.
Defined.

(** The same unsigned request when the shop domain is not configured: the
    first guard answers 500 although a signing secret is set. *)
Lemma unsigned_request_without_shop :
  signing (exampleRuntime None theSecret 0 unfulfilled) "shpss_test_secret"
  ∧ Http.get [("order", "1043")] "signature" = None
  ∧ Http.get [("order", "1043")] "hmac" = None
  ∧ Progress.handler (exampleRuntime None theSecret 0 unfulfilled)
      (exampleRequest [("order", "1043")])
    = {| Flow.response :=
           Http.json 500
             (Http.ErrorJson "Missing SHOPIFY_SHOP / SHOPIFY_ACCESS_TOKEN env"
                None None None);
         Flow.calls := [] |}
  ∧ Http.status
      (Flow.response
         (Progress.handler (exampleRuntime None theSecret 0 unfulfilled)
            (exampleRequest [("order", "1043")]))) ≠ 401.
Proof.
  split; [split; [reflexivity | discriminate]|].
  split; [reflexivity|]. split; [reflexivity|]. split; [reflexivity|].
  vm_compute. discriminate.
Qed.

(** C10. An empty [signature] parameter counts as absent: the Authenticator
    judges the request by its [hmac] parameter, and when that is absent or
    empty as well it returns the missing-signature result, which both
    handlers answer with 401 without a lookup. *)
Theorem empty_signature_counts_as_absent (req : Http.Request) (secret : string) :
  Shared.params req !! "signature" = Some "" →
  Shared.provided req = Shared.params req !! "hmac"
  ∧ (accepted (Progress.verifyProxySignature req secret) ↔
     Shared.params req !! "hmac" = Some (Shared.digest req secret))
  ∧ (accepted (OrderStatus.verifyProxySignature req secret) ↔
     Shared.params req !! "hmac" = Some (Shared.digest req secret))
  ∧ (Shared.params req !! "hmac" = None ∨ Shared.params req !! "hmac" = Some "" →
     Progress.verifyProxySignature req secret =
       Js.Normal {| Shared.ok := false; Shared.reason := Some "Missing signature/hmac" |}
     ∧ OrderStatus.verifyProxySignature req secret =
         Js.Normal {| Shared.ok := false; Shared.reason := None |}
     ∧ ∀ rt, configured rt → signing rt secret →
         Progress.handler rt req =
           {| Flow.response :=
                Http.json 401
                  (Http.ErrorJson "Unauthorized proxy request" None
                     (Some "Missing signature/hmac") None);
              Flow.calls := [] |}
         ∧ OrderStatus.handler rt req =
             {| Flow.response :=
                  Http.json 401 (Http.ErrorJson "Invalid proxy signature" None None None);
                Flow.calls := [] |}).
Proof.
  intros Hsig.
  assert (Shared.provided req = Shared.params req !! "hmac") as Hfall.
  { apply provided_fallback. by right. }
  split; [done|]. split; [by rewrite Progress_accepts_iff, Hfall|].
  split; [by rewrite OrderStatus_accepts_iff, Hfall|].
  intros Hhmac. rewrite <- Hfall in Hhmac.
  pose proof (Progress_verify_missing req secret Hhmac) as HP.
  pose proof (OrderStatus_verify_missing req secret Hhmac) as HO.
  split; [done|]. split; [done|]. intros rt Hc Hs. split.
  - rewrite Progress_handler_tree.
    rewrite (tree_gate_rejects progress rt req
               {| Shared.ok := false; Shared.reason := Some "Missing signature/hmac" |});
      [done..| |done].
    by rewrite (gate_signing _ _ _ secret).
  - rewrite OrderStatus_handler_tree.
    rewrite (tree_gate_rejects orderStatus rt req
               {| Shared.ok := false; Shared.reason := None |});
      [done..| |done].
    by rewrite (gate_signing _ _ _ secret).
Qed.

Lemma empty_signature_then_hmac_decides :
  accepted
    (Progress.verifyProxySignature
       (exampleRequest
          [("order", "1043"); ("signature", "");
           ("hmac", "15016f8e17c6398aee5c2e1aba5adf30d169f0f2b6bed121d47701f13e981860")])
       "shpss_test_secret")
  ∧ OrderStatus.verifyProxySignature
      (exampleRequest [("signature", ""); ("order", "1043"); ("hmac", "")])
      "shpss_test_secret"
    = Js.Normal {| Shared.ok := false; Shared.reason := None |}.
Proof.
  split.
  - refine (proj2 (proj1 (proj2
              (empty_signature_counts_as_absent
                 (exampleRequest
                    [("order", "1043"); ("signature", "");
                     ("hmac", "15016f8e17c6398aee5c2e1aba5adf30d169f0f2b6bed121d47701f13e981860")])
                 "shpss_test_secret" _))) _).
    + vm_compute. reflexivity.
    + vm_compute. reflexivity.
  - refine (proj1 (proj2 (proj2 (proj2 (proj2
              (empty_signature_counts_as_absent
                 (exampleRequest [("signature", ""); ("order", "1043"); ("hmac", "")])
                 "shpss_test_secret" _))) _))).
    + vm_compute. reflexivity.
    + right. vm_compute. reflexivity.
Defined.

(** ** The Stage Resolver *)

Lemma truthy_or_else (a b : option string) :
  Js.truthy (Js.or_else a b) = Js.truthy a || Js.truthy b.
Proof. unfold Js.or_else. by destruct (Js.truthy a) eqn:E. Qed.

Lemma truthy_nonEmpty (o : option string) : Js.truthy o = true ↔ nonEmpty o.
Proof. apply truthy_Some_true. Qed.

Lemma Progress_hasTracking_tracked (node : Shopify.OrderNode) :
  Progress.hasTracking node = true ↔ tracked node.
Proof.
  unfold Progress.hasTracking, tracked, trackingEntry.
  rewrite existsb_exists. split.
  - intros (f & Hf & Hts). apply existsb_exists in Hts as ([t|] & Ht & Hev); [|done].
    simpl in Hev. rewrite truthy_or_else, orb_true_iff, !truthy_nonEmpty in Hev.
    destruct (Shopify.fulfillments node) as [fs|]; [|by inversion Hf].
    destruct (Shopify.trackingInfo f) as [ts|] eqn:Hf'; [|by inversion Ht].
    exists t. split; [|done]. exists fs, f, ts.
    by rewrite <- !list_elem_of_In in *.
  - intros (t & (fs & f & ts & Hfs & Hf & Hts & Ht) & Hev).
    exists f. rewrite Hfs. simpl. split; [by apply list_elem_of_In|].
    apply existsb_exists. exists (Some t). rewrite Hts. simpl.
    split; [by apply list_elem_of_In|].
    by rewrite truthy_or_else, orb_true_iff, !truthy_nonEmpty.
Qed.

Lemma OrderStatus_hasTracking_trackedByNumber (node : Shopify.OrderNode) :
  OrderStatus.hasTracking node = true ↔ trackedByNumber node.
Proof.
  unfold OrderStatus.hasTracking, trackedByNumber, trackingEntry. split.
  - destruct (Shopify.fulfillments node) as [fs|]; [|done].
    intros (f & Hf & Hts)%existsb_exists.
    destruct (Shopify.trackingInfo f) as [ts|] eqn:Hf'; [|done].
    apply existsb_exists in Hts as ([t|] & Ht & Hev); [|done].
    simpl in Hev. apply truthy_nonEmpty in Hev.
    exists t. split; [|done]. exists fs, f, ts.
    by rewrite <- !list_elem_of_In in *.
  - intros (t & (fs & f & ts & Hfs & Hf & Hts & Ht) & Hev).
    rewrite Hfs. apply existsb_exists. exists f.
    split; [by apply list_elem_of_In|]. rewrite Hts.
    apply existsb_exists. exists (Some t).
    split; [by apply list_elem_of_In|]. by apply truthy_nonEmpty.
Qed.

Lemma upper_FULFILLED : Js.toUpperCase "FULFILLED" = "FULFILLED".
Proof. by vm_compute. Qed.

Lemma upper_null : String.eqb (Js.toUpperCase "null") "FULFILLED" = false.
Proof. by vm_compute. Qed.

Lemma Progress_isFulfilled_reported (node : Shopify.OrderNode) :
  Progress.isFulfilled node = true ↔ reportedFulfilled node.
Proof.
  unfold Progress.isFulfilled, reportedFulfilled, equalIgnoringCase.
  rewrite upper_FULFILLED.
  destruct (Shopify.displayFulfillmentStatus node) as [s|]; cbn [default].
  - rewrite String.eqb_eq. split.
    + intros Hup. by exists s.
    + by intros (s' & [= <-] & Hup).
  - rewrite upper_null. split; [done | by intros (s & ? & _)].
Qed.

Lemma OrderStatus_isFulfilled_exactly (node : Shopify.OrderNode) :
  OrderStatus.isFulfilled node = true ↔ reportedFulfilledExactly node.
Proof.
  unfold OrderStatus.isFulfilled, reportedFulfilledExactly.
  destruct (Shopify.displayFulfillmentStatus node) as [s|]; [|done].
  rewrite String.eqb_eq. split; congruence.
Qed.

(** The narrower evidence is evidence. *)
Lemma exactly_reported (node : Shopify.OrderNode) :
  reportedFulfilledExactly node → reportedFulfilled node.
Proof. intros H. by exists "FULFILLED". Qed.

Lemma trackedByNumber_tracked (node : Shopify.OrderNode) :
  trackedByNumber node → tracked node.
Proof. intros (t & Ht & Hn). exists t. split; [done | by left]. Qed.

Lemma Progress_stageObj_override (node : Shopify.OrderNode) (days : Js.number) :
  reportedFulfilled node ∨ tracked node →
  Progress.stageObj node days = Progress.shippedObj.
Proof.
  intros Hev. unfold Progress.stageObj.
  assert (Progress.hasTracking node || Progress.isFulfilled node = true) as ->; [|done].
  apply orb_true_iff. destruct Hev as [Hf|Ht].
  - right. by apply Progress_isFulfilled_reported.
  - left. by apply Progress_hasTracking_tracked.
Qed.

Lemma Progress_stageObj_age (node : Shopify.OrderNode) (days : Js.number) :
  ¬ reportedFulfilled node → ¬ tracked node →
  Progress.stageObj node days = Progress.computeStage days.
Proof.
  intros Hf Ht. unfold Progress.stageObj.
  destruct (Progress.hasTracking node) eqn:E1.
  { by apply Progress_hasTracking_tracked in E1. }
  destruct (Progress.isFulfilled node) eqn:E2; [|done].
  by apply Progress_isFulfilled_reported in E2.
Qed.

Lemma OrderStatus_stage_override (node : Shopify.OrderNode) (days : Js.number) :
  reportedFulfilledExactly node ∨ trackedByNumber node →
  OrderStatus.stage node days = "shipped".
Proof.
  intros Hev. unfold OrderStatus.stage.
  assert (OrderStatus.hasTracking node || OrderStatus.isFulfilled node = true) as ->; [|done].
  apply orb_true_iff. destruct Hev as [Hf|Ht].
  - right. by apply OrderStatus_isFulfilled_exactly.
  - left. by apply OrderStatus_hasTracking_trackedByNumber.
Qed.

Lemma OrderStatus_stage_age (node : Shopify.OrderNode) (days : Js.number) :
  ¬ reportedFulfilledExactly node → ¬ trackedByNumber node →
  OrderStatus.stage node days = OrderStatus.computeStage days.
Proof.
  intros Hf Ht. unfold OrderStatus.stage.
  destruct (OrderStatus.hasTracking node) eqn:E1.
  { by apply OrderStatus_hasTracking_trackedByNumber in E1. }
  destruct (OrderStatus.isFulfilled node) eqn:E2; [|done].
  by apply OrderStatus_isFulfilled_exactly in E2.
Qed.

Lemma Progress_computeStage_age (d : Z) :
  Progress.stage (Progress.computeStage (Js.Num d)) = stageOfAge d.
Proof.
  unfold Progress.computeStage, stageOfAge, Js.lt.
  destruct (Z.ltb_spec d 2), (Z.ltb_spec d 4);
    repeat case_decide; (reflexivity || lia).
Qed.

Lemma OrderStatus_computeStage_age (d : Z) :
  OrderStatus.computeStage (Js.Num d) = stageOfAge d.
Proof.
  unfold OrderStatus.computeStage, stageOfAge, Js.lt.
  destruct (Z.ltb_spec d 2), (Z.ltb_spec d 4);
    repeat case_decide; (reflexivity || lia).
Qed.

(** C1 (amended). In the handler of part_000 the override is as the
    specification words it: a status equal to FULFILLED up to case, or a
    tracking entry with a non-empty number or URL, forces the shipped stage
    and its message whatever [daysSince] is.  In the handler of
    api/order-status.js the override is narrower: it fires when the status
    is FULFILLED letter for letter or a tracking entry has a non-empty
    number, and otherwise (a status in another case, a tracking URL alone)
    the age classification stays. *)
Theorem override_forces_shipped
    (rt : Runtime) (node : Shopify.OrderNode) (days : Js.number) :
  (reportedFulfilled node ∨ tracked node →
   Progress.stageObj node days = Progress.shippedObj
   ∧ Http.stage (Progress.payload rt node) = "shipped"
   ∧ Http.message (Progress.payload rt node) = "Bestellung versendet.")
  ∧ (reportedFulfilledExactly node ∨ trackedByNumber node →
     OrderStatus.stage node days = "shipped"
     ∧ Http.stage (OrderStatus.payload rt node) = "shipped"
     ∧ Http.message (OrderStatus.payload rt node) = "Bestellung versendet.")
  ∧ (¬ reportedFulfilledExactly node → ¬ trackedByNumber node →
     OrderStatus.stage node days = OrderStatus.computeStage days
     ∧ Http.stage (OrderStatus.payload rt node)
       = OrderStatus.computeStage (Shared.daysSince rt node)).
Proof.
  split; [|split].
  - intros Hev. split; [by apply Progress_stageObj_override|].
    unfold Progress.payload. cbn [Http.stage Http.message].
    by rewrite Progress_stageObj_override.
  - intros Hev. split; [by apply OrderStatus_stage_override|].
    unfold OrderStatus.payload. cbn [Http.stage Http.message].
    by rewrite OrderStatus_stage_override.
  - intros Hf Ht. split; [by apply OrderStatus_stage_age|].
    unfold OrderStatus.payload. cbn [Http.stage].
    by apply OrderStatus_stage_age.
Qed.

Lemma scenario_C_tracking_number_after_one_day :
  Http.stage
    (Progress.payload
       (exampleRuntime theShop None oneDay
          (exampleNode (Some "UNFULFILLED") (Some [withNumber "1Z999"])))
       (exampleNode (Some "UNFULFILLED") (Some [withNumber "1Z999"]))) = "shipped"
  ∧ OrderStatus.stage (exampleNode (Some "FULFILLED") None) (Js.Num 0) = "shipped".
Proof.
  split.
  - refine (proj1 (proj2 (proj1 (override_forces_shipped
             (exampleRuntime theShop None oneDay
                (exampleNode (Some "UNFULFILLED") (Some [withNumber "1Z999"])))
             (exampleNode (Some "UNFULFILLED") (Some [withNumber "1Z999"]))
             (Js.Num 1)) _))).
    right. exists {| Shopify.number := Some "1Z999"; Shopify.url := None |}.
    split.
    + exists [withNumber "1Z999"], (withNumber "1Z999"),
        [Some {| Shopify.number := Some "1Z999"; Shopify.url := None |}].
      split; [reflexivity|]. split; [by apply list_elem_of_singleton|].
      split; [reflexivity|]. by apply list_elem_of_singleton.
    + left. exists "1Z999". split; [reflexivity | discriminate].
  - refine (proj1 (proj1 (proj2 (override_forces_shipped
             (exampleRuntime theShop None 0 (exampleNode (Some "FULFILLED") None))
             (exampleNode (Some "FULFILLED") None) (Js.Num 0))) _)).
    left. reflexivity.
Defined.

(** The handler of api/order-status.js on an order whose status is spelled
    in lower case: the override does not fire. *)
Lemma lowercase_status_is_not_overridden :
  reportedFulfilled (exampleNode (Some "fulfilled") (Some []))
  ∧ OrderStatus.stage (exampleNode (Some "fulfilled") (Some [])) (Js.Num 0) ≠ "shipped"
  ∧ stageResult
      (OrderStatus.handler
         (exampleRuntime theShop None 0 (exampleNode (Some "fulfilled") (Some [])))
         (exampleRequest [("order", "1043")]))
    = Some ("processing",
            "Die Bestellung ist bei uns eingegangen und wird nun verarbeitet.",
            Js.Num 0).
Proof.
  split; [|split].
  - exists "fulfilled". split; reflexivity.
  - vm_compute. discriminate.
  - vm_compute. reflexivity.
Qed.

(** C2. Age classification: without fulfillment evidence, a whole number of
    days below 2 gives processing, from 2 and below 4 packing, from 4 on
    shipped, in both handlers. *)
Theorem age_classification (node : Shopify.OrderNode) (d : Z) :
  ¬ reportedFulfilled node → ¬ tracked node →
  (d < 2 →
   Progress.stage (Progress.stageObj node (Js.Num d)) = "processing"
   ∧ OrderStatus.stage node (Js.Num d) = "processing")
  ∧ (2 ≤ d < 4 →
     Progress.stage (Progress.stageObj node (Js.Num d)) = "packing"
     ∧ OrderStatus.stage node (Js.Num d) = "packing")
  ∧ (4 ≤ d →
     Progress.stage (Progress.stageObj node (Js.Num d)) = "shipped"
     ∧ OrderStatus.stage node (Js.Num d) = "shipped")
  ∧ (∀ rt, Shared.daysSince rt node = Js.Num d →
       Http.stage (Progress.payload rt node) = stageOfAge d
       ∧ Http.stage (OrderStatus.payload rt node) = stageOfAge d).
Proof.
  intros Hf Ht.
  assert (Progress.stage (Progress.stageObj node (Js.Num d)) = stageOfAge d) as HP.
  { by rewrite Progress_stageObj_age, Progress_computeStage_age. }
  assert (OrderStatus.stage node (Js.Num d) = stageOfAge d) as HO.
  { rewrite OrderStatus_stage_age, OrderStatus_computeStage_age; [done| |].
    - intros H. by apply Hf, exactly_reported.
    - intros H. by apply Ht, trackedByNumber_tracked. }
  split; [|split; [|split]].
  - intros Hd. rewrite HP, HO. unfold stageOfAge. by rewrite decide_True.
  - intros Hd. rewrite HP, HO. unfold stageOfAge.
    by rewrite decide_False, decide_True by lia.
  - intros Hd. rewrite HP, HO. unfold stageOfAge.
    by rewrite !decide_False by lia.
  - intros rt Hdays. unfold Progress.payload, OrderStatus.payload.
    cbn [Http.stage]. by rewrite Hdays, HP, HO.
Qed.

Lemma scenario_B_three_days_no_tracking :
  Http.stage
    (Progress.payload (exampleRuntime theShop None (3 * oneDay) unfulfilled) unfulfilled)
  = "packing"
  ∧ Http.stage
      (OrderStatus.payload (exampleRuntime theShop None (3 * oneDay) unfulfilled) unfulfilled)
    = "packing".
Proof.
  refine (proj2 (proj2 (proj2 (age_classification unfulfilled 3 _ _)))
            (exampleRuntime theShop None (3 * oneDay) unfulfilled) _).
  - intros H. apply Progress_isFulfilled_reported in H. vm_compute in H. discriminate.
  - intros H. apply Progress_hasTracking_tracked in H. vm_compute in H. discriminate.
  - vm_compute. reflexivity.
Defined.

(** ** daysSince *)

Lemma msPerDay_value : Shared.msPerDay = 86400000.
Proof. reflexivity. Qed.

(** C7 (amended). For a valid creation timestamp the reported [daysSince]
    is the integer floor of the elapsed time in days.  When the current time
    is not before the creation time this is non-negative and is the
    elapsed time truncated to whole days; when the creation time lies after
    the current time it is negative. *)
Theorem daysSince_is_floor_of_elapsed_days
    (rt : Runtime) (node : Shopify.OrderNode) (created : Z) :
  parseDate rt (Shopify.createdAt node) = Some created →
  ∃ d : Z,
    Shared.daysSince rt node = Js.Num d
    ∧ Http.daysSince (Progress.payload rt node) = Js.Num d
    ∧ Http.daysSince (OrderStatus.payload rt node) = Js.Num d
    ∧ d * Shared.msPerDay ≤ now rt - created < (d + 1) * Shared.msPerDay
    ∧ (created ≤ now rt → 0 ≤ d ∧ d = Z.quot (now rt - created) Shared.msPerDay)
    ∧ (now rt < created → d < 0).
Proof.
  intros Hparse. exists ((now rt - created) `div` Shared.msPerDay).
  assert (Shared.daysSince rt node = Js.Num ((now rt - created) `div` Shared.msPerDay)) as Hd.
  { unfold Shared.daysSince. by rewrite Hparse. }
  split; [done|]. split; [done|]. split; [done|].
  rewrite msPerDay_value.
  pose proof (Z.div_mod (now rt - created) 86400000 ltac:(lia)) as Hdm.
  pose proof (Z.mod_pos_bound (now rt - created) 86400000 ltac:(lia)) as Hmod.
  split; [lia|]. split.
  - intros Hle. split; [apply Z.div_pos; lia|].
    symmetry. apply Z.quot_div_nonneg; lia.
  - intros Hlt. apply Z.div_lt_upper_bound; lia.
Qed.

Lemma scenario_A_created_now :
  ∃ d : Z,
    Shared.daysSince (exampleRuntime theShop None 0 unfulfilled) unfulfilled = Js.Num d
    ∧ 0 ≤ d.
Proof.
  destruct (daysSince_is_floor_of_elapsed_days
              (exampleRuntime theShop None 0 unfulfilled) unfulfilled 1793188800000)
    as (d & Hd & _ & _ & _ & Hpos & _).
  - reflexivity.
  - exists d. split; [exact Hd|]. apply Hpos. simpl. lia.
Defined.

(** An order whose creation time lies one millisecond after the current
    time: [daysSince] is -1, while truncation would give 0. *)
Lemma order_created_after_now :
  parseDate (exampleRuntime theShop None (-1) unfulfilled)
    (Shopify.createdAt unfulfilled) = Some 1793188800000
  ∧ now (exampleRuntime theShop None (-1) unfulfilled) = 1793188800000 - 1
  ∧ Http.daysSince
      (Progress.payload (exampleRuntime theShop None (-1) unfulfilled) unfulfilled)
    = Js.Num (-1)
  ∧ Http.daysSince
      (OrderStatus.payload (exampleRuntime theShop None (-1) unfulfilled) unfulfilled)
    = Js.Num (-1)
  ∧ Z.quot (1793188800000 - 1 - 1793188800000) Shared.msPerDay = 0
  ∧ ¬ (0 ≤ -1).
Proof.
  split; [reflexivity|]. split; [reflexivity|]. split; [vm_compute; reflexivity|].
  split; [vm_compute; reflexivity|]. split; [reflexivity | lia].
Qed.

(** ** The payload of a successful response *)

Lemma Progress_payload_from_lookup (rt : Runtime) (req : Http.Request) (p : Http.Payload) :
  payloadOf (Flow.response (Progress.handler rt req)) = Some p →
  ∃ node, lookup rt (lookupCall progress rt req) = Js.Normal (Some node)
          ∧ p = Progress.payload rt node.
Proof.
  rewrite Progress_handler_tree. unfold tree.
  destruct (negb _ || negb _); [done|].
  destruct (gate progress rt req) as [chk|msg]; [|done].
  destruct (negb (Shared.ok chk)); [done|].
  destruct (String.eqb _ ""); [done|]. cbv zeta.
  destruct (lookup rt (lookupCall progress rt req)) as [[node|]|msg]; [|done..].
  cbn [Flow.response found progress]. intros Hp. exists node. split; [done|].
  unfold payloadOf in Hp. destruct (Progress.wantsHtml req); simpl in Hp; congruence.
Qed.

Lemma OrderStatus_payload_from_lookup (rt : Runtime) (req : Http.Request) (p : Http.Payload) :
  payloadOf (Flow.response (OrderStatus.handler rt req)) = Some p →
  ∃ node, lookup rt (lookupCall orderStatus rt req) = Js.Normal (Some node)
          ∧ p = OrderStatus.payload rt node.
Proof.
  rewrite OrderStatus_handler_tree. unfold tree.
  destruct (negb _ || negb _); [done|].
  destruct (gate orderStatus rt req) as [chk|msg]; [|done].
  destruct (negb (Shared.ok chk)); [done|].
  destruct (String.eqb _ ""); [done|]. cbv zeta.
  destruct (lookup rt (lookupCall orderStatus rt req)) as [[node|]|msg]; [|done..].
  cbn [Flow.response found orderStatus]. intros Hp. exists node. split; [done|].
  unfold payloadOf in Hp. simpl in Hp. congruence.
Qed.

(** C8. Frame property of the override.  Every payload a handler sends is
    built from the order found by the lookup; its [daysSince] is the value
    computed from the creation timestamp; and two orders with the same name
    and creation timestamp, whatever their fulfillment data, yield payloads
    that differ at most in stage and message. *)
Theorem override_changes_only_stage_and_message
    (rt : Runtime) (node node' : Shopify.OrderNode) :
  Shopify.name node = Shopify.name node' →
  Shopify.createdAt node = Shopify.createdAt node' →
  (Http.daysSince (Progress.payload rt node) = Shared.daysSince rt node
   ∧ Http.daysSince (Progress.payload rt node') = Shared.daysSince rt node
   ∧ Progress.payload rt node' =
       withStage (Progress.payload rt node)
         (Http.stage (Progress.payload rt node'))
         (Http.message (Progress.payload rt node')))
  ∧ (Http.daysSince (OrderStatus.payload rt node) = Shared.daysSince rt node
     ∧ Http.daysSince (OrderStatus.payload rt node') = Shared.daysSince rt node
     ∧ OrderStatus.payload rt node' =
         withStage (OrderStatus.payload rt node)
           (Http.stage (OrderStatus.payload rt node'))
           (Http.message (OrderStatus.payload rt node')))
  ∧ (∀ req p,
       payloadOf (Flow.response (Progress.handler rt req)) = Some p →
       ∃ found, lookup rt (lookupCall progress rt req) = Js.Normal (Some found)
                ∧ p = Progress.payload rt found)
  ∧ (∀ req p,
       payloadOf (Flow.response (OrderStatus.handler rt req)) = Some p →
       ∃ found, lookup rt (lookupCall orderStatus rt req) = Js.Normal (Some found)
                ∧ p = OrderStatus.payload rt found).
Proof.
  intros Hname Hcreated.
  assert (Shared.daysSince rt node' = Shared.daysSince rt node) as Hdays.
  { unfold Shared.daysSince. by rewrite Hcreated. }
  split; [|split; [|split]].
  - split; [done|]. split; [done|].
    unfold Progress.payload, withStage. cbn. by rewrite Hdays, Hname, Hcreated.
  - split; [done|]. split; [done|].
    unfold OrderStatus.payload, withStage. cbn. by rewrite Hdays, Hname.
  - apply Progress_payload_from_lookup.
  - apply OrderStatus_payload_from_lookup.
Qed.

Lemma tracking_number_leaves_daysSince :
  Http.daysSince
    (Progress.payload (exampleRuntime theShop None oneDay unfulfilled)
       (exampleNode (Some "FULFILLED") (Some [withNumber "1Z999"])))
  = Shared.daysSince (exampleRuntime theShop None oneDay unfulfilled) unfulfilled.
Proof.
  refine (proj1 (proj2 (proj1
            (override_changes_only_stage_and_message
               (exampleRuntime theShop None oneDay unfulfilled)
               unfulfilled
               (exampleNode (Some "FULFILLED") (Some [withNumber "1Z999"])) _ _)))).
  - reflexivity.
  - reflexivity.
Defined.

(** ** What a handler's result depends on *)

Lemma params_ext (req1 req2 : Http.Request) :
  Http.searchParams req1 = Http.searchParams req2 →
  Shared.params req1 = Shared.params req2.
Proof. intros H. unfold Shared.params. by rewrite H. Qed.

Lemma Progress_verify_ext (req1 req2 : Http.Request) (secret : string) :
  Http.searchParams req1 = Http.searchParams req2 →
  Progress.verifyProxySignature req1 secret = Progress.verifyProxySignature req2 secret.
Proof.
  intros H%params_ext.
  unfold Progress.verifyProxySignature, Shared.digest, Shared.message, Shared.provided,
    Shared.signedParams.
  by rewrite H.
Qed.

Lemma OrderStatus_verify_ext (req1 req2 : Http.Request) (secret : string) :
  Http.searchParams req1 = Http.searchParams req2 →
  OrderStatus.verifyProxySignature req1 secret = OrderStatus.verifyProxySignature req2 secret.
Proof.
  intros H%params_ext.
  unfold OrderStatus.verifyProxySignature, Shared.digest, Shared.message, Shared.provided,
    Shared.signedParams.
  by rewrite H.
Qed.

Lemma daysSince_ext (rt1 rt2 : Runtime) (node : Shopify.OrderNode) :
  now rt1 = now rt2 → (∀ s, parseDate rt1 s = parseDate rt2 s) →
  Shared.daysSince rt1 node = Shared.daysSince rt2 node.
Proof. intros Hnow Hparse. unfold Shared.daysSince. by rewrite Hnow, Hparse. Qed.

Lemma lookup_ext (rt1 rt2 : Runtime) (c : Shopify.Call) :
  fetch rt1 c = fetch rt2 c → lookup rt1 c = lookup rt2 c.
Proof. intros H. unfold lookup. by rewrite H. Qed.

(** Two walks of the tree agree on status, payload and calls as soon as the
    guards and the lookup agree and the success responses do. *)
Lemma tree_ext (v : Variant) (rt1 rt2 : Runtime) (req1 req2 : Http.Request) :
  env rt1 = env rt2 →
  (∀ s, verify v req1 s = verify v req2 s) →
  order v req1 = order v req2 →
  search v req1 = search v req2 →
  fetch rt1 (lookupCall v rt1 req1) = fetch rt2 (lookupCall v rt1 req1) →
  (∀ node, Http.status (found v rt1 req1 node) = Http.status (found v rt2 req2 node)
           ∧ payloadOf (found v rt1 req1 node) = payloadOf (found v rt2 req2 node)) →
  Flow.calls (tree v rt1 req1) = Flow.calls (tree v rt2 req2)
  ∧ Http.status (Flow.response (tree v rt1 req1))
    = Http.status (Flow.response (tree v rt2 req2))
  ∧ payloadOf (Flow.response (tree v rt1 req1))
    = payloadOf (Flow.response (tree v rt2 req2)).
Proof.
  intros Henv Hverify Horder Hsearch Hfetch Hfound.
  assert (lookupCall v rt2 req2 = lookupCall v rt1 req1) as Hcall.
  { unfold lookupCall. by rewrite Henv, Hsearch. }
  assert (gate v rt2 req2 = gate v rt1 req1) as Hgate.
  { unfold gate. by rewrite Henv, Hverify. }
  unfold tree. rewrite <- Henv, Hgate, <- Horder, Hcall.
  rewrite <- (lookup_ext rt1 rt2) by done.
  destruct (negb _ || negb _); [done|].
  destruct (gate v rt1 req1) as [chk|msg]; [|done].
  destruct (negb (Shared.ok chk)); [done|].
  destruct (String.eqb _ ""); [done|]. cbv zeta.
  destruct (lookup rt1 (lookupCall v rt1 req1)) as [[node|]|msg]; [|done..].
  cbn [Flow.response Flow.calls]. split; [done|]. apply Hfound.
Qed.

(** C9. Determinism of the composition: two invocations with the same
    configuration, the same current time and date parser, the same upstream
    answer to the lookup they make and the same query parameters produce the
    same StageResult (and the same status and upstream calls), whatever the
    other parts of the two requests are. *)
Theorem handler_is_deterministic (rt1 rt2 : Runtime) (req1 req2 : Http.Request) :
  env rt1 = env rt2 →
  now rt1 = now rt2 →
  (∀ s, parseDate rt1 s = parseDate rt2 s) →
  (∀ c, fetch rt1 c = fetch rt2 c) →
  Http.searchParams req1 = Http.searchParams req2 →
  (stageResult (Progress.handler rt1 req1) = stageResult (Progress.handler rt2 req2)
   ∧ Http.status (Flow.response (Progress.handler rt1 req1))
     = Http.status (Flow.response (Progress.handler rt2 req2))
   ∧ Flow.calls (Progress.handler rt1 req1) = Flow.calls (Progress.handler rt2 req2))
  ∧ (stageResult (OrderStatus.handler rt1 req1)
     = stageResult (OrderStatus.handler rt2 req2)
     ∧ Http.status (Flow.response (OrderStatus.handler rt1 req1))
       = Http.status (Flow.response (OrderStatus.handler rt2 req2))
     ∧ Flow.calls (OrderStatus.handler rt1 req1)
       = Flow.calls (OrderStatus.handler rt2 req2)).
Proof.
  intros Henv Hnow Hparse Hfetch Hquery. split.
  - rewrite !Progress_handler_tree. unfold stageResult.
    destruct (tree_ext progress rt1 rt2 req1 req2) as (Hcalls & Hstatus & Hpayload);
      try done.
    + intros s. by apply Progress_verify_ext.
    + cbn. unfold Progress.orderParam. by rewrite Hquery.
    + cbn. unfold Progress.orderParam, Progress.emailParam. by rewrite Hquery.
    + intros node. cbn [found progress].
      assert (Progress.payload rt1 node = Progress.payload rt2 node) as ->.
      { unfold Progress.payload. by rewrite (daysSince_ext rt1 rt2). }
      by destruct (Progress.wantsHtml req1), (Progress.wantsHtml req2).
    + by rewrite Hpayload.
  - rewrite !OrderStatus_handler_tree. unfold stageResult.
    destruct (tree_ext orderStatus rt1 rt2 req1 req2) as (Hcalls & Hstatus & Hpayload);
      try done.
    + intros s. by apply OrderStatus_verify_ext.
    + cbn. unfold OrderStatus.orderParam. by rewrite Hquery.
    + cbn. unfold OrderStatus.orderParam, OrderStatus.emailParam. by rewrite Hquery.
    + intros node. cbn [found orderStatus].
      assert (OrderStatus.payload rt1 node = OrderStatus.payload rt2 node) as ->; [|done].
      unfold OrderStatus.payload. by rewrite (daysSince_ext rt1 rt2).
    + by rewrite Hpayload.
Qed.

Lemma same_query_json_or_html :
  stageResult
    (Progress.handler (exampleRuntime theShop None (3 * oneDay) unfulfilled)
       {| Http.searchParams := [("order", "1043")]; Http.accept := None |})
  = stageResult
      (Progress.handler (exampleRuntime theShop None (3 * oneDay) unfulfilled)
         {| Http.searchParams := [("order", "1043")];
            Http.accept := Some "text/html,application/xhtml+xml" |}).
Proof.
  refine (proj1 (proj1
            (handler_is_deterministic
               (exampleRuntime theShop None (3 * oneDay) unfulfilled)
               (exampleRuntime theShop None (3 * oneDay) unfulfilled)
               {| Http.searchParams := [("order", "1043")]; Http.accept := None |}
               {| Http.searchParams := [("order", "1043")];
                  Http.accept := Some "text/html,application/xhtml+xml" |}
               _ _ _ _ _))); reflexivity.
Defined.

(** ** The search string *)

Lemma concat_two (sep a b : string) : String.concat sep [a; b] = a +:+ sep +:+ b.
Proof. reflexivity. Qed.

Lemma eqb_empty_clause (Y : string) :
  (if String.eqb Y "" then "" else " AND email:" +:+ Y) = emailClause Y.
Proof.
  unfold emailClause. destruct (String.eqb_spec Y "") as [->|Hne].
  - by rewrite decide_True.
  - by rewrite decide_False.
Qed.

Lemma Progress_queryString_form (X Y : string) :
  Progress.queryString X Y = namePredicate X +:+ emailClause Y.
Proof.
  unfold Progress.queryString, namePredicate. cbv zeta.
  rewrite concat_two, <- eqb_empty_clause.
  destruct (String.eqb Y ""); destruct (Js.startsWith X "#");
    rewrite ?append_empty_r, ?append_assoc; reflexivity.
Qed.

Lemma OrderStatus_queryString_form (X Y : string) :
  OrderStatus.queryString X Y = namePredicate X +:+ emailClause Y.
Proof.
  unfold OrderStatus.queryString, namePredicate. cbv zeta.
  rewrite <- eqb_empty_clause.
  destruct (String.eqb Y ""); destruct (Js.startsWith X "#");
    rewrite ?append_empty_r, ?append_assoc; reflexivity.
Qed.

(** C6 (amended). Lookup-query construction.  With X the trimmed order
    identifier and E the trimmed email ([String.prototype.trim], which
    strips the white space of Unicode), every search string sent upstream is
    the name predicate followed by the email clause.  The name predicate is
    "(name:#X OR name:X)" when X does not start with [#], and
    "(name:X OR name:X)" when it does.  The email clause is " AND email:Y"
    for a non-empty Y and absent otherwise, where Y is E in lower case
    ([String.prototype.toLowerCase], also beyond ASCII) in the handler of
    part_000 and E itself in the handler of api/order-status.js; Y is empty
    exactly when E is.  A lookup is sent only for a non-empty X, and exactly
    one is sent once the guards are passed. *)
Theorem lookup_search_string (rt : Runtime) (req : Http.Request) :
  let X := Js.trim (default "" (Http.get (Http.searchParams req) "order")) in
  let E := Js.trim (default "" (Http.get (Http.searchParams req) "email")) in
  (Js.startsWith X "#" = false →
   namePredicate X = "(name:#" +:+ X +:+ " OR name:" +:+ X +:+ ")")
  ∧ (Js.startsWith X "#" = true →
     namePredicate X = "(name:" +:+ X +:+ " OR name:" +:+ X +:+ ")")
  ∧ emailClause "" = ""
  ∧ (∀ c, c ∈ Flow.calls (Progress.handler rt req) →
          X ≠ ""
          ∧ Shopify.q c = namePredicate X +:+ emailClause (Js.toLowerCase E))
  ∧ (∀ c, c ∈ Flow.calls (OrderStatus.handler rt req) →
          X ≠ "" ∧ Shopify.q c = namePredicate X +:+ emailClause E)
  ∧ (configured rt → X ≠ "" →
     (admitted progress rt req →
      ∃ c, Flow.calls (Progress.handler rt req) = [c])
     ∧ (admitted orderStatus rt req →
        ∃ c, Flow.calls (OrderStatus.handler rt req) = [c]))
  ∧ (Js.toLowerCase E = "" ↔ E = "").
Proof.
  intros X E.
  assert (Progress.orderParam req = X) as HPX.
  { unfold Progress.orderParam. by rewrite or_default_empty. }
  assert (OrderStatus.orderParam req = X) as HOX.
  { unfold OrderStatus.orderParam. by rewrite or_default_empty. }
  assert (Progress.emailParam req = Js.toLowerCase E) as HPE.
  { unfold Progress.emailParam. by rewrite or_default_empty. }
  assert (OrderStatus.emailParam req = E) as HOE.
  { unfold OrderStatus.emailParam. by rewrite or_default_empty. }
  split; [|split; [|split; [|split; [|split; [|split]]]]]; [..|apply toLowerCase_empty].
  - intros Hno. unfold namePredicate. rewrite Hno. reflexivity.
  - intros Hyes. unfold namePredicate. by rewrite Hyes.
  - reflexivity.
  - intros c Hc. rewrite Progress_handler_tree in Hc.
    apply tree_calls in Hc as (-> & _ & Hne & _). cbn in Hne. rewrite HPX in Hne.
    split; [done|]. cbn. by rewrite Progress_queryString_form, HPX, HPE.
  - intros c Hc. rewrite OrderStatus_handler_tree in Hc.
    apply tree_calls in Hc as (-> & _ & Hne & _). cbn in Hne. rewrite HOX in Hne.
    split; [done|]. cbn. by rewrite OrderStatus_queryString_form, HOX, HOE.
  - intros Hc Hne. split.
    + intros (chk & Hgate & Hok). exists (lookupCall progress rt req).
      rewrite Progress_handler_tree, (tree_lookup progress rt req chk); try done.
      cbn. by rewrite HPX.
    + intros (chk & Hgate & Hok). exists (lookupCall orderStatus rt req).
      rewrite OrderStatus_handler_tree, (tree_lookup orderStatus rt req chk); try done.
      cbn. by rewrite HOX.
Qed.

Lemma scenario_F_bare_identifier :
  Shopify.q
    (lookupCall progress (exampleRuntime theShop None 0 unfulfilled)
       (exampleRequest [("order", " 1043 "); ("email", "KÄUFER@Mail.de")]))
  = "(name:#1043 OR name:1043) AND email:käufer@mail.de".
Proof.
  refine (proj2
            (proj1 (proj2 (proj2 (proj2
               (lookup_search_string (exampleRuntime theShop None 0 unfulfilled)
                  (exampleRequest [("order", " 1043 "); ("email", "KÄUFER@Mail.de")])))))
               (lookupCall progress (exampleRuntime theShop None 0 unfulfilled)
                  (exampleRequest [("order", " 1043 "); ("email", "KÄUFER@Mail.de")]))
               _)).
  vm_compute. constructor.
Defined.

(** An identifier entered with its [#], and an email in mixed case: the
    name predicate does not get a second [#], and the handler of
    api/order-status.js keeps the case of the email. *)
Lemma hash_prefixed_identifier_and_mixed_case_email :
  Shopify.q <$>
    Flow.calls
      (Progress.handler (exampleRuntime theShop None 0 unfulfilled)
         (exampleRequest [("order", "#1043"); ("email", " Kunde@Mail.de ")]))
  = ["(name:#1043 OR name:#1043) AND email:kunde@mail.de"]
  ∧ "(name:#1043 OR name:#1043) AND email:kunde@mail.de"
    ≠ "(name:#" +:+ "#1043" +:+ " OR name:" +:+ "#1043" +:+ ")"
        +:+ " AND email:" +:+ "kunde@mail.de"
  ∧ Shopify.q <$>
      Flow.calls
        (OrderStatus.handler (exampleRuntime theShop None 0 unfulfilled)
           (exampleRequest [("order", "#1043"); ("email", " Kunde@Mail.de ")]))
    = ["(name:#1043 OR name:#1043) AND email:Kunde@Mail.de"].
Proof.
  split; [vm_compute; reflexivity|]. split; [|vm_compute; reflexivity].
  vm_compute. discriminate.
Qed.


(** * Further properties of the handlers *)

(** ** Every run of a handler is one of seven walks *)

Lemma tree_walk (v : Variant) (rt : Runtime) (req : Http.Request) :
  walk v rt req (tree v rt req).
Proof.
  unfold tree.
  destruct (Js.truthy (Http.SHOPIFY_SHOP (env rt))) eqn:Hshop; simpl;
    [|apply walk_unconfigured; unfold configured; rewrite Hshop; by intros [? _]].
  destruct (Js.truthy (Http.SHOPIFY_ACCESS_TOKEN (env rt))) eqn:Htoken; simpl;
    [|apply walk_unconfigured; unfold configured; rewrite Htoken; by intros [_ ?]].
  assert (configured rt) as Hc by done.
  destruct (gate v rt req) as [chk|msg] eqn:Hgate; [|by apply walk_gate_throws].
  destruct (Shared.ok chk) eqn:Hok; simpl; [|by apply walk_unauthorized].
  assert (admitted v rt req) as Ha by (by exists chk).
  destruct (String.eqb_spec (order v req) ""); [by apply walk_missing_order|].
  destruct (lookup rt (lookupCall v rt req)) as [[node|]|msg] eqn:Hl.
  - by apply walk_found.
  - by apply walk_not_found.
  - by apply walk_lookup_throws.
Qed.

Lemma Progress_walk (rt : Runtime) (req : Http.Request) :
  walk progress rt req (Progress.handler rt req).
Proof. rewrite Progress_handler_tree. apply tree_walk. Qed.

Lemma OrderStatus_walk (rt : Runtime) (req : Http.Request) :
  walk orderStatus rt req (OrderStatus.handler rt req).
Proof. rewrite OrderStatus_handler_tree. apply tree_walk. Qed.

Lemma unsigned_admitted (v : Variant) (rt : Runtime) (req : Http.Request) :
  Js.truthy (Http.SHOPIFY_API_SECRET (env rt)) = false → admitted v rt req.
Proof. intros H. unfold admitted, gate. rewrite H. by eexists. Qed.

(** ** White space *)

Lemma Progress_found_status (rt : Runtime) (req : Http.Request) (node : Shopify.OrderNode) :
  Http.status (found progress rt req node) = 200
  ∧ payloadOf (found progress rt req node) = Some (Progress.payload rt node).
Proof. cbn [found progress]. by destruct (Progress.wantsHtml req). Qed.

Lemma OrderStatus_found_status (rt : Runtime) (req : Http.Request) (node : Shopify.OrderNode) :
  Http.status (found orderStatus rt req node) = 200
  ∧ payloadOf (found orderStatus rt req node) = Some (OrderStatus.payload rt node).
Proof. done. Qed.

Lemma append_cons (c : ascii) (s t : string) : String c s +:+ t = String c (s +:+ t).
Proof. reflexivity. Qed.

Lemma refusal_nonempty (res : Shopify.Reply) : refusal res ≠ "".
Proof.
  unfold refusal, Js.or_default.
  destruct (Shared.firstErrorMessage (Shopify.errors res)) as [m|].
  - destruct (String.eqb_spec m ""); [by rewrite append_cons | done].
  - by rewrite append_cons.
Qed.

Lemma lookup_refused (rt : Runtime) (c : Shopify.Call) (res : Shopify.Reply) :
  fetch rt c = Js.Normal res →
  Shopify.ok res = false ∨ is_Some (Shopify.errors res) →
  lookup rt c = Js.Throw (refusal res).
Proof.
  intros Hfetch Hbad. unfold lookup. rewrite Hfetch.
  assert (negb (Shopify.ok res) || bool_decide (is_Some (Shopify.errors res)) = true)
    as ->; [|done].
  destruct Hbad as [-> | Herr]; [done|].
  rewrite (bool_decide_eq_true_2 _ Herr). apply orb_true_r.
Qed.

Lemma lookup_answered (rt : Runtime) (c : Shopify.Call) (res : Shopify.Reply) :
  fetch rt c = Js.Normal res →
  Shopify.ok res = true → Shopify.errors res = None →
  lookup rt c = Js.Normal (Shared.firstNode (Shopify.edges res)).
Proof.
  intros Hfetch Hok Herr. unfold lookup. rewrite Hfetch, Hok, Herr.
  rewrite bool_decide_eq_false_2; [done|]. by intros [? ?].
Qed.

Lemma Progress_failed_nonempty (msg : string) :
  msg ≠ "" →
  failed progress msg = Http.json 500 (Http.ErrorJson "Server error" None None (Some msg)).
Proof. intros Hne. cbn. by destruct (String.eqb_spec msg ""). Qed.

(** X1. A lookup the endpoint refuses is surfaced, not retried: when the
    reply is not ok or carries an [errors] value (an empty array included),
    [shopifyGraphQL] throws the first error's message, or "Shopify error
    (status)" when there is none, and either handler answers 500 "Server
    error" with that message after exactly one upstream call. *)
Theorem refused_lookup_is_server_error
    (rt : Runtime) (req : Http.Request) (res : Shopify.Reply) :
  configured rt →
  Shopify.ok res = false ∨ is_Some (Shopify.errors res) →
  (Shared.firstErrorMessage (Shopify.errors res) = None
   ∨ Shared.firstErrorMessage (Shopify.errors res) = Some "" →
   refusal res = "Shopify error (" +:+ pretty (Shopify.status res) +:+ ")")
  ∧ (∀ m, Shared.firstErrorMessage (Shopify.errors res) = Some m → m ≠ "" →
          refusal res = m)
  ∧ (admitted progress rt req → Progress.orderParam req ≠ "" →
     fetch rt (lookupCall progress rt req) = Js.Normal res →
     Progress.handler rt req =
       {| Flow.response :=
            Http.json 500 (Http.ErrorJson "Server error" None None (Some (refusal res)));
          Flow.calls := [lookupCall progress rt req] |})
  ∧ (admitted orderStatus rt req → OrderStatus.orderParam req ≠ "" →
     fetch rt (lookupCall orderStatus rt req) = Js.Normal res →
     OrderStatus.handler rt req =
       {| Flow.response :=
            Http.json 500 (Http.ErrorJson "Server error" None None (Some (refusal res)));
          Flow.calls := [lookupCall orderStatus rt req] |}).
Proof.
  intros Hc Hbad. split; [|split; [|split]].
  - unfold refusal. by intros [-> | ->].
  - intros m Hm Hne. unfold refusal. rewrite Hm. simpl.
    by destruct (String.eqb_spec m "").
  - intros (chk & Hgate & Hok) Hne Hfetch.
    rewrite Progress_handler_tree, (tree_lookup progress rt req chk) by done.
    rewrite (lookup_refused rt _ res) by done.
    by rewrite Progress_failed_nonempty by apply refusal_nonempty.
  - intros (chk & Hgate & Hok) Hne Hfetch.
    rewrite OrderStatus_handler_tree, (tree_lookup orderStatus rt req chk) by done.
    by rewrite (lookup_refused rt _ res) by done.
Qed.

Lemma empty_errors_array_is_refused :
  Progress.handler
    (answering theShop None
       (Js.Normal {| Shopify.ok := true; Shopify.status := 200;
                     Shopify.errors := Some []; Shopify.edges := Some [Some unfulfilled] |}))
    (exampleRequest [("order", "1043")])
  = {| Flow.response :=
         Http.json 500
           (Http.ErrorJson "Server error" None None (Some "Shopify error (200)"));
       Flow.calls :=
         [lookupCall progress
            (answering theShop None
               (Js.Normal {| Shopify.ok := true; Shopify.status := 200;
                             Shopify.errors := Some [];
                             Shopify.edges := Some [Some unfulfilled] |}))
            (exampleRequest [("order", "1043")])] |}.
Proof.
  refine (proj1 (proj2 (proj2
            (refused_lookup_is_server_error
               (answering theShop None
                  (Js.Normal {| Shopify.ok := true; Shopify.status := 200;
                                Shopify.errors := Some [];
                                Shopify.edges := Some [Some unfulfilled] |}))
               (exampleRequest [("order", "1043")])
               {| Shopify.ok := true; Shopify.status := 200;
                  Shopify.errors := Some []; Shopify.edges := Some [Some unfulfilled] |}
               _ _))) _ _ _).
  - split; reflexivity.
  - right. by eexists.
  - apply unsigned_admitted. reflexivity.
  - vm_compute. discriminate.
  - reflexivity.
Defined.

(** X2. An answer without a first order is "not found": when the reply is
    ok and without errors but its edges are missing, empty, or begin with an
    edge without node, either handler answers 404 "Order not found" after
    exactly one upstream call. *)
Theorem no_matching_order_is_not_found
    (rt : Runtime) (req : Http.Request) (res : Shopify.Reply) :
  configured rt →
  Shopify.ok res = true → Shopify.errors res = None →
  Shopify.edges res = None ∨ Shopify.edges res = Some []
  ∨ (∃ rest, Shopify.edges res = Some (None :: rest)) →
  (admitted progress rt req → Progress.orderParam req ≠ "" →
   fetch rt (lookupCall progress rt req) = Js.Normal res →
   Progress.handler rt req =
     {| Flow.response :=
          Http.json 404
            (Http.ErrorJson "Order not found"
               (Some "Prüfe order und (idealerweise) email Parameter") None None);
        Flow.calls := [lookupCall progress rt req] |})
  ∧ (admitted orderStatus rt req → OrderStatus.orderParam req ≠ "" →
     fetch rt (lookupCall orderStatus rt req) = Js.Normal res →
     OrderStatus.handler rt req =
       {| Flow.response :=
            Http.json 404 (Http.ErrorJson "Order not found" None None None);
          Flow.calls := [lookupCall orderStatus rt req] |}).
Proof.
  intros Hc Hok Herr Hedges.
  assert (Shared.firstNode (Shopify.edges res) = None) as Hnone.
  { destruct Hedges as [-> | [-> | [rest ->]]]; reflexivity. }
  split.
  - intros (chk & Hgate & Hchk) Hne Hfetch.
    rewrite Progress_handler_tree, (tree_lookup progress rt req chk) by done.
    by rewrite (lookup_answered rt _ res), Hnone by done.
  - intros (chk & Hgate & Hchk) Hne Hfetch.
    rewrite OrderStatus_handler_tree, (tree_lookup orderStatus rt req chk) by done.
    by rewrite (lookup_answered rt _ res), Hnone by done.
Qed.

Lemma empty_result_is_not_found :
  Http.status
    (Flow.response
       (OrderStatus.handler
          (answering theShop None
             (Js.Normal {| Shopify.ok := true; Shopify.status := 200;
                           Shopify.errors := None; Shopify.edges := Some [] |}))
          (exampleRequest [("order", "9999")]))) = 404.
Proof.
  rewrite (proj2 (no_matching_order_is_not_found
             (answering theShop None
                (Js.Normal {| Shopify.ok := true; Shopify.status := 200;
                              Shopify.errors := None; Shopify.edges := Some [] |}))
             (exampleRequest [("order", "9999")])
             {| Shopify.ok := true; Shopify.status := 200;
                Shopify.errors := None; Shopify.edges := Some [] |}
             ltac:(split; reflexivity) eq_refl eq_refl
             ltac:(right; left; reflexivity))
            ltac:(apply unsigned_admitted; reflexivity)
            ltac:(vm_compute; discriminate)
            eq_refl).
  reflexivity.
Defined.

(** ** Inverting a run *)

Ltac walk_cases W :=
  destruct W as
    [ Wno
    | msg Wc Wgate
    | chk Wc Wgate Wok
    | Wc Wadm Worder
    | msg Wc Wadm Worder Wlookup
    | Wc Wadm Worder Wlookup
    | node Wc Wadm Worder Wlookup ];
  cbn [Flow.response Flow.calls].

(** X3. A missing order parameter is a client error: with the guards
    passed, an order parameter that is absent, empty or white space only
    (the white space [String.prototype.trim] strips, such as U+00A0 and
    U+3000 besides the ASCII one) gets 400 and no upstream call; and a
    handler never answers 400 for any other reason. *)
Theorem blank_order_is_bad_request (rt : Runtime) (req : Http.Request) :
  configured rt →
  (admitted progress rt req →
   blank (default "" (Http.get (Http.searchParams req) "order")) →
   Progress.handler rt req =
     {| Flow.response :=
          Http.json 400
            (Http.ErrorJson "Missing order"
               (Some "Nutze ?order=1043&email=kunde@mail.de") None None);
        Flow.calls := [] |})
  ∧ (admitted orderStatus rt req →
     blank (default "" (Http.get (Http.searchParams req) "order")) →
     OrderStatus.handler rt req =
       {| Flow.response :=
            Http.json 400 (Http.ErrorJson "Missing order parameter" None None None);
          Flow.calls := [] |})
  ∧ (Http.status (Flow.response (Progress.handler rt req)) = 400 →
     blank (default "" (Http.get (Http.searchParams req) "order"))
     ∧ Flow.calls (Progress.handler rt req) = [])
  ∧ (Http.status (Flow.response (OrderStatus.handler rt req)) = 400 →
     blank (default "" (Http.get (Http.searchParams req) "order"))
     ∧ Flow.calls (OrderStatus.handler rt req) = []).
Proof.
  intros Hconf.
  assert (∀ raw, Js.trim (Js.or_default raw "") = "" ↔ blank (default "" raw)) as Htrim.
  { intros raw. by rewrite or_default_empty, trim_empty. }
  split; [|split; [|split]].
  - intros (chk' & Hg & Hk) Hblank%Htrim. pose proof (Progress_walk rt req) as W.
    walk_cases W;
      [done | congruence | congruence | done
      | by destruct Worder | by destruct Worder | by destruct Worder].
  - intros (chk' & Hg & Hk) Hblank%Htrim. pose proof (OrderStatus_walk rt req) as W.
    walk_cases W;
      [done | congruence | congruence | done
      | by destruct Worder | by destruct Worder | by destruct Worder].
  - pose proof (Progress_walk rt req) as W.
    walk_cases W; rewrite ?(proj1 (Progress_found_status rt req _)); try done.
    intros _. split; [|done]. by apply Htrim.
  - pose proof (OrderStatus_walk rt req) as W.
    walk_cases W; try done.
    intros _. split; [|done]. by apply Htrim.
Qed.

Lemma white_space_order_is_bad_request :
  Progress.handler (exampleRuntime theShop None 0 unfulfilled)
    (exampleRequest [("order", " " +:+ Js.encode 0xA0 +:+ " "); ("email", "kunde@mail.de")])
  = {| Flow.response :=
         Http.json 400
           (Http.ErrorJson "Missing order"
              (Some "Nutze ?order=1043&email=kunde@mail.de") None None);
       Flow.calls := [] |}.
Proof.
  refine (proj1 (blank_order_is_bad_request
            (exampleRuntime theShop None 0 unfulfilled)
            (exampleRequest
               [("order", " " +:+ Js.encode 0xA0 +:+ " "); ("email", "kunde@mail.de")])
            _) _ _).
  - split; reflexivity.
  - apply unsigned_admitted. reflexivity.
  - apply (bool_decide_unpack _). vm_compute. exact I.
Defined.

(** ** Statuses *)

Ltac in_list :=
  solve [repeat first [apply list_elem_of_here | apply list_elem_of_further]].

Lemma taxonomy_error (call : Shopify.Call) (code : Z)
    (error : string) (hint reason detail : option string) (l : list Shopify.Call) :
  code = 400 ∧ l = [] ∨ code = 401 ∧ l = [] ∨ code = 404 ∧ l = [call]
  ∨ code = 500 ∧ (l = [] ∨ l = [call]) →
  answersInTaxonomy call
    {| Flow.response := Http.json code (Http.ErrorJson error hint reason detail);
       Flow.calls := l |}.
Proof.
  intros H. unfold answersInTaxonomy. cbn.
  assert (¬ is_Some (@None Http.Payload)) as Hnone by (by intros [? ?]).
  destruct H as [[-> ->] | [[-> ->] | [[-> ->] | [-> Hl]]]].
  - repeat split; try done; try in_list; try (by intros [?|?]); eauto.
  - repeat split; try done; try in_list; try (by intros [?|?]); eauto.
  - repeat split; try done; try in_list; try (by intros [?|?]); eauto.
  - repeat split; try done; try in_list; try (by intros [?|?]); eauto.
Qed.

Lemma taxonomy_success (call : Shopify.Call) (r : Http.Response) (p : Http.Payload) :
  Http.status r = 200 → payloadOf r = Some p →
  answersInTaxonomy call {| Flow.response := r; Flow.calls := [call] |}.
Proof.
  intros Hs Hp. unfold answersInTaxonomy. cbn. rewrite Hs, Hp.
  repeat split; try done; try in_list; try (by intros [?|?]); eauto.
Qed.

(** X4. Every run of either handler ends in one of the statuses 200, 400,
    401, 404, 500; it makes no upstream call or exactly the one lookup call,
    the lookup being made on every 200 and 404 and never on a 400 or 401; a
    payload is sent exactly with status 200, and every other response is a
    JSON error object without explicit headers. *)
Theorem every_run_answers_in_taxonomy (rt : Runtime) (req : Http.Request) :
  answersInTaxonomy (lookupCall progress rt req) (Progress.handler rt req)
  ∧ answersInTaxonomy (lookupCall orderStatus rt req) (OrderStatus.handler rt req).
Proof.
  split.
  - pose proof (Progress_walk rt req) as W. walk_cases W.
    + apply (taxonomy_error _ 500). auto 10.
    + apply (taxonomy_error _ 500). auto 10.
    + apply (taxonomy_error _ 401). auto 10.
    + apply (taxonomy_error _ 400). auto 10.
    + apply (taxonomy_error _ 500). auto 10.
    + apply (taxonomy_error _ 404). auto 10.
    + destruct (Progress_found_status rt req node) as [Hs Hp].
      by apply taxonomy_success with (Progress.payload rt node).
  - pose proof (OrderStatus_walk rt req) as W. walk_cases W.
    + apply (taxonomy_error _ 500). auto 10.
    + apply (taxonomy_error _ 500). auto 10.
    + apply (taxonomy_error _ 401). auto 10.
    + apply (taxonomy_error _ 400). auto 10.
    + apply (taxonomy_error _ 500). auto 10.
    + apply (taxonomy_error _ 404). auto 10.
    + destruct (OrderStatus_found_status rt req node) as [Hs Hp].
      by apply taxonomy_success with (OrderStatus.payload rt node).
Qed.

(** ** When a request is turned away at the gate *)

Lemma gate_unsigned (v : Variant) (rt : Runtime) (req : Http.Request) :
  Js.truthy (Http.SHOPIFY_API_SECRET (env rt)) = false →
  gate v rt req = Js.Normal {| Shared.ok := true; Shared.reason := None |}.
Proof. intros H. unfold gate. by rewrite H. Qed.

Lemma gate_rejects_signing (v : Variant) (rt : Runtime) (req : Http.Request)
    (chk : Shared.Check) :
  gate v rt req = Js.Normal chk → Shared.ok chk = false →
  ∃ secret, signing rt secret ∧ verify v req secret = Js.Normal chk.
Proof.
  intros Hgate Hok. unfold gate in Hgate.
  destruct (Js.truthy (Http.SHOPIFY_API_SECRET (env rt))) eqn:Ht.
  - apply truthy_Some_true in Ht as (secret & Hs & Hne).
    exists secret. rewrite Hs in Hgate. by split.
  - injection Hgate as <-. discriminate.
Qed.

(** X5. A handler answers 401 only through a failed signature check: the
    status is 401 exactly when shop domain and access token are configured,
    a non-empty signing secret is configured, and [verifyProxySignature]
    returns an object whose [ok] is false; in particular never when the
    secret is unset or empty, whatever signature the request carries. *)
Theorem unauthorized_exactly_on_failed_check (rt : Runtime) (req : Http.Request) :
  (Http.status (Flow.response (Progress.handler rt req)) = 401 ↔
   configured rt
   ∧ ∃ secret chk, signing rt secret
       ∧ Progress.verifyProxySignature req secret = Js.Normal chk
       ∧ Shared.ok chk = false)
  ∧ (Http.status (Flow.response (OrderStatus.handler rt req)) = 401 ↔
     configured rt
     ∧ ∃ secret chk, signing rt secret
         ∧ OrderStatus.verifyProxySignature req secret = Js.Normal chk
         ∧ Shared.ok chk = false)
  ∧ (Js.truthy (Http.SHOPIFY_API_SECRET (env rt)) = false →
     Http.status (Flow.response (Progress.handler rt req)) ≠ 401
     ∧ Http.status (Flow.response (OrderStatus.handler rt req)) ≠ 401).
Proof.
  assert (∀ v, (∀ node, Http.status (found v rt req node) = 200) →
               Http.status (unconfigured v) = 500 →
               (∀ msg, Http.status (failed v msg) = 500) →
               (∀ chk, Http.status (unauthorized v chk) = 401) →
               Http.status (missingOrder v) = 400 →
               Http.status (notFound v) = 404 →
               (Http.status (Flow.response (tree v rt req)) = 401 ↔
                configured rt
                ∧ ∃ secret chk, signing rt secret
                    ∧ verify v req secret = Js.Normal chk
                    ∧ Shared.ok chk = false)) as Hgen.
  { intros v Hfound Hun Hfail Hunauth Hmiss Hnot. split.
    - pose proof (tree_walk v rt req) as W. walk_cases W;
        rewrite ?Hfound, ?Hun, ?Hfail, ?Hmiss, ?Hnot; try done.
      intros _. split; [done|].
      destruct (gate_rejects_signing v rt req chk) as (secret & Hs & Hv); [done..|].
      by exists secret, chk.
    - intros (Hc & secret & chk & Hs & Hv & Hok).
      rewrite (tree_gate_rejects v rt req chk); [apply Hunauth | done | | done].
      by rewrite (gate_signing _ _ _ secret). }
  assert (Http.status (Flow.response (Progress.handler rt req)) = 401 ↔
          configured rt
          ∧ ∃ secret chk, signing rt secret
              ∧ Progress.verifyProxySignature req secret = Js.Normal chk
              ∧ Shared.ok chk = false) as HP.
  { rewrite Progress_handler_tree. apply (Hgen progress); try done.
    intros node. apply Progress_found_status. }
  assert (Http.status (Flow.response (OrderStatus.handler rt req)) = 401 ↔
          configured rt
          ∧ ∃ secret chk, signing rt secret
              ∧ OrderStatus.verifyProxySignature req secret = Js.Normal chk
              ∧ Shared.ok chk = false) as HO.
  { rewrite OrderStatus_handler_tree. by apply (Hgen orderStatus). }
  split; [done|]. split; [done|]. intros Hunset.
  assert (∀ secret, ¬ signing rt secret) as Hno.
  { intros secret [Hs Hne]. rewrite Hs in Hunset. simpl in Hunset.
    by destruct (String.eqb_spec secret ""). }
  split.
  - intros (_ & secret & _ & Hs & _)%HP. by apply (Hno secret).
  - intros (_ & secret & _ & Hs & _)%HO. by apply (Hno secret).
Qed.




(** X7. A non-empty [signature] parameter takes precedence over [hmac]: the
    Authenticator of either handler then accepts exactly when the signature
    value is the digest, whatever the [hmac] parameter holds, so a correct
    [hmac] does not admit a request whose [signature] is wrong. *)
Theorem signature_takes_precedence_over_hmac
    (req : Http.Request) (secret s : string) :
  Shared.params req !! "signature" = Some s → s ≠ "" →
  Shared.provided req = Some s
  ∧ (accepted (Progress.verifyProxySignature req secret) ↔ s = Shared.digest req secret)
  ∧ (accepted (OrderStatus.verifyProxySignature req secret) ↔ s = Shared.digest req secret)
  ∧ (Shared.params req !! "hmac" = Some (Shared.digest req secret) →
     s ≠ Shared.digest req secret →
     ¬ accepted (Progress.verifyProxySignature req secret)
     ∧ ¬ accepted (OrderStatus.verifyProxySignature req secret)).
Proof.
  intros Hs Hne.
  assert (Shared.provided req = Some s) as Hp.
  { unfold Shared.provided, Js.or_else. rewrite Hs. simpl.
    by destruct (String.eqb_spec s ""). }
  assert (accepted (Progress.verifyProxySignature req secret) ↔ s = Shared.digest req secret)
    as HP.
  { rewrite Progress_accepts_iff, Hp. split; congruence. }
  assert (accepted (OrderStatus.verifyProxySignature req secret)
          ↔ s = Shared.digest req secret) as HO.
  { rewrite OrderStatus_accepts_iff, Hp. split; congruence. }
  split; [done|]. split; [done|]. split; [done|].
  intros _ Hwrong. rewrite HP, HO. by split.
Qed.

Lemma correct_hmac_does_not_rescue_a_wrong_signature :
  ¬ accepted
      (Progress.verifyProxySignature
         (exampleRequest
            [("order", "1043");
             ("hmac", "15016f8e17c6398aee5c2e1aba5adf30d169f0f2b6bed121d47701f13e981860");
             ("signature", "0000000000000000000000000000000000000000000000000000000000000000")])
         "shpss_test_secret").
Proof.
  refine (proj1 (proj2 (proj2 (proj2
            (signature_takes_precedence_over_hmac
               (exampleRequest
                  [("order", "1043");
                   ("hmac", "15016f8e17c6398aee5c2e1aba5adf30d169f0f2b6bed121d47701f13e981860");
                   ("signature", "0000000000000000000000000000000000000000000000000000000000000000")])
               "shpss_test_secret"
               "0000000000000000000000000000000000000000000000000000000000000000"
               _ _))) _ _)).
  - vm_compute. reflexivity.
  - discriminate.
  - vm_compute. reflexivity.
  - vm_compute. discriminate.
Defined.

(** ** Content negotiation *)

Lemma prefix_spec (p s : string) :
  String.prefix p s = true ↔ ∃ post, s = p +:+ post.
Proof.
  revert s. induction p as [|c p IH]; intros s.
  - split; [intros _; by exists s | intros _; by destruct s].
  - destruct s as [|d s]; simpl.
    + split; [done | by intros [post ?]].
    + destruct (ascii_dec c d) as [->|Hne].
      * rewrite IH. split.
        -- intros [post ->]. by exists post.
        -- intros [post Hpost]. rewrite append_cons in Hpost.
           injection Hpost as ->. by exists post.
      * split; [done|]. intros [post Hpost]. rewrite append_cons in Hpost.
        congruence.
Qed.

Lemma includes_spec (s p : string) :
  Js.includes s p = true ↔ ∃ pre post, s = pre +:+ p +:+ post.
Proof.
  induction s as [|c s IH].
  - change (Js.includes "" p) with (String.prefix p "" || false).
    rewrite orb_false_r, prefix_spec. split.
    + intros [post ->]. by exists "", post.
    + intros ([|d pre] & post & Hs); [by exists post|].
      by rewrite append_cons in Hs.
  - change (Js.includes (String c s) p)
      with (String.prefix p (String c s) || Js.includes s p).
    rewrite orb_true_iff, IH, prefix_spec. split.
    + intros [[post ->] | (pre & post & ->)].
      * by exists "", post.
      * by exists (String c pre), post.
    + intros ([|d pre] & post & Hs).
      * left. by exists post.
      * right. rewrite append_cons in Hs. injection Hs as -> ->.
        by exists pre, post.
Qed.

Lemma wantsHtml_mentions (req : Http.Request) :
  Progress.wantsHtml req = true ↔ mentions (Http.accept req) "text/html".
Proof.
  unfold Progress.wantsHtml, mentions. rewrite includes_spec, or_default_empty.
  destruct (Http.accept req) as [a|]; simpl.
  - split; intros (pre & post & H); exists pre, post; congruence.
  - split; [|by intros (? & ? & ?)].
    intros ([|c pre] & post & H); by rewrite ?append_cons in H.
Qed.

(** X8. Content negotiation.  The handler of part_000 sends a found order
    as an HTML page exactly when the [accept] header contains "text/html"
    somewhere, and as JSON otherwise (also without an [accept] header), with
    the same payload and status 200 either way; the handler of
    api/order-status.js always sends the HTML page. *)
Theorem found_order_is_rendered_as_asked (rt : Runtime) (req : Http.Request) :
  (∀ p, payloadOf (Flow.response (Progress.handler rt req)) = Some p →
        (mentions (Http.accept req) "text/html" →
         Flow.response (Progress.handler rt req) =
           {| Http.status := 200;
              Http.headers := [("Content-Type", "text/html; charset=utf-8")];
              Http.body := Http.HtmlPage p |})
        ∧ (¬ mentions (Http.accept req) "text/html" →
           Flow.response (Progress.handler rt req) =
             {| Http.status := 200;
                Http.headers := [("Content-Type", "application/json; charset=utf-8")];
                Http.body := Http.PayloadJson p |}))
  ∧ (∀ p, payloadOf (Flow.response (OrderStatus.handler rt req)) = Some p →
          Flow.response (OrderStatus.handler rt req) =
            {| Http.status := 200;
               Http.headers := [("Content-Type", "text/html; charset=utf-8")];
               Http.body := Http.HtmlPage p |}).
Proof.
  split.
  - intros p. rewrite <- wantsHtml_mentions.
    pose proof (Progress_walk rt req) as W. walk_cases W; try done.
    cbn [found progress]. destruct (Progress.wantsHtml req); cbn.
    + intros [= <-]. by split.
    + intros [= <-]. by split.
  - intros p. pose proof (OrderStatus_walk rt req) as W. walk_cases W; try done.
    cbn. by intros [= <-].
Qed.

(** ** Stage and message *)

Lemma computeStage_cases (days : Js.number) :
  (OrderStatus.computeStage days = "processing" ∧
   Progress.computeStage days =
     {| Progress.stage := "processing";
        Progress.message := OrderStatus.getMessage "processing" |})
  ∨ (OrderStatus.computeStage days = "packing" ∧
     Progress.computeStage days =
       {| Progress.stage := "packing";
          Progress.message := OrderStatus.getMessage "packing" |})
  ∨ (OrderStatus.computeStage days = "shipped" ∧
     Progress.computeStage days =
       {| Progress.stage := "shipped";
          Progress.message := OrderStatus.getMessage "shipped" |}).
Proof.
  unfold OrderStatus.computeStage, Progress.computeStage.
  destruct (Js.lt days 2); [by left|].
  destruct (Js.lt days 4); [by right; left | by right; right].
Qed.

(** X9. The stage is always one of the three, and the message is the one
    fixed for it: every payload either handler builds has stage processing,
    packing or shipped with the message [getMessage] gives for that stage,
    whatever the order and the clock are. *)
Theorem stage_and_message_go_together (rt : Runtime) (node : Shopify.OrderNode) :
  (Http.stage (Progress.payload rt node) ∈ ["processing"; "packing"; "shipped"]
   ∧ Http.message (Progress.payload rt node)
     = OrderStatus.getMessage (Http.stage (Progress.payload rt node)))
  ∧ (Http.stage (OrderStatus.payload rt node) ∈ ["processing"; "packing"; "shipped"]
     ∧ Http.message (OrderStatus.payload rt node)
       = OrderStatus.getMessage (Http.stage (OrderStatus.payload rt node))).
Proof.
  split.
  - unfold Progress.payload, Progress.stageObj. cbn [Http.stage Http.message].
    destruct (Progress.hasTracking node || Progress.isFulfilled node).
    { split; [in_list | done]. }
    destruct (computeStage_cases (Shared.daysSince rt node))
      as [[_ ->] | [[_ ->] | [_ ->]]]; (split; [in_list | done]).
  - unfold OrderStatus.payload, OrderStatus.stage. cbn [Http.stage Http.message].
    split; [|done].
    destruct (OrderStatus.hasTracking node || OrderStatus.isFulfilled node); [in_list|].
    destruct (computeStage_cases (Shared.daysSince rt node))
      as [[-> _] | [[-> _] | [-> _]]]; in_list.
Qed.

(** X10. An order whose creation timestamp does not parse is reported as
    shipped: [daysSince] is then NaN, neither [NaN < 2] nor [NaN < 4] holds,
    and both handlers send stage shipped with its message, with or without
    fulfillment evidence. *)
Theorem unparsable_creation_date_is_shipped (rt : Runtime) (node : Shopify.OrderNode) :
  parseDate rt (Shopify.createdAt node) = None →
  Progress.payload rt node =
    {| Http.orderName := Shopify.name node;
       Http.createdAt := Some (Shopify.createdAt node);
       Http.daysSince := Js.NaN;
       Http.stage := "shipped";
       Http.message := "Bestellung versendet." |}
  ∧ OrderStatus.payload rt node =
      {| Http.orderName := Shopify.name node;
         Http.createdAt := None;
         Http.daysSince := Js.NaN;
         Http.stage := "shipped";
         Http.message := "Bestellung versendet." |}.
Proof.
  intros Hparse.
  assert (Shared.daysSince rt node = Js.NaN) as Hnan.
  { unfold Shared.daysSince. by rewrite Hparse. }
  split.
  - unfold Progress.payload, Progress.stageObj. rewrite Hnan.
    by destruct (Progress.hasTracking node || Progress.isFulfilled node).
  - unfold OrderStatus.payload, OrderStatus.stage. rewrite Hnan.
    by destruct (OrderStatus.hasTracking node || OrderStatus.isFulfilled node).
Qed.

Lemma order_without_date_is_shipped :
  Http.stage
    (Progress.payload (exampleRuntime theShop None 0 unfulfilled)
       {| Shopify.name := "#1043"; Shopify.createdAt := "";
          Shopify.displayFulfillmentStatus := Some "UNFULFILLED";
          Shopify.fulfillments := Some [] |}) = "shipped".
Proof.
  rewrite (proj1 (unparsable_creation_date_is_shipped
             (exampleRuntime theShop None 0 unfulfilled)
             {| Shopify.name := "#1043"; Shopify.createdAt := "";
                Shopify.displayFulfillmentStatus := Some "UNFULFILLED";
                Shopify.fulfillments := Some [] |} eq_refl)).
  reflexivity.
Defined.

(** ** The stage over time *)

Lemma rank_stageOfAge_mono (d1 d2 : Z) :
  d1 ≤ d2 → rank (stageOfAge d1) ≤ rank (stageOfAge d2).
Proof.
  intros Hle. unfold stageOfAge.
  repeat case_decide; try lia; by vm_compute.
Qed.

Lemma daysSince_mono (rt1 rt2 : Runtime) (node : Shopify.OrderNode) :
  now rt1 ≤ now rt2 → (∀ s, parseDate rt1 s = parseDate rt2 s) →
  (Shared.daysSince rt1 node = Js.NaN ∧ Shared.daysSince rt2 node = Js.NaN)
  ∨ ∃ d1 d2, Shared.daysSince rt1 node = Js.Num d1
             ∧ Shared.daysSince rt2 node = Js.Num d2 ∧ d1 ≤ d2.
Proof.
  intros Hnow Hparse. unfold Shared.daysSince. rewrite <- Hparse.
  destruct (parseDate rt1 (Shopify.createdAt node)) as [created|]; [|by left].
  right. eexists _, _. split; [done|]. split; [done|].
  apply Z.div_le_mono; [by rewrite msPerDay_value | lia].
Qed.

(** X11. The reported stage never moves backwards as time passes: for one
    and the same order record, a later current time gives a [daysSince] that
    is not smaller and a stage that is not earlier on the way processing,
    packing, shipped, in both handlers. *)
Theorem stage_never_regresses (rt1 rt2 : Runtime) (node : Shopify.OrderNode) :
  now rt1 ≤ now rt2 →
  (∀ s, parseDate rt1 s = parseDate rt2 s) →
  rank (Http.stage (Progress.payload rt1 node))
  ≤ rank (Http.stage (Progress.payload rt2 node))
  ∧ rank (Http.stage (OrderStatus.payload rt1 node))
    ≤ rank (Http.stage (OrderStatus.payload rt2 node))
  ∧ (∀ d1 d2, Http.daysSince (Progress.payload rt1 node) = Js.Num d1 →
              Http.daysSince (Progress.payload rt2 node) = Js.Num d2 → d1 ≤ d2)
  ∧ (∀ d1 d2, Http.daysSince (OrderStatus.payload rt1 node) = Js.Num d1 →
              Http.daysSince (OrderStatus.payload rt2 node) = Js.Num d2 → d1 ≤ d2).
Proof.
  intros Hnow Hparse.
  destruct (daysSince_mono rt1 rt2 node Hnow Hparse)
    as [[H1 H2] | (d1 & d2 & H1 & H2 & Hle)].
  - split; [|split; [|split]].
    + unfold Progress.payload. by rewrite H1, H2.
    + unfold OrderStatus.payload. by rewrite H1, H2.
    + intros e1 e2. cbn [Progress.payload Http.daysSince]. by rewrite H1.
    + intros e1 e2. cbn [OrderStatus.payload Http.daysSince]. by rewrite H1.
  - pose proof (rank_stageOfAge_mono d1 d2 Hle) as Hrank. split; [|split; [|split]].
    + unfold Progress.payload, Progress.stageObj. cbn [Http.stage].
      rewrite H1, H2.
      destruct (Progress.hasTracking node || Progress.isFulfilled node); [done|].
      by rewrite !Progress_computeStage_age.
    + unfold OrderStatus.payload, OrderStatus.stage. cbn [Http.stage].
      rewrite H1, H2.
      destruct (OrderStatus.hasTracking node || OrderStatus.isFulfilled node); [done|].
      by rewrite !OrderStatus_computeStage_age.
    + intros e1 e2. cbn [Progress.payload Http.daysSince]. rewrite H1, H2.
      by intros [= <-] [= <-].
    + intros e1 e2. cbn [OrderStatus.payload Http.daysSince]. rewrite H1, H2.
      by intros [= <-] [= <-].
Qed.

Lemma packing_after_processing :
  rank (Http.stage
          (Progress.payload (exampleRuntime theShop None oneDay unfulfilled) unfulfilled))
  ≤ rank (Http.stage
            (Progress.payload (exampleRuntime theShop None (3 * oneDay) unfulfilled)
               unfulfilled)).
Proof.
  refine (proj1 (stage_never_regresses
            (exampleRuntime theShop None oneDay unfulfilled)
            (exampleRuntime theShop None (3 * oneDay) unfulfilled) unfulfilled _ _)).
  - vm_compute. discriminate.
  - reflexivity.
Defined.

(** ** The two handlers on data as the Shopify API delivers it *)

Lemma bool_eq_iff (a b : bool) : (a = true ↔ b = true) → a = b.
Proof. destruct a, b; intros [H1 H2]; try done; [by rewrite H1 | by rewrite H2]. Qed.

Lemma payload_message (rt : Runtime) (node : Shopify.OrderNode) :
  Http.message (Progress.payload rt node)
  = OrderStatus.getMessage (Http.stage (Progress.payload rt node))
  ∧ Http.message (OrderStatus.payload rt node)
    = OrderStatus.getMessage (Http.stage (OrderStatus.payload rt node)).
Proof.
  split; [|done].
  unfold Progress.payload, Progress.stageObj. cbn [Http.stage Http.message].
  destruct (Progress.hasTracking node || Progress.isFulfilled node); [done|].
  by destruct (computeStage_cases (Shared.daysSince rt node))
    as [[_ ->] | [[_ ->] | [_ ->]]].
Qed.

(** X12. On order records whose fulfillment status is written in upper
    case and whose tracking entries carry no tracking URL, which is what the
    GraphQL document of api/order-status.js asks for, the two handlers
    compute the same stage, message and [daysSince]. *)
Theorem handlers_agree_on_upper_case_status_without_url
    (rt : Runtime) (node : Shopify.OrderNode) :
  (∀ s, Shopify.displayFulfillmentStatus node = Some s → Js.toUpperCase s = s) →
  (∀ t, trackingEntry node t → ¬ nonEmpty (Shopify.url t)) →
  Http.stage (Progress.payload rt node) = Http.stage (OrderStatus.payload rt node)
  ∧ Http.message (Progress.payload rt node) = Http.message (OrderStatus.payload rt node)
  ∧ Http.daysSince (Progress.payload rt node) = Http.daysSince (OrderStatus.payload rt node)
  ∧ Http.orderName (Progress.payload rt node) = Http.orderName (OrderStatus.payload rt node).
Proof.
  intros Hupper Hnourl.
  assert (Progress.isFulfilled node = OrderStatus.isFulfilled node) as Hf.
  { unfold Progress.isFulfilled, OrderStatus.isFulfilled.
    destruct (Shopify.displayFulfillmentStatus node) as [s|] eqn:Hs; [|done].
    simpl. by rewrite Hupper. }
  assert (Progress.hasTracking node = OrderStatus.hasTracking node) as Ht.
  { apply bool_eq_iff.
    rewrite Progress_hasTracking_tracked, OrderStatus_hasTracking_trackedByNumber.
    split.
    - intros (t & Hentry & [Hn | Hu]); [by exists t|]. by destruct (Hnourl t).
    - apply trackedByNumber_tracked. }
  assert (Http.stage (Progress.payload rt node) = Http.stage (OrderStatus.payload rt node))
    as Hstage.
  { unfold Progress.payload, OrderStatus.payload, Progress.stageObj, OrderStatus.stage.
    cbn [Http.stage]. rewrite Hf, Ht.
    destruct (OrderStatus.hasTracking node || OrderStatus.isFulfilled node); [done|].
    by destruct (computeStage_cases (Shared.daysSince rt node))
      as [[-> ->] | [[-> ->] | [-> ->]]]. }
  split; [done|]. split; [|done].
  destruct (payload_message rt node) as [-> ->]. by rewrite Hstage.
Qed.

Lemma handlers_agree_on_an_unfulfilled_order :
  Http.stage (Progress.payload (exampleRuntime theShop None (3 * oneDay) unfulfilled)
                unfulfilled)
  = Http.stage (OrderStatus.payload (exampleRuntime theShop None (3 * oneDay) unfulfilled)
                  unfulfilled).
Proof.
  refine (proj1 (handlers_agree_on_upper_case_status_without_url
            (exampleRuntime theShop None (3 * oneDay) unfulfilled) unfulfilled _ _)).
  - intros s [= <-]. reflexivity.
  - intros t (fs & f & ts & [= <-] & Hf & _). by apply elem_of_nil in Hf.
Defined.

(** ** The parameter object and the order of the query string *)

Lemma get_Some_elem (l : list (string * string)) (k v : string) :
  Http.get l k = Some v → (k, v) ∈ l.
Proof.
  induction l as [|[k' v'] l IH]; simpl; [done|].
  destruct (String.eqb_spec k' k) as [->|Hne].
  - intros [= ->]. by left.
  - intros H. right. by apply IH.
Qed.

Lemma get_NoDup (l : list (string * string)) (k v : string) :
  NoDup l.*1 → (k, v) ∈ l → Http.get l k = Some v.
Proof.
  induction l as [|[k' v'] l IH]; simpl; [by intros _ ?%elem_of_nil|].
  intros [Hnotin Hnodup]%NoDup_cons [[= -> ->] | Hin]%elem_of_cons.
  - by rewrite String.eqb_refl.
  - destruct (String.eqb_spec k' k) as [->|Hne]; [|by apply IH].
    destruct Hnotin. apply list_elem_of_fmap. by exists (k, v).
Qed.

Lemma fromEntries_Permutation (l1 l2 : list (string * string)) :
  NoDup l1.*1 → l1 ≡ₚ l2 → Http.fromEntries l1 = Http.fromEntries l2.
Proof.
  intros Hnodup Hperm. apply map_eq. intros k. rewrite !fromEntries_lookup.
  assert (NoDup (reverse l1).*1) as Hn1.
  { by rewrite reverse_Permutation. }
  assert (NoDup (reverse l2).*1) as Hn2.
  { by rewrite reverse_Permutation, <- Hperm. }
  apply option_eq. intros v. split.
  - intros Hin%get_Some_elem. apply get_NoDup; [done|].
    rewrite elem_of_reverse in *. by rewrite <- Hperm.
  - intros Hin%get_Some_elem. apply get_NoDup; [done|].
    rewrite elem_of_reverse in *. by rewrite Hperm.
Qed.

(** X13. The signature check does not depend on the order of the query
    parameters: two requests whose entries are permutations of each other,
    no key occurring twice, have the same parameter object, the same signed
    message and digest, and get the same verdict from the Authenticator of
    either handler. *)
Theorem signature_check_ignores_parameter_order
    (req1 req2 : Http.Request) (secret : string) :
  NoDup (Http.searchParams req1).*1 →
  Http.searchParams req1 ≡ₚ Http.searchParams req2 →
  Shared.params req1 = Shared.params req2
  ∧ Shared.message req1 = Shared.message req2
  ∧ Shared.digest req1 secret = Shared.digest req2 secret
  ∧ Progress.verifyProxySignature req1 secret = Progress.verifyProxySignature req2 secret
  ∧ OrderStatus.verifyProxySignature req1 secret
    = OrderStatus.verifyProxySignature req2 secret.
Proof.
  intros Hnodup Hperm.
  assert (Shared.params req1 = Shared.params req2) as Hparams.
  { unfold Shared.params. by apply fromEntries_Permutation. }
  split; [done|].
  unfold Progress.verifyProxySignature, OrderStatus.verifyProxySignature,
    Shared.digest, Shared.message, Shared.provided, Shared.signedParams.
  by rewrite Hparams.
Qed.

Lemma reversed_query_string_signs_the_same :
  Shared.message
    (exampleRequest
       [("signature", "15016f8e17c6398aee5c2e1aba5adf30d169f0f2b6bed121d47701f13e981860");
        ("timestamp", "1793188800"); ("order", "1043")])
  = Shared.message
      (exampleRequest
         [("order", "1043"); ("timestamp", "1793188800");
          ("signature", "15016f8e17c6398aee5c2e1aba5adf30d169f0f2b6bed121d47701f13e981860")]).
Proof.
  refine (proj1 (proj2 (signature_check_ignores_parameter_order
            (exampleRequest
               [("signature", "15016f8e17c6398aee5c2e1aba5adf30d169f0f2b6bed121d47701f13e981860");
                ("timestamp", "1793188800"); ("order", "1043")])
            (exampleRequest
               [("order", "1043"); ("timestamp", "1793188800");
                ("signature", "15016f8e17c6398aee5c2e1aba5adf30d169f0f2b6bed121d47701f13e981860")])
            "shpss_test_secret" _ _))).
  - apply (bool_decide_unpack _). vm_compute. exact I.
  - symmetry.
    exact (reverse_Permutation
             [("signature", "15016f8e17c6398aee5c2e1aba5adf30d169f0f2b6bed121d47701f13e981860");
              ("timestamp", "1793188800"); ("order", "1043")]).
Defined.

(** ** A repeated parameter *)

Lemma fromEntries_shadowed (entries : list (string * string)) (k v : string) :
  k ∈ entries.*1 → Http.fromEntries ((k, v) :: entries) = Http.fromEntries entries.
Proof.
  intros Hin. apply map_eq. intros k'. rewrite !fromEntries_lookup.
  rewrite reverse_cons, get_app.
  destruct (Http.get (reverse entries) k') as [v'|] eqn:Hget; [done|].
  simpl. destruct (String.eqb_spec k k') as [<-|Hne]; [|done].
  apply get_None in Hget. destruct Hget.
  by rewrite fmap_reverse, elem_of_reverse.
Qed.

Lemma admitted_ext (v : Variant) (rt : Runtime) (req1 req2 : Http.Request) :
  (∀ secret, verify v req1 secret = verify v req2 secret) →
  admitted v rt req2 → admitted v rt req1.
Proof.
  intros Hverify (chk & Hgate & Hok). exists chk. split; [|done].
  unfold gate in *. by rewrite Hverify.
Qed.

Lemma verify_params (req1 req2 : Http.Request) (secret : string) :
  Shared.params req1 = Shared.params req2 →
  Progress.verifyProxySignature req1 secret = Progress.verifyProxySignature req2 secret
  ∧ OrderStatus.verifyProxySignature req1 secret
    = OrderStatus.verifyProxySignature req2 secret.
Proof.
  intros Hparams.
  unfold Progress.verifyProxySignature, OrderStatus.verifyProxySignature,
    Shared.digest, Shared.message, Shared.provided, Shared.signedParams.
  by rewrite Hparams.
Qed.

Lemma admitted_calls (v : Variant) (rt : Runtime) (req : Http.Request) :
  configured rt → admitted v rt req → order v req ≠ "" →
  Flow.calls (tree v rt req) = [lookupCall v rt req].
Proof.
  intros Hc (chk & Hgate & Hok) Horder.
  by rewrite (tree_lookup v rt req chk Hc Hgate Hok Horder).
Qed.

(** X14. With the [order] parameter given twice, the signature covers the
    last value and the lookup uses the first.  A request made from an
    admitted one by putting another [order] entry in front has the same
    parameter object and gets the same verdict from the Authenticator, and
    the handler looks up the order named by the entry in front, with the
    email of the admitted request. *)
Theorem first_order_is_looked_up_last_is_signed
    (rt : Runtime) (signed sent : Http.Request) (first : string) :
  Http.searchParams sent = ("order", first) :: Http.searchParams signed →
  "order" ∈ (Http.searchParams signed).*1 →
  Shared.params sent = Shared.params signed
  ∧ (∀ secret,
       Progress.verifyProxySignature sent secret
       = Progress.verifyProxySignature signed secret
       ∧ OrderStatus.verifyProxySignature sent secret
         = OrderStatus.verifyProxySignature signed secret)
  ∧ Progress.orderParam sent = Js.trim first
  ∧ OrderStatus.orderParam sent = Js.trim first
  ∧ (configured rt → admitted progress rt signed → Js.trim first ≠ "" →
     Flow.calls (Progress.handler rt sent) = [lookupCall progress rt sent]
     ∧ Shopify.q (lookupCall progress rt sent)
       = Progress.queryString (Js.trim first) (Progress.emailParam signed))
  ∧ (configured rt → admitted orderStatus rt signed → Js.trim first ≠ "" →
     Flow.calls (OrderStatus.handler rt sent) = [lookupCall orderStatus rt sent]
     ∧ Shopify.q (lookupCall orderStatus rt sent)
       = OrderStatus.queryString (Js.trim first) (OrderStatus.emailParam signed)).
Proof.
  intros Hsent Hin.
  assert (Shared.params sent = Shared.params signed) as Hparams.
  { unfold Shared.params. rewrite Hsent. by apply fromEntries_shadowed. }
  assert (Progress.orderParam sent = Js.trim first) as Hp.
  { unfold Progress.orderParam. rewrite Hsent.
    change (Http.get (("order", first) :: Http.searchParams signed) "order")
      with (Some first).
    by rewrite or_default_empty. }
  assert (OrderStatus.orderParam sent = Js.trim first) as Ho.
  { unfold OrderStatus.orderParam. rewrite Hsent.
    change (Http.get (("order", first) :: Http.searchParams signed) "order")
      with (Some first).
    by rewrite or_default_empty. }
  split; [done|]. split; [intros secret; by apply verify_params|].
  split; [done|]. split; [done|]. split.
  - intros Hc Hadm Hne. split.
    + rewrite Progress_handler_tree. apply admitted_calls; [done| |by cbn; rewrite Hp].
      apply (admitted_ext progress rt sent signed); [|done].
      intros secret. by apply verify_params.
    + cbn [lookupCall Shopify.q progress search]. rewrite Hp.
      unfold Progress.emailParam. by rewrite Hsent.
  - intros Hc Hadm Hne. split.
    + rewrite OrderStatus_handler_tree. apply admitted_calls; [done| |by cbn; rewrite Ho].
      apply (admitted_ext orderStatus rt sent signed); [|done].
      intros secret. by apply verify_params.
    + cbn [lookupCall Shopify.q orderStatus search]. rewrite Ho.
      unfold OrderStatus.emailParam. by rewrite Hsent.
Qed.

Lemma signature_for_9999_looks_up_1043 :
  Shopify.q
    (lookupCall progress (exampleRuntime theShop theSecret 0 unfulfilled)
       (exampleRequest
          [("order", "1043"); ("order", "9999");
           ("signature",
            "3044cb787ccc5e3875e7694f54ad73c38b509128789b6f220972dfc7b1aa8b99")]))
  = "(name:#1043 OR name:1043)".
Proof.
  refine (proj2 (proj1 (proj2 (proj2 (proj2 (proj2
            (first_order_is_looked_up_last_is_signed
               (exampleRuntime theShop theSecret 0 unfulfilled)
               (exampleRequest
                  [("order", "9999");
                   ("signature",
                    "3044cb787ccc5e3875e7694f54ad73c38b509128789b6f220972dfc7b1aa8b99")])
               (exampleRequest
                  [("order", "1043"); ("order", "9999");
                   ("signature",
                    "3044cb787ccc5e3875e7694f54ad73c38b509128789b6f220972dfc7b1aa8b99")])
               "1043" eq_refl _))))) _ _ _)).
  - apply (bool_decide_unpack _). vm_compute. exact I.
  - split; reflexivity.
  - eexists. split; [vm_compute; reflexivity | reflexivity].
  - vm_compute. discriminate.
Defined.

(** ** Where the lookup goes *)

Lemma versionOr_spec (fallback : string) (rt : Runtime) :
  Js.or_default (Http.SHOPIFY_API_VERSION (env rt)) fallback = versionOr fallback rt.
Proof.
  unfold versionOr, Js.or_default, Js.truthy.
  destruct (Http.SHOPIFY_API_VERSION (env rt)) as [version|]; [|done].
  case_decide as Hv; [by subst|].
  by destruct version.
Qed.

Lemma versionOr_nonempty (fallback : string) (rt : Runtime) :
  fallback ≠ "" → versionOr fallback rt ≠ "".
Proof.
  intros Hf. unfold versionOr.
  destruct (Http.SHOPIFY_API_VERSION (env rt)) as [version|]; [|done].
  by case_decide.
Qed.

Lemma truthy_template (o : option string) :
  Js.truthy o = true → o = Some (Shared.template o) ∧ Shared.template o ≠ "".
Proof.
  unfold Js.truthy, Shared.template. destruct o as [[|c s]|]; try done.
Qed.

Lemma tree_call_target (v : Variant) (rt : Runtime) (req : Http.Request) (c : Shopify.Call) :
  c ∈ Flow.calls (tree v rt req) →
  Http.SHOPIFY_SHOP (env rt) = Some (Shopify.shop c) ∧ Shopify.shop c ≠ ""
  ∧ Http.SHOPIFY_ACCESS_TOKEN (env rt) = Some (Shopify.token c) ∧ Shopify.token c ≠ ""
  ∧ Shopify.apiVersion c = versionOr (defaultVersion v) rt
  ∧ Shopify.query c = document v.
Proof.
  intros (-> & _ & _ & [Hshop Htoken] & _)%tree_calls.
  cbn [lookupCall Shopify.shop Shopify.token Shopify.apiVersion Shopify.query].
  destruct (truthy_template _ Hshop) as [? ?].
  destruct (truthy_template _ Htoken) as [? ?].
  by rewrite versionOr_spec.
Qed.

(** X15. Every upstream call goes to the configured shop with the
    configured access token, neither of them empty, carries the handler's
    GraphQL document, and names the configured API version, an unset or
    empty version counting as the default: 2026-01 in part_000, 2025-01 in
    api/order-status.js.  The version is never empty. *)
Theorem every_lookup_goes_to_the_configured_shop
    (rt : Runtime) (req : Http.Request) (c : Shopify.Call) :
  (c ∈ Flow.calls (Progress.handler rt req) →
   Http.SHOPIFY_SHOP (env rt) = Some (Shopify.shop c) ∧ Shopify.shop c ≠ ""
   ∧ Http.SHOPIFY_ACCESS_TOKEN (env rt) = Some (Shopify.token c) ∧ Shopify.token c ≠ ""
   ∧ Shopify.apiVersion c = versionOr "2026-01" rt ∧ Shopify.apiVersion c ≠ ""
   ∧ Shopify.query c = Progress.GetOrder)
  ∧ (c ∈ Flow.calls (OrderStatus.handler rt req) →
     Http.SHOPIFY_SHOP (env rt) = Some (Shopify.shop c) ∧ Shopify.shop c ≠ ""
     ∧ Http.SHOPIFY_ACCESS_TOKEN (env rt) = Some (Shopify.token c) ∧ Shopify.token c ≠ ""
     ∧ Shopify.apiVersion c = versionOr "2025-01" rt ∧ Shopify.apiVersion c ≠ ""
     ∧ Shopify.query c = OrderStatus.GetOrder).
Proof.
  split.
  - rewrite Progress_handler_tree.
    intros (Hs & Hs' & Ht & Ht' & Hv & Hq)%tree_call_target.
    repeat (split; [done|]). split; [|done].
    rewrite Hv. by apply versionOr_nonempty.
  - rewrite OrderStatus_handler_tree.
    intros (Hs & Hs' & Ht & Ht' & Hv & Hq)%tree_call_target.
    repeat (split; [done|]). split; [|done].
    rewrite Hv. by apply versionOr_nonempty.
Qed.

(** ** The timeline of the status page *)

Lemma OrderStatus_payload_stage (rt : Runtime) (node : Shopify.OrderNode) :
  Http.stage (OrderStatus.payload rt node) ∈ ["processing"; "packing"; "shipped"].
Proof.
  unfold OrderStatus.payload, OrderStatus.stage. cbn [Http.stage].
  destruct (OrderStatus.hasTracking node || OrderStatus.isFulfilled node); [in_list|].
  destruct (computeStage_cases (Shared.daysSince rt node))
    as [[-> _] | [[-> _] | [-> _]]]; in_list.
Qed.

(** X16. The status page of api/order-status.js highlights exactly the
    steps reached.  For every page the handler renders, [findIndex] finds
    the stage among the steps (it never returns -1), the index found is the
    stage's position on the way processing, packing, shipped, and a step of
    the timeline carries the class [active] exactly when its own stage is
    not later than the reported one; so the first step is always
    highlighted, and all three are for a shipped order. *)
Theorem timeline_highlights_the_steps_reached (rt : Runtime) (node : Shopify.OrderNode) :
  Timeline.currentIndex (Http.stage (OrderStatus.payload rt node))
  = rank (Http.stage (OrderStatus.payload rt node))
  ∧ (∀ index step, Timeline.steps !! index = Some step →
       (Timeline.active (Http.stage (OrderStatus.payload rt node)) index = true ↔
        rank (Timeline.key step) ≤ rank (Http.stage (OrderStatus.payload rt node))))
  ∧ Timeline.timeline (Http.stage (OrderStatus.payload rt node))
    = String.concat ""
        ((λ step,
           Timeline.stepHtml
             (bool_decide (rank (Timeline.key step)
                           ≤ rank (Http.stage (OrderStatus.payload rt node))))
             step) <$> Timeline.steps)
  ∧ Timeline.active (Http.stage (OrderStatus.payload rt node)) 0 = true
  ∧ (Http.stage (OrderStatus.payload rt node) = "shipped" →
     ∀ index, (index < length Timeline.steps)%nat →
       Timeline.active (Http.stage (OrderStatus.payload rt node)) index = true).
Proof.
  pose proof (OrderStatus_payload_stage rt node) as Hstage.
  assert (Http.stage (OrderStatus.payload rt node) = "processing"
          ∨ Http.stage (OrderStatus.payload rt node) = "packing"
          ∨ Http.stage (OrderStatus.payload rt node) = "shipped") as Hcases.
  { rewrite !elem_of_cons in Hstage. destruct Hstage as [?|[?|[?|[]%elem_of_nil]]]; auto. }
  assert (∀ stage, stage = "processing" ∨ stage = "packing" ∨ stage = "shipped" →
            ∀ index step, Timeline.steps !! index = Some step →
              (Timeline.active stage index = true ↔
               rank (Timeline.key step) ≤ rank stage)) as Hactive.
  { intros stage Hs index step Hlook. unfold Timeline.active.
    rewrite bool_decide_eq_true.
    destruct index as [|[|[|index]]]; simpl in Hlook; [| | |done];
      injection Hlook as <-;
      destruct Hs as [-> | [-> | ->]]; by vm_compute. }
  split; [by destruct Hcases as [-> | [-> | ->]]|].
  split; [by apply Hactive|].
  split; [by destruct Hcases as [-> | [-> | ->]]|].
  split; [by destruct Hcases as [-> | [-> | ->]]|].
  intros -> index Hindex. simpl in Hindex.
  destruct index as [|[|[|index]]]; [done..|lia].
Qed.
